(** * wa-sticker-formatter: the compliance validator and the adaptive transcoder

    A shallow embedding of
      - [src/internal/WhatsAppValidation.ts]  (class [WhatsAppValidator]),
      - [src/internal/videoToGif_optimized.ts] (function [videoToGif]),
      - the adaptive converter [adaptiveVideoToWebp],
    followed by the properties the design document states about them.

    JavaScript numbers that hold byte counts, pixel counts and lengths are
    integers and are modelled in [Z].  A JavaScript string is a [string]
    holding its text in UTF-8, as the source file has its literals; the
    [.length] of the source counts UTF-16 code units and is [strlen] below.
    Code that mutates an object and may throw is written in a small
    state-and-exception monad, so that a [catch] block sees the object as
    the failed [try] block left it. *)

From stdpp Require Import gmap strings list.
From Stdlib Require Import ZArith Lia Ascii DecimalString.
From Stdlib.Strings Require Import Byte.

Local Open Scope string_scope.
Local Open Scope Z_scope.

(** ** Thrown values and outcomes of a call *)

(** What a JavaScript [throw] carries: an [Error] object with its [message],
    or any other value, of which only [String(value)] is ever observed. *)
Inductive Thrown :=
| JsError (message : string)
| JsValue (text : string).

(** [error instanceof Error ? error.message : String(error)] *)
Definition describe (error : Thrown) : string :=
  match error with
  | JsError message => message
  | JsValue text => text
  end.

Inductive Outcome (A : Type) :=
| Returns (a : A)
| Throws (error : Thrown).
Arguments Returns {A} a.
Arguments Throws {A} error.

(** ** State and exceptions *)

Definition Eff (S A : Type) : Type := S -> S * Outcome A.

Definition ret {S A} (a : A) : Eff S A := fun s => (s, Returns a).

Definition bind {S A B} (m : Eff S A) (k : A -> Eff S B) : Eff S B :=
  fun s =>
    match m s with
    | (s', Returns a) => k a s'
    | (s', Throws e) => (s', Throws e)
    end.

Definition throw {S A} (e : Thrown) : Eff S A := fun s => (s, Throws e).

(** [try { body } catch (e) { handler e }]: the handler starts from the state
    in which the body stopped. *)
Definition try_catch {S A} (body : Eff S A) (handler : Thrown -> Eff S A) : Eff S A :=
  fun s =>
    match body s with
    | (s', Returns a) => (s', Returns a)
    | (s', Throws e) => handler e s'
    end.

Definition get {S} : Eff S S := fun s => (s, Returns s).
Definition modify {S} (f : S -> S) : Eff S unit := fun s => (f s, Returns tt).

(** The result of a call to an external collaborator. *)
Definition lift {S A} (o : Outcome A) : Eff S A := fun s => (s, o).

Notation "'let*' x ':=' m 'in' k" := (bind m (fun x => k))
  (at level 10, x name, m at level 100, k at level 200).
Notation "m ';;' k" := (bind m (fun _ => k))
  (at level 100, k at level 200, right associativity).

(** ** Numbers as text *)

(** [String(n)] and [${n}] for an integer [n]. *)
Definition String_of (n : Z) : string := NilZero.string_of_int (Z.to_int n).

(** [(size / 1024).toFixed(1)] for a byte count [size >= 0].  Dividing by
    1024 is exact in binary floating point, and [toFixed(1)] picks the
    integer [n] with [n / 10] nearest to the value, the larger one on a tie;
    that is [n = floor ((10 * size + 512) / 1024)]. *)
Definition toFixed1_KB (size : Z) : string :=
  let n := (10 * size + 512) / 1024 in
  String_of (n / 10) +:+ "." +:+ String_of (n mod 10).

(** ** Buffers *)

Definition Buffer : Type := list byte.

(** [buffer.length] *)
Definition buffer_length (buffer : Buffer) : Z := Z.of_nat (length buffer).

(** ** WHATSAPP_LIMITS *)

Module WHATSAPP_LIMITS.
Definition STATIC_MAX_SIZE : Z := 100 * 1024.
Definition ANIMATED_MAX_SIZE : Z := 500 * 1024.
Definition TRAY_ICON_MAX_SIZE : Z := 50 * 1024.
Definition STICKER_SIZE : Z := 512.
Definition TRAY_ICON_SIZE : Z := 96.
Definition PACK_NAME_MAX_LENGTH : Z := 128.
Definition AUTHOR_MAX_LENGTH : Z := 128.
Definition ID_MAX_LENGTH : Z := 128.
Definition MAX_CATEGORIES_PER_STICKER : Z := 3.
Definition MIN_CATEGORIES_PER_STICKER : Z := 1.
Definition MAX_ANIMATION_DURATION : Z := 10.
Definition MIN_FRAME_DURATION : Z := 8.
Definition RECOMMENDED_QUALITY_MIN : Z := 75.
Definition RECOMMENDED_FILE_SIZE : Z := 15 * 1024.
End WHATSAPP_LIMITS.

(** ** The validation result (interface [IWhatsAppValidationResult]) *)

Inductive StickerKind := static | animated.

Definition kind_name (k : StickerKind) : string :=
  match k with static => "static" | animated => "animated" end.

Module FileSize.
Record t := { size : Z; isValid : bool; limit : Z; type : StickerKind }.
End FileSize.

Module Dimensions.
Record t := { width : Z; height : Z; isValid : bool }.
End Dimensions.

(** The shape shared by [metadata.pack], [metadata.author] and [metadata.id]. *)
Module TextField.
Record t := { value : string; isValid : bool; limit : Z }.
End TextField.

Module CategoriesField.
Record t := { value : list string; isValid : bool; count : Z; limit : Z }.
End CategoriesField.

Module MetadataReport.
Record t := {
  pack : TextField.t;
  author : TextField.t;
  id : TextField.t;
  categories : CategoriesField.t
}.
End MetadataReport.

Record IWhatsAppValidationResult := {
  isValid : bool;
  errors : list string;
  warnings : list string;
  fileSize : FileSize.t;
  dimensions : Dimensions.t;
  metadata : MetadataReport.t
}.

(** The caller's metadata, [Partial<IStickerOptions>]: every field may be
    absent.  Only the four fields the validator reads are kept. *)
Record IStickerOptions := {
  opt_pack : option string;
  opt_author : option string;
  opt_id : option string;
  opt_categories : option (list string)
}.

(** ** External collaborators of the validator *)

(** What [fromBuffer] of [file-type] resolves to when it recognises the data. *)
Record FileTypeResult := { ext : string; mime : string }.

(** The fields of sharp's [metadata()] the validator reads; each may be
    [undefined]. *)
Record SharpMetadata := {
  md_width : option Z;
  md_height : option Z;
  md_pages : option Z
}.

(** ** Assignments to the fields of the result object *)

Definition set_isValid (b : bool) (r : IWhatsAppValidationResult) :=
  {| isValid := b; errors := errors r; warnings := warnings r;
     fileSize := fileSize r; dimensions := dimensions r; metadata := metadata r |}.

Definition set_errors (l : list string) (r : IWhatsAppValidationResult) :=
  {| isValid := isValid r; errors := l; warnings := warnings r;
     fileSize := fileSize r; dimensions := dimensions r; metadata := metadata r |}.

Definition set_warnings (l : list string) (r : IWhatsAppValidationResult) :=
  {| isValid := isValid r; errors := errors r; warnings := l;
     fileSize := fileSize r; dimensions := dimensions r; metadata := metadata r |}.

Definition set_fileSize (f : FileSize.t) (r : IWhatsAppValidationResult) :=
  {| isValid := isValid r; errors := errors r; warnings := warnings r;
     fileSize := f; dimensions := dimensions r; metadata := metadata r |}.

Definition set_dimensions (d : Dimensions.t) (r : IWhatsAppValidationResult) :=
  {| isValid := isValid r; errors := errors r; warnings := warnings r;
     fileSize := fileSize r; dimensions := d; metadata := metadata r |}.

Definition set_metadata (m : MetadataReport.t) (r : IWhatsAppValidationResult) :=
  {| isValid := isValid r; errors := errors r; warnings := warnings r;
     fileSize := fileSize r; dimensions := dimensions r; metadata := m |}.

(** [result.fileSize.size = v] and its siblings *)
Definition set_fileSize_size (v : Z) (r : IWhatsAppValidationResult) :=
  let f := fileSize r in
  set_fileSize {| FileSize.size := v; FileSize.isValid := FileSize.isValid f;
                  FileSize.limit := FileSize.limit f; FileSize.type := FileSize.type f |} r.

Definition set_fileSize_isValid (v : bool) (r : IWhatsAppValidationResult) :=
  let f := fileSize r in
  set_fileSize {| FileSize.size := FileSize.size f; FileSize.isValid := v;
                  FileSize.limit := FileSize.limit f; FileSize.type := FileSize.type f |} r.

Definition set_fileSize_limit (v : Z) (r : IWhatsAppValidationResult) :=
  let f := fileSize r in
  set_fileSize {| FileSize.size := FileSize.size f; FileSize.isValid := FileSize.isValid f;
                  FileSize.limit := v; FileSize.type := FileSize.type f |} r.

Definition set_fileSize_type (v : StickerKind) (r : IWhatsAppValidationResult) :=
  let f := fileSize r in
  set_fileSize {| FileSize.size := FileSize.size f; FileSize.isValid := FileSize.isValid f;
                  FileSize.limit := FileSize.limit f; FileSize.type := v |} r.

(** [result.dimensions.width = v] and its siblings *)
Definition set_dimensions_width (v : Z) (r : IWhatsAppValidationResult) :=
  let d := dimensions r in
  set_dimensions {| Dimensions.width := v; Dimensions.height := Dimensions.height d;
                    Dimensions.isValid := Dimensions.isValid d |} r.

Definition set_dimensions_height (v : Z) (r : IWhatsAppValidationResult) :=
  let d := dimensions r in
  set_dimensions {| Dimensions.width := Dimensions.width d; Dimensions.height := v;
                    Dimensions.isValid := Dimensions.isValid d |} r.

Definition set_dimensions_isValid (v : bool) (r : IWhatsAppValidationResult) :=
  let d := dimensions r in
  set_dimensions {| Dimensions.width := Dimensions.width d;
                    Dimensions.height := Dimensions.height d;
                    Dimensions.isValid := v |} r.

(** [field.value = v] and [field.isValid = v] on a text field *)
Definition text_set_value (v : string) (f : TextField.t) : TextField.t :=
  {| TextField.value := v; TextField.isValid := TextField.isValid f;
     TextField.limit := TextField.limit f |}.

Definition text_set_isValid (v : bool) (f : TextField.t) : TextField.t :=
  {| TextField.value := TextField.value f; TextField.isValid := v;
     TextField.limit := TextField.limit f |}.

(** [result.metadata.pack = f (result.metadata.pack)] and its siblings *)
Definition update_pack (f : TextField.t -> TextField.t) (r : IWhatsAppValidationResult) :=
  let m := metadata r in
  set_metadata {| MetadataReport.pack := f (MetadataReport.pack m);
                  MetadataReport.author := MetadataReport.author m;
                  MetadataReport.id := MetadataReport.id m;
                  MetadataReport.categories := MetadataReport.categories m |} r.

Definition update_author (f : TextField.t -> TextField.t) (r : IWhatsAppValidationResult) :=
  let m := metadata r in
  set_metadata {| MetadataReport.pack := MetadataReport.pack m;
                  MetadataReport.author := f (MetadataReport.author m);
                  MetadataReport.id := MetadataReport.id m;
                  MetadataReport.categories := MetadataReport.categories m |} r.

Definition update_id (f : TextField.t -> TextField.t) (r : IWhatsAppValidationResult) :=
  let m := metadata r in
  set_metadata {| MetadataReport.pack := MetadataReport.pack m;
                  MetadataReport.author := MetadataReport.author m;
                  MetadataReport.id := f (MetadataReport.id m);
                  MetadataReport.categories := MetadataReport.categories m |} r.

Definition update_categories (f : CategoriesField.t -> CategoriesField.t)
    (r : IWhatsAppValidationResult) :=
  let m := metadata r in
  set_metadata {| MetadataReport.pack := MetadataReport.pack m;
                  MetadataReport.author := MetadataReport.author m;
                  MetadataReport.id := MetadataReport.id m;
                  MetadataReport.categories := f (MetadataReport.categories m) |} r.

Definition categories_set_value (v : list string) (c : CategoriesField.t) :=
  {| CategoriesField.value := v; CategoriesField.isValid := CategoriesField.isValid c;
     CategoriesField.count := CategoriesField.count c;
     CategoriesField.limit := CategoriesField.limit c |}.

Definition categories_set_count (v : Z) (c : CategoriesField.t) :=
  {| CategoriesField.value := CategoriesField.value c;
     CategoriesField.isValid := CategoriesField.isValid c;
     CategoriesField.count := v; CategoriesField.limit := CategoriesField.limit c |}.

Definition categories_set_isValid (v : bool) (c : CategoriesField.t) :=
  {| CategoriesField.value := CategoriesField.value c; CategoriesField.isValid := v;
     CategoriesField.count := CategoriesField.count c;
     CategoriesField.limit := CategoriesField.limit c |}.

(** [result.errors.push(msg)] and [result.warnings.push(msg)] *)
Definition push_error (msg : string) : Eff IWhatsAppValidationResult unit :=
  modify (fun r => set_errors (errors r ++ [msg]) r).

Definition push_warning (msg : string) : Eff IWhatsAppValidationResult unit :=
  modify (fun r => set_warnings (warnings r ++ [msg]) r).

(** ** Message texts *)

(** The double-quote character, which the charset message contains. *)
Definition dq : string := String (Ascii.Ascii false true false false false true false false) EmptyString.

Definition msg_file_size_exceeds (size limit : Z) (isAnimated : bool) : string :=
  "File size " +:+ toFixed1_KB size +:+ "KB exceeds WhatsApp limit of "
  +:+ toFixed1_KB limit +:+ "KB for "
  +:+ (if isAnimated then "animated" else "static") +:+ " stickers".

Definition msg_file_size_large (size : Z) : string :=
  "File size " +:+ toFixed1_KB size
  +:+ "KB is much larger than the recommended ~15KB for optimal performance".

Definition msg_dimensions (width height : Z) : string :=
  "Sticker dimensions " +:+ String_of width +:+ "x" +:+ String_of height
  +:+ " must be exactly " +:+ String_of WHATSAPP_LIMITS.STICKER_SIZE +:+ "x"
  +:+ String_of WHATSAPP_LIMITS.STICKER_SIZE +:+ " pixels".

Definition msg_dimensions_unreadable (error : Thrown) : string :=
  "Failed to read sticker dimensions: " +:+ describe error.

Definition msg_pack_too_long : string :=
  "Pack name exceeds " +:+ String_of WHATSAPP_LIMITS.PACK_NAME_MAX_LENGTH +:+ " character limit".

Definition msg_author_too_long : string :=
  "Author name exceeds " +:+ String_of WHATSAPP_LIMITS.AUTHOR_MAX_LENGTH +:+ " character limit".

Definition msg_id_too_long : string :=
  "Sticker ID exceeds " +:+ String_of WHATSAPP_LIMITS.ID_MAX_LENGTH +:+ " character limit".

Definition msg_id_charset : string :=
  "Sticker ID contains invalid characters. Only a-z, A-Z, 0-9, "
  +:+ dq +:+ "_" +:+ dq +:+ ", " +:+ dq +:+ "-" +:+ dq +:+ ", " +:+ dq +:+ "." +:+ dq
  +:+ ", and " +:+ dq +:+ " " +:+ dq +:+ " are allowed".

Definition msg_too_many_categories (count : Z) : string :=
  "Too many categories (" +:+ String_of count +:+ "). Maximum "
  +:+ String_of WHATSAPP_LIMITS.MAX_CATEGORIES_PER_STICKER +:+ " emojis allowed per sticker".

Definition msg_no_categories : string :=
  "No emoji categories provided. Adding 1-3 relevant emojis helps users discover your stickers through search".

Definition msg_white_stroke : string :=
  "Consider adding an 8px white stroke around your sticker for better visibility on different backgrounds (as recommended by WhatsApp)".

Definition msg_animated_detected : string :=
  "Animated sticker detected. Ensure animation duration is â‰¤10 seconds and frame duration is â‰¥8ms".

Definition msg_high_frame_count (pages : Z) : string :=
  "High frame count (" +:+ String_of pages
  +:+ "). Consider reducing frames to keep within 10-second duration limit".

Definition msg_animated_unreadable (error : Thrown) : string :=
  "Could not fully validate animated sticker properties: " +:+ describe error.

Definition msg_validation_failed (error : Thrown) : string :=
  "Validation failed: " +:+ describe error.

(** ** The regular expression of the ID check *)

(** One character of the class [[a-zA-Z0-9_\-. ]].  The pattern has no flag
    [u] and so reads the string by UTF-16 code units; the class holds ASCII
    only, and a character outside ASCII has, in UTF-8, only bytes from 128
    on.  So a string is made of allowed code units exactly when its UTF-8
    text is made of allowed bytes. *)
Definition id_char_allowed (c : ascii) : bool :=
  let n := Z.of_N (Ascii.N_of_ascii c) in
  ((97 <=? n) && (n <=? 122)) || ((65 <=? n) && (n <=? 90))
  || ((48 <=? n) && (n <=? 57))
  || (n =? 95) || (n =? 45) || (n =? 46) || (n =? 32).

Fixpoint all_chars (p : ascii -> bool) (s : string) : bool :=
  match s with
  | EmptyString => true
  | String c rest => p c && all_chars p rest
  end.

(** [/^[a-zA-Z0-9_\-. ]+$/.test(s)]: one or more characters, all of the class,
    from the start to the end of [s]. *)
Definition id_pattern_test (s : string) : bool :=
  match s with
  | EmptyString => false
  | String _ _ => all_chars id_char_allowed s
  end.

(** Truthiness of a string: [if (s)] *)
Definition truthy (s : string) : bool :=
  match s with EmptyString => false | String _ _ => true end.

(** [x || ''] for an optional string, [x || []] for an optional array *)
Definition or_empty (x : option string) : string :=
  match x with Some s => s | None => EmptyString end.

Definition or_nil (x : option (list string)) : list string :=
  match x with Some l => l | None => [] end.

(** The UTF-16 code units that begin at a byte of UTF-8 text: none at a
    continuation byte [10xxxxxx], two (a surrogate pair) at the first byte
    [11110xxx] of a four-byte sequence, one at any other first byte.  An
    unpaired surrogate, which UTF-8 proper leaves out, is taken in its
    three-byte form and counts one. *)
Definition code_units_at (c : ascii) : Z :=
  let n := Z.of_N (Ascii.N_of_ascii c) in
  if n <? 128 then 1
  else if n <? 192 then 0
  else if n <? 240 then 1
  else 2.

(** [s.length]: the number of UTF-16 code units of [s]. *)
Fixpoint strlen (s : string) : Z :=
  match s with
  | EmptyString => 0
  | String c rest => code_units_at c + strlen rest
  end.

(** ** class WhatsAppValidator *)

Module WhatsAppValidator.
Section Validator.

(** [fromBuffer(buffer)] of the file-type package: rejects, or resolves to
    [undefined] or to a detected type. *)
Variable fromBuffer : Buffer -> Outcome (option FileTypeResult).

(** [sharp(buffer).metadata()]: rejects on data it cannot decode. *)
Variable sharp_metadata : Buffer -> Outcome SharpMetadata.

Local Abbreviation Step := (Eff IWhatsAppValidationResult).

(** The object literal [validateSticker] starts from. *)
Definition fresh_result : IWhatsAppValidationResult :=
  {| isValid := true;
     errors := [];
     warnings := [];
     fileSize := {| FileSize.size := 0; FileSize.isValid := true;
                    FileSize.limit := 0; FileSize.type := static |};
     dimensions := {| Dimensions.width := 0; Dimensions.height := 0;
                      Dimensions.isValid := true |};
     metadata :=
       {| MetadataReport.pack :=
            {| TextField.value := EmptyString; TextField.isValid := true;
               TextField.limit := WHATSAPP_LIMITS.PACK_NAME_MAX_LENGTH |};
          MetadataReport.author :=
            {| TextField.value := EmptyString; TextField.isValid := true;
               TextField.limit := WHATSAPP_LIMITS.AUTHOR_MAX_LENGTH |};
          MetadataReport.id :=
            {| TextField.value := EmptyString; TextField.isValid := true;
               TextField.limit := WHATSAPP_LIMITS.ID_MAX_LENGTH |};
          MetadataReport.categories :=
            {| CategoriesField.value := []; CategoriesField.isValid := true;
               CategoriesField.count := 0;
               CategoriesField.limit := WHATSAPP_LIMITS.MAX_CATEGORIES_PER_STICKER |} |} |}.

(** The [try] block of [isAnimatedSticker]. *)
Definition isAnimatedSticker_try (buffer : Buffer) : Step bool :=
  let* fileType := lift (fromBuffer buffer) in
  match fileType with
  | None => ret false
  | Some fileType =>
      if String.eqb (mime fileType) "image/webp" then
        let* metadata := lift (sharp_metadata buffer) in
        ret (match md_pages metadata with
             | Some pages => 1 <? pages
             | None => false
             end)
      else ret (String.eqb (mime fileType) "image/gif")
  end.

Definition isAnimatedSticker (buffer : Buffer) : Step bool :=
  try_catch (isAnimatedSticker_try buffer) (fun _ => ret false).

Definition validateFileSize (buffer : Buffer) (isAnimated : bool) : Step unit :=
  let size := buffer_length buffer in
  let limit := if isAnimated then WHATSAPP_LIMITS.ANIMATED_MAX_SIZE
               else WHATSAPP_LIMITS.STATIC_MAX_SIZE in
  modify (set_fileSize_size size);;
  modify (set_fileSize_limit limit);;
  modify (set_fileSize_isValid (size <=? limit));;
  let* result := get in
  (if negb (FileSize.isValid (fileSize result))
   then push_error (msg_file_size_exceeds size limit isAnimated)
   else ret tt);;
  if WHATSAPP_LIMITS.RECOMMENDED_FILE_SIZE * 3 <? size
  then push_warning (msg_file_size_large size)
  else ret tt.

Definition validateDimensions (buffer : Buffer) : Step unit :=
  try_catch
    (let* metadata := lift (sharp_metadata buffer) in
     let width := match md_width metadata with Some w => w | None => 0 end in
     let height := match md_height metadata with Some h => h | None => 0 end in
     modify (set_dimensions_width width);;
     modify (set_dimensions_height height);;
     modify (set_dimensions_isValid
               ((width =? WHATSAPP_LIMITS.STICKER_SIZE)
                && (height =? WHATSAPP_LIMITS.STICKER_SIZE)));;
     let* result := get in
     if negb (Dimensions.isValid (dimensions result))
     then push_error (msg_dimensions width height)
     else ret tt)
    (fun error =>
       push_error (msg_dimensions_unreadable error);;
       modify (set_dimensions_isValid false)).

Definition validateMetadata (metadata : IStickerOptions) : Step unit :=
  let pack := or_empty (opt_pack metadata) in
  modify (update_pack (text_set_value pack));;
  (if WHATSAPP_LIMITS.PACK_NAME_MAX_LENGTH <? strlen pack
   then modify (update_pack (text_set_isValid false));;
        push_error msg_pack_too_long
   else ret tt);;
  let author := or_empty (opt_author metadata) in
  modify (update_author (text_set_value author));;
  (if WHATSAPP_LIMITS.AUTHOR_MAX_LENGTH <? strlen author
   then modify (update_author (text_set_isValid false));;
        push_error msg_author_too_long
   else ret tt);;
  let id := or_empty (opt_id metadata) in
  modify (update_id (text_set_value id));;
  (if WHATSAPP_LIMITS.ID_MAX_LENGTH <? strlen id
   then modify (update_id (text_set_isValid false));;
        push_error msg_id_too_long
   else ret tt);;
  (if truthy id && negb (id_pattern_test id)
   then modify (update_id (text_set_isValid false));;
        push_error msg_id_charset
   else ret tt);;
  let categories := or_nil (opt_categories metadata) in
  modify (update_categories (categories_set_value categories));;
  modify (update_categories (categories_set_count (Z.of_nat (length categories))));;
  (if WHATSAPP_LIMITS.MAX_CATEGORIES_PER_STICKER <? Z.of_nat (length categories)
   then modify (update_categories (categories_set_isValid false));;
        push_error (msg_too_many_categories (Z.of_nat (length categories)))
   else ret tt);;
  (if Z.of_nat (length categories) =? 0
   then push_warning msg_no_categories
   else ret tt);;
  push_warning msg_white_stroke.

Definition validateAnimatedSticker (buffer : Buffer) : Step unit :=
  try_catch
    (let* metadata := lift (sharp_metadata buffer) in
     match md_pages metadata with
     | Some pages =>
         if negb (pages =? 0) && (1 <? pages) then
           push_warning msg_animated_detected;;
           if 150 <? pages
           then push_warning (msg_high_frame_count pages)
           else ret tt
         else ret tt
     | None => ret tt
     end)
    (fun error => push_warning (msg_animated_unreadable error)).

(** The [try] block of [validateSticker], up to its [return result]. *)
Definition validateSticker_try (buffer : Buffer) (metadata : IStickerOptions)
  : Step IWhatsAppValidationResult :=
  let* isAnimated := isAnimatedSticker buffer in
  modify (set_fileSize_type (if isAnimated then animated else static));;
  validateFileSize buffer isAnimated;;
  validateDimensions buffer;;
  validateMetadata metadata;;
  (if isAnimated then validateAnimatedSticker buffer else ret tt);;
  modify (fun result => set_isValid (Z.of_nat (length (errors result)) =? 0) result);;
  get.

(** The [catch] block of [validateSticker]. *)
Definition validateSticker_catch (error : Thrown) : Step IWhatsAppValidationResult :=
  modify (set_isValid false);;
  push_error (msg_validation_failed error);;
  get.

(** [validateSticker(buffer, metadata)]: the outcome of the promise it
    returns. *)
Definition validateSticker (buffer : Buffer) (metadata : IStickerOptions)
  : Outcome IWhatsAppValidationResult :=
  snd (try_catch (validateSticker_try buffer metadata) validateSticker_catch fresh_result).

End Validator.
End WhatsAppValidator.

(** The default value [{}] of the [metadata] parameter. *)
Definition no_metadata : IStickerOptions :=
  {| opt_pack := None; opt_author := None; opt_id := None; opt_categories := None |}.

(** ** The temp directory and the codec process *)

(** One run of ffmpeg: the input path, the output options and the output
    path it was started with. *)
Record FfmpegRun := {
  run_input : string;
  run_options : list string;
  run_output : string
}.

(** What a conversion can observe and change: the files of the temp
    directory, and the ffmpeg processes started so far, oldest first.
    Lines written to the console are left out: the converters never read
    them back. *)
Record World := {
  files : gmap string Buffer;
  ffmpeg_runs : list FfmpegRun
}.

Definition set_files (f : gmap string Buffer) (w : World) : World :=
  {| files := f; ffmpeg_runs := ffmpeg_runs w |}.

Definition log_run (r : FfmpegRun) (w : World) : World :=
  {| files := files w; ffmpeg_runs := ffmpeg_runs w ++ [r] |}.

Definition ENOENT (path : string) : Thrown :=
  JsError ("ENOENT: no such file or directory, " +:+ path).

(** [writeFile(path, data)] *)
Definition writeFile (path : string) (data : Buffer) : Eff World unit :=
  modify (fun w => set_files (<[path := data]> (files w)) w).

(** [readFile(path)] *)
Definition readFile (path : string) : Eff World Buffer :=
  let* w := get in
  match files w !! path with
  | Some data => ret data
  | None => throw (ENOENT path)
  end.

(** [unlink(path)] *)
Definition unlink (path : string) : Eff World unit :=
  let* w := get in
  match files w !! path with
  | Some _ => modify (fun w => set_files (delete path (files w)) w)
  | None => throw (ENOENT path)
  end.

(** [try { await unlink(path) } catch {}] *)
Definition unlink_quietly (path : string) : Eff World unit :=
  try_catch (unlink path) (fun _ => ret tt).

(** [ffmpeg(input).outputOptions(options).save(output)], awaited through its
    [end] and [error] events.  [codec] is the encoder itself: from the bytes
    of the input and the options, an error or the bytes of the output.  A
    run that fails leaves no output file. *)
Definition ffmpeg_save (codec : Buffer -> list string -> Outcome Buffer)
    (input : string) (options : list string) (output : string) : Eff World unit :=
  modify (log_run {| run_input := input; run_options := options; run_output := output |});;
  let* data := readFile input in
  let* encoded := lift (codec data options) in
  writeFile output encoded.

(** The files and runs after a run of ffmpeg whose output was read back
    and unlinked. *)
Definition after_encoding (run : FfmpegRun) (w : World) : World :=
  {| files := delete (run_output run) (files w);
     ffmpeg_runs := ffmpeg_runs w ++ [run] |}.

(** [parts.join(sep)] *)
Fixpoint join (sep : string) (parts : list string) : string :=
  match parts with
  | [] => EmptyString
  | [p] => p
  | p :: rest => p +:+ sep +:+ join sep rest
  end.

(** How one pass through a loop body ends: by [break], or by reaching the
    next iteration (at the end of the body or by [continue]); either way
    with the current value of the variable [result]. *)
Inductive Flow :=
| Break (result : option Buffer)
| Next (result : option Buffer).

(** ** videoToGif, the optimized converter *)

Module VideoToGif.

Record Settings := {
  quality : Z;
  fps : Z;
  duration : Z;
  compression : Z;
  method : Z
}.

Definition targetSize : Z := 500 * 1024.

Definition qualityLevels : list Settings :=
  [ {| quality := 50; fps := 10; duration := 6; compression := 5; method := 4 |};
    {| quality := 40; fps := 8; duration := 5; compression := 6; method := 6 |};
    {| quality := 30; fps := 6; duration := 4; compression := 6; method := 6 |};
    {| quality := 25; fps := 5; duration := 3; compression := 6; method := 6 |} ].

(** The argument of [outputOptions] at iteration [i]. *)
Definition outputOptions (settings : Settings) (i : nat) : list string :=
  [ "-an"; "-vsync"; "0"; "-vcodec"; "libwebp"; "-loop"; "0";
    "-t"; String_of (duration settings);
    "-preset"; "default";
    "-compression_level"; String_of (compression settings);
    "-q:v"; String_of (quality settings);
    "-method"; String_of (method settings);
    "-vf";
    join ","
      (List.filter truthy
         ([ "fps=" +:+ String_of (fps settings);
            "scale=512:512:force_original_aspect_ratio=decrease:flags=lanczos";
            "pad=512:512:(ow-iw)/2:(oh-ih)/2:color=black@0" ]
          ++ (if (1 <? i)%nat then ["mpdecimate=hi=64*12:lo=64*5:frac=0.33"] else []))) ].

Section Converter.

(** [tmpdir()] and [Math.random().toString(36)] *)
Variables (tmpdir random36 : string).
Variable codec : Buffer -> list string -> Outcome Buffer.

Definition filename : string := tmpdir +:+ "/" +:+ random36.
Definition video : string := filename +:+ "." +:+ "video".
Definition webpFile (settings : Settings) : string :=
  filename +:+ "_q" +:+ String_of (quality settings) +:+ ".webp".

(** The body of the [for] loop at index [i] of [levels]. *)
Definition attempt (levels : list Settings) (i : nat) (settings : Settings)
    (result : option Buffer) : Eff World Flow :=
  try_catch
    (ffmpeg_save codec video (outputOptions settings i) (webpFile settings);;
     let* buffer := readFile (webpFile settings) in
     unlink_quietly (webpFile settings);;
     if buffer_length buffer <=? targetSize then ret (Break (Some buffer))
     else if (i =? length levels - 1)%nat then ret (Next (Some buffer))
     else ret (Next result))
    (fun error =>
       if (i =? length levels - 1)%nat then throw error
       else ret (Next result)).

(** The [for] loop from index [i] on; [remaining] is [levels] without its
    first [i] entries. *)
Fixpoint loop (levels remaining : list Settings) (i : nat) (result : option Buffer)
  : Eff World (option Buffer) :=
  match remaining with
  | [] => ret result
  | settings :: rest =>
      let* flow := attempt levels i settings result in
      match flow with
      | Break result' => ret result'
      | Next result' => loop levels rest (S i) result'
      end
  end.

(** The function for any list of quality levels. *)
Definition convert (levels : list Settings) (data : Buffer) : Eff World Buffer :=
  writeFile video data;;
  let* result := loop levels levels 0 None in
  unlink_quietly video;;
  match result with
  | None => throw (JsError "Failed to convert video with any quality settings")
  | Some buffer => ret buffer
  end.

Definition videoToGif (data : Buffer) : Eff World Buffer :=
  convert qualityLevels data.

(** What the codec answers for entry [i] of the ladder. *)
Definition encoded (data : Buffer) (i : nat) (settings : Settings) : Outcome Buffer :=
  codec data (outputOptions settings i).

Definition run_of (i : nat) (settings : Settings) : FfmpegRun :=
  {| run_input := video; run_options := outputOptions settings i;
     run_output := webpFile settings |}.

(** The runs of the attempts on [attempted], the first of which has index [i]. *)
Fixpoint runs_from (i : nat) (attempted : list Settings) : list FfmpegRun :=
  match attempted with
  | [] => []
  | settings :: rest => run_of i settings :: runs_from (S i) rest
  end.

End Converter.
End VideoToGif.

(** ** adaptiveVideoToWebp *)

Module Adaptive.

Record Settings := {
  quality : Z;
  fps : Z;
  duration : Z;
  compression : Z
}.

Definition qualityLevels : list Settings :=
  [ {| quality := 60; fps := 12; duration := 8; compression := 4 |};
    {| quality := 50; fps := 10; duration := 6; compression := 5 |};
    {| quality := 40; fps := 8; duration := 5; compression := 6 |};
    {| quality := 30; fps := 6; duration := 4; compression := 6 |};
    {| quality := 20; fps := 5; duration := 3; compression := 6 |} ].

Definition outputOptions (settings : Settings) : list string :=
  [ "-an"; "-vsync"; "0"; "-vcodec"; "libwebp"; "-loop"; "0";
    "-t"; String_of (duration settings);
    "-preset"; "default";
    "-compression_level"; String_of (compression settings);
    "-q:v"; String_of (quality settings);
    "-method"; "6";
    "-vf";
    join ","
      [ "fps=" +:+ String_of (fps settings);
        "scale=512:512:force_original_aspect_ratio=decrease";
        "pad=512:512:(ow-iw)/2:(oh-ih)/2:color=black@0";
        "mpdecimate=hi=64*12:lo=64*5:frac=0.33" ] ].

Section Converter.

Variables (tmpdir random36 : string).
Variable codec : Buffer -> list string -> Outcome Buffer.

Definition filename : string := tmpdir +:+ "/" +:+ random36.
Definition video : string := filename +:+ "." +:+ "video".
Definition webpFile (settings : Settings) : string :=
  filename +:+ "_q" +:+ String_of (quality settings) +:+ ".webp".

(** The body of the [for ... of] loop.  The entries of the ladder are
    distinct objects, so [settings === qualityLevels[qualityLevels.length - 1]]
    holds exactly at the last position [i]. *)
Definition attempt (levels : list Settings) (targetSize : Z) (i : nat)
    (settings : Settings) (result : option Buffer) : Eff World Flow :=
  try_catch
    (ffmpeg_save codec video (outputOptions settings) (webpFile settings);;
     let* buffer := readFile (webpFile settings) in
     unlink_quietly (webpFile settings);;
     if buffer_length buffer <=? targetSize then ret (Break (Some buffer))
     else if (i =? length levels - 1)%nat then ret (Next (Some buffer))
     else ret (Next result))
    (fun _ => ret (Next result)).

Fixpoint loop (levels remaining : list Settings) (targetSize : Z) (i : nat)
    (result : option Buffer) : Eff World (option Buffer) :=
  match remaining with
  | [] => ret result
  | settings :: rest =>
      let* flow := attempt levels targetSize i settings result in
      match flow with
      | Break result' => ret result'
      | Next result' => loop levels rest targetSize (S i) result'
      end
  end.

(** The function for any list of quality levels. *)
Definition convert (levels : list Settings) (data : Buffer) (targetSize : Z)
  : Eff World Buffer :=
  writeFile video data;;
  let* result := loop levels levels targetSize 0 None in
  unlink_quietly video;;
  match result with
  | None => throw (JsError "Failed to convert video with any quality settings")
  | Some buffer => ret buffer
  end.

Definition adaptiveVideoToWebp (data : Buffer) (targetSize : Z) : Eff World Buffer :=
  convert qualityLevels data targetSize.

(** The default of the parameter [targetSize]. *)
Definition default_targetSize : Z := WHATSAPP_LIMITS.ANIMATED_MAX_SIZE.

Definition encoded (data : Buffer) (settings : Settings) : Outcome Buffer :=
  codec data (outputOptions settings).

Definition run_of (settings : Settings) : FfmpegRun :=
  {| run_input := video; run_options := outputOptions settings;
     run_output := webpFile settings |}.

End Converter.
End Adaptive.

(** ** The report as a function of the inputs

    The pieces below say, without state, what each step of [validateSticker]
    contributes; the lemmas of the second half relate them to the methods
    above. *)

Module Summary.
Section Summary.

Variable fromBuffer : Buffer -> Outcome (option FileTypeResult).
Variable sharp_metadata : Buffer -> Outcome SharpMetadata.

(** The value [isAnimatedSticker] resolves to. *)
Definition classified_animated (buffer : Buffer) : bool :=
  match fromBuffer buffer with
  | Returns (Some fileType) =>
      if String.eqb (mime fileType) "image/webp" then
        match sharp_metadata buffer with
        | Returns metadata =>
            match md_pages metadata with
            | Some pages => 1 <? pages
            | None => false
            end
        | Throws _ => false
        end
      else String.eqb (mime fileType) "image/gif"
  | Returns None => false
  | Throws _ => false
  end.

Definition size_limit (isAnimated : bool) : Z :=
  if isAnimated then WHATSAPP_LIMITS.ANIMATED_MAX_SIZE
  else WHATSAPP_LIMITS.STATIC_MAX_SIZE.

Definition size_errors (buffer : Buffer) (isAnimated : bool) : list string :=
  if buffer_length buffer <=? size_limit isAnimated then []
  else [msg_file_size_exceeds (buffer_length buffer) (size_limit isAnimated) isAnimated].

Definition size_warnings (buffer : Buffer) : list string :=
  if WHATSAPP_LIMITS.RECOMMENDED_FILE_SIZE * 3 <? buffer_length buffer
  then [msg_file_size_large (buffer_length buffer)]
  else [].

Definition decoded_width (m : SharpMetadata) : Z :=
  match md_width m with Some w => w | None => 0 end.

Definition decoded_height (m : SharpMetadata) : Z :=
  match md_height m with Some h => h | None => 0 end.

Definition right_size (m : SharpMetadata) : bool :=
  (decoded_width m =? WHATSAPP_LIMITS.STICKER_SIZE)
  && (decoded_height m =? WHATSAPP_LIMITS.STICKER_SIZE).

Definition dimension_errors (buffer : Buffer) : list string :=
  match sharp_metadata buffer with
  | Returns m =>
      if right_size m then []
      else [msg_dimensions (decoded_width m) (decoded_height m)]
  | Throws error => [msg_dimensions_unreadable error]
  end.

Definition dimensions_after (buffer : Buffer) (d : Dimensions.t) : Dimensions.t :=
  match sharp_metadata buffer with
  | Returns m =>
      {| Dimensions.width := decoded_width m; Dimensions.height := decoded_height m;
         Dimensions.isValid := right_size m |}
  | Throws _ =>
      {| Dimensions.width := Dimensions.width d; Dimensions.height := Dimensions.height d;
         Dimensions.isValid := false |}
  end.

Definition too_long (limit : Z) (s : string) : bool := limit <? strlen s.

Definition bad_charset (id : string) : bool := truthy id && negb (id_pattern_test id).

Definition too_many (categories : list string) : bool :=
  WHATSAPP_LIMITS.MAX_CATEGORIES_PER_STICKER <? Z.of_nat (length categories).

Definition metadata_errors (metadata : IStickerOptions) : list string :=
  (if too_long WHATSAPP_LIMITS.PACK_NAME_MAX_LENGTH (or_empty (opt_pack metadata))
   then [msg_pack_too_long] else [])
  ++ (if too_long WHATSAPP_LIMITS.AUTHOR_MAX_LENGTH (or_empty (opt_author metadata))
      then [msg_author_too_long] else [])
  ++ (if too_long WHATSAPP_LIMITS.ID_MAX_LENGTH (or_empty (opt_id metadata))
      then [msg_id_too_long] else [])
  ++ (if bad_charset (or_empty (opt_id metadata)) then [msg_id_charset] else [])
  ++ (if too_many (or_nil (opt_categories metadata))
      then [msg_too_many_categories (Z.of_nat (length (or_nil (opt_categories metadata))))]
      else []).

Definition metadata_warnings (metadata : IStickerOptions) : list string :=
  (if Z.of_nat (length (or_nil (opt_categories metadata))) =? 0
   then [msg_no_categories] else [])
  ++ [msg_white_stroke].

(** A text field after its checks: the value is stored, and the flag is
    lowered when a check fails and otherwise left as it was. *)
Definition text_after (v : string) (failed : bool) (f : TextField.t) : TextField.t :=
  {| TextField.value := v;
     TextField.isValid := if failed then false else TextField.isValid f;
     TextField.limit := TextField.limit f |}.

Definition categories_after (v : list string) (c : CategoriesField.t) : CategoriesField.t :=
  {| CategoriesField.value := v;
     CategoriesField.isValid := if too_many v then false else CategoriesField.isValid c;
     CategoriesField.count := Z.of_nat (length v);
     CategoriesField.limit := CategoriesField.limit c |}.

Definition metadata_after (metadata : IStickerOptions) (m : MetadataReport.t)
  : MetadataReport.t :=
  let pack := or_empty (opt_pack metadata) in
  let author := or_empty (opt_author metadata) in
  let id := or_empty (opt_id metadata) in
  {| MetadataReport.pack :=
       text_after pack (too_long WHATSAPP_LIMITS.PACK_NAME_MAX_LENGTH pack)
         (MetadataReport.pack m);
     MetadataReport.author :=
       text_after author (too_long WHATSAPP_LIMITS.AUTHOR_MAX_LENGTH author)
         (MetadataReport.author m);
     MetadataReport.id :=
       text_after id (too_long WHATSAPP_LIMITS.ID_MAX_LENGTH id || bad_charset id)
         (MetadataReport.id m);
     MetadataReport.categories :=
       categories_after (or_nil (opt_categories metadata)) (MetadataReport.categories m) |}.

Definition animation_warnings (buffer : Buffer) : list string :=
  match sharp_metadata buffer with
  | Returns m =>
      match md_pages m with
      | Some pages =>
          if negb (pages =? 0) && (1 <? pages)
          then msg_animated_detected
               :: (if 150 <? pages then [msg_high_frame_count pages] else [])
          else []
      | None => []
      end
  | Throws error => [msg_animated_unreadable error]
  end.

(** The result object after each of the four checks. *)
Definition after_fileSize (buffer : Buffer) (isAnimated : bool)
    (s : IWhatsAppValidationResult) : IWhatsAppValidationResult :=
  {| isValid := isValid s;
     errors := errors s ++ size_errors buffer isAnimated;
     warnings := warnings s ++ size_warnings buffer;
     fileSize := {| FileSize.size := buffer_length buffer;
                    FileSize.isValid := buffer_length buffer <=? size_limit isAnimated;
                    FileSize.limit := size_limit isAnimated;
                    FileSize.type := FileSize.type (fileSize s) |};
     dimensions := dimensions s;
     metadata := metadata s |}.

Definition after_dimensions (buffer : Buffer) (s : IWhatsAppValidationResult)
  : IWhatsAppValidationResult :=
  {| isValid := isValid s;
     errors := errors s ++ dimension_errors buffer;
     warnings := warnings s;
     fileSize := fileSize s;
     dimensions := dimensions_after buffer (dimensions s);
     metadata := metadata s |}.

Definition after_metadata (options : IStickerOptions) (s : IWhatsAppValidationResult)
  : IWhatsAppValidationResult :=
  {| isValid := isValid s;
     errors := errors s ++ metadata_errors options;
     warnings := warnings s ++ metadata_warnings options;
     fileSize := fileSize s;
     dimensions := dimensions s;
     metadata := metadata_after options (metadata s) |}.

Definition after_animated (buffer : Buffer) (s : IWhatsAppValidationResult)
  : IWhatsAppValidationResult :=
  {| isValid := isValid s;
     errors := errors s;
     warnings := warnings s ++ animation_warnings buffer;
     fileSize := fileSize s;
     dimensions := dimensions s;
     metadata := metadata s |}.

Definition all_errors (buffer : Buffer) (metadata : IStickerOptions) : list string :=
  size_errors buffer (classified_animated buffer)
  ++ dimension_errors buffer
  ++ metadata_errors metadata.

Definition all_warnings (buffer : Buffer) (metadata : IStickerOptions) : list string :=
  size_warnings buffer
  ++ metadata_warnings metadata
  ++ (if classified_animated buffer then animation_warnings buffer else []).

(** The report [validateSticker] resolves to. *)
Definition report (buffer : Buffer) (options : IStickerOptions)
  : IWhatsAppValidationResult :=
  let isAnimated := classified_animated buffer in
  let fresh := WhatsAppValidator.fresh_result in
  {| isValid := Z.of_nat (length (all_errors buffer options)) =? 0;
     errors := all_errors buffer options;
     warnings := all_warnings buffer options;
     fileSize :=
       {| FileSize.size := buffer_length buffer;
          FileSize.isValid := buffer_length buffer <=? size_limit isAnimated;
          FileSize.limit := size_limit isAnimated;
          FileSize.type := if isAnimated then animated else static |};
     dimensions := dimensions_after buffer (dimensions fresh);
     metadata := metadata_after options (metadata fresh) |}.

End Summary.
End Summary.

(** ** Reading an error entry

    The entries of [errors] are free text; each check writes entries with
    a fixed beginning, by which a reader of the report tells them apart. *)

Inductive ErrorKind :=
| SizeError
| DimensionError
| PackError
| AuthorError
| IdLengthError
| IdCharsetError
| CategoriesError
| ValidationFault
| OtherError.

(** [entry.startsWith(beginning)] *)
Fixpoint starts_with (beginning entry : string) : bool :=
  match beginning with
  | EmptyString => true
  | String a beginning' =>
      match entry with
      | EmptyString => false
      | String b entry' => Ascii.eqb a b && starts_with beginning' entry'
      end
  end.

Definition error_kind (entry : string) : ErrorKind :=
  if starts_with "File size " entry then SizeError
  else if starts_with "Sticker dimensions " entry then DimensionError
  else if starts_with "Failed to read sticker dimensions: " entry then DimensionError
  else if starts_with "Pack name exceeds " entry then PackError
  else if starts_with "Author name exceeds " entry then AuthorError
  else if starts_with "Sticker ID exceeds " entry then IdLengthError
  else if starts_with "Sticker ID contains invalid characters" entry then IdCharsetError
  else if starts_with "Too many categories " entry then CategoriesError
  else if starts_with "Validation failed: " entry then ValidationFault
  else OtherError.

(** ** Sample collaborators and inputs *)

Module Samples.

(** A type detector that recognises nothing, and one that always answers
    with the given MIME type. *)
Definition unknown_type (_ : Buffer) : Outcome (option FileTypeResult) := Returns None.

Definition detects (ext mime : string) (_ : Buffer) : Outcome (option FileTypeResult) :=
  Returns (Some {| ext := ext; mime := mime |}).

(** A decoder that rejects the data, and one that reports the given
    geometry and frame count. *)
Definition undecodable (_ : Buffer) : Outcome SharpMetadata :=
  Throws (JsError "Input buffer contains unsupported image format").

Definition decodes_to (width height pages : Z) (_ : Buffer) : Outcome SharpMetadata :=
  Returns {| md_width := Some width; md_height := Some height; md_pages := Some pages |}.

(** [size] zero bytes. *)
Definition zeros (size : Z) : Buffer := repeat x00 (Z.to_nat size).

Definition letters (n : nat) : string := String.string_of_list_ascii (repeat "a"%char n).

(** [s.repeat(n)] *)
Fixpoint copies (n : nat) (s : string) : string :=
  match n with
  | O => EmptyString
  | S n' => s +:+ copies n' s
  end.

Definition named (pack : string) : IStickerOptions :=
  {| opt_pack := Some pack; opt_author := None; opt_id := None; opt_categories := None |}.

Definition with_id (id : string) : IStickerOptions :=
  {| opt_pack := None; opt_author := None; opt_id := Some id; opt_categories := None |}.

(** The metadata of the validation scenario of the design document. *)
Definition long_pack_no_categories : IStickerOptions :=
  {| opt_pack := Some (letters 140); opt_author := Some "ok"; opt_id := None;
     opt_categories := Some [] |}.

Definition with_categories (categories : list string) : IStickerOptions :=
  {| opt_pack := None; opt_author := None; opt_id := None;
     opt_categories := Some categories |}.

(** An encoder that fails on every input, and one that succeeds only for
    the quality level 60, with three bytes.  The quality is the option
    after [-q:v], at index 14. *)
Definition always_fails (_ : Buffer) (_ : list string) : Outcome Buffer :=
  Throws (JsError "ffmpeg exited with code 1").

Definition only_best_encodes (_ : Buffer) (options : list string) : Outcome Buffer :=
  match options !! 14%nat with
  | Some quality =>
      if String.eqb quality "60" then Returns (zeros 3)
      else Throws (JsError "ffmpeg exited with code 1")
  | None => Throws (JsError "ffmpeg exited with code 1")
  end.

(** An encoder whose output has [big] bytes at quality [first] and [small]
    bytes at any other quality. *)
Definition shrinking (first : string) (big small : Z) (_ : Buffer) (options : list string)
  : Outcome Buffer :=
  match options !! 14%nat with
  | Some quality => if String.eqb quality first then Returns (zeros big) else Returns (zeros small)
  | None => Throws (JsError "ffmpeg exited with code 1")
  end.

Definition empty_world : World := {| files := ∅; ffmpeg_runs := [] |}.

End Samples.

(** ** Statements as written

    Four statements of the design document and one about unrecognised
    media, stated here to be tested against the code. *)

(** "Validation failure due to an unreadable/corrupt buffer is reported ...
    with all structured sub-fields left at safe defaults." *)
Definition fault_leaves_defaults
    (fromBuffer : Buffer -> Outcome (option FileTypeResult))
    (sharp_metadata : Buffer -> Outcome SharpMetadata)
    (buffer : Buffer) (options : IStickerOptions) : Prop :=
  forall cause, sharp_metadata buffer = Throws cause ->
    exists r,
      WhatsAppValidator.validateSticker fromBuffer sharp_metadata buffer options = Returns r
      /\ fileSize r = fileSize WhatsAppValidator.fresh_result
      /\ dimensions r = dimensions WhatsAppValidator.fresh_result
      /\ metadata r = metadata WhatsAppValidator.fresh_result.

(** "inspect decoded frame count; >1 frame => animated, else static" *)
Definition frame_count_classifies
    (fromBuffer : Buffer -> Outcome (option FileTypeResult))
    (sharp_metadata : Buffer -> Outcome SharpMetadata)
    (buffer : Buffer) (options : IStickerOptions) : Prop :=
  forall r m,
    WhatsAppValidator.validateSticker fromBuffer sharp_metadata buffer options = Returns r ->
    sharp_metadata buffer = Returns m ->
    (FileSize.type (fileSize r) = animated <-> exists pages, md_pages m = Some pages /\ 1 < pages).

(** "if at least one invocation succeeds (even over target), transcode
    returns a buffer and never raises", read on [adaptiveVideoToWebp]. *)
Definition raises_only_when_all_fail
    (tmpdir random36 : string) (codec : Buffer -> list string -> Outcome Buffer)
    (data : Buffer) (targetSize : Z) (w : World) : Prop :=
  (exists w' error,
     Adaptive.adaptiveVideoToWebp tmpdir random36 codec data targetSize w
     = (w', Throws error)) <->
  (forall settings, In settings Adaptive.qualityLevels ->
     exists error, Adaptive.encoded codec data settings = Throws error).

(** "return the buffer of the last preset that produced ANY valid output",
    read on [adaptiveVideoToWebp]: [k] is the last entry of the ladder with
    any output, and no output is within the target. *)
Definition falls_back_to_last_output
    (tmpdir random36 : string) (codec : Buffer -> list string -> Outcome Buffer)
    (data : Buffer) (targetSize : Z) (w : World) : Prop :=
  forall k settings buffer,
    Adaptive.qualityLevels !! k = Some settings ->
    Adaptive.encoded codec data settings = Returns buffer ->
    (forall j later, (k < j)%nat -> Adaptive.qualityLevels !! j = Some later ->
       exists error, Adaptive.encoded codec data later = Throws error) ->
    (forall j other output, Adaptive.qualityLevels !! j = Some other ->
       Adaptive.encoded codec data other = Returns output ->
       targetSize < buffer_length output) ->
    exists w',
      Adaptive.adaptiveVideoToWebp tmpdir random36 codec data targetSize w
      = (w', Returns buffer).

(** "for every buffer whose media type cannot be determined, whose decoding
    throws, or whose detected type is neither WebP nor GIF, the validator
    classifies it as static ... and therefore applies the 100 KiB static
    size limit to it" *)
Definition undetermined_media_is_static
    (fromBuffer : Buffer -> Outcome (option FileTypeResult))
    (sharp_metadata : Buffer -> Outcome SharpMetadata)
    (buffer : Buffer) (options : IStickerOptions) : Prop :=
  (fromBuffer buffer = Returns None
   \/ (exists cause, sharp_metadata buffer = Throws cause)
   \/ (exists fileType,
         fromBuffer buffer = Returns (Some fileType)
         /\ mime fileType <> "image/webp" /\ mime fileType <> "image/gif")) ->
  exists r,
    WhatsAppValidator.validateSticker fromBuffer sharp_metadata buffer options = Returns r
    /\ FileSize.type (fileSize r) = static
    /\ FileSize.limit (fileSize r) = 100 * 1024.

(** ** generateComplianceReport *)

(** The line feed. *)
Definition lf : ascii := Ascii.Ascii false true false true false false false false.

Definition nl : string := String lf EmptyString.

Definition mark (valid : bool) : string := if valid then "âœ…" else "âŒ".

Definition errors_heading : string := "âŒ Errors:".
Definition warnings_heading : string := "âš ï¸  Warnings:".
Definition learn_more : string := "ðŸ“š Learn more: https://github.com/WhatsApp/stickers".

(** The line pushed for each entry of [errors] and of [warnings]. *)
Definition bullet (entry : string) : string := "   â€¢ " +:+ entry.

Definition status_text (valid : bool) : string :=
  "Overall Status: " +:+ (if valid then "âœ… COMPLIANT" else "âŒ NON-COMPLIANT").

Definition status_line (valid : bool) : string := status_text valid +:+ nl.

(** One line of the metadata section for a text field. *)
Definition text_field_line (label : string) (f : TextField.t) : string :=
  "   " +:+ label +:+ ": " +:+ dq +:+ TextField.value f +:+ dq +:+ " ("
  +:+ String_of (strlen (TextField.value f)) +:+ "/" +:+ String_of (TextField.limit f)
  +:+ ") " +:+ mark (TextField.isValid f).

(** The array [lines] when [generateComplianceReport] joins it. *)
Definition report_lines (result : IWhatsAppValidationResult) : list string :=
  [ "=== WhatsApp Sticker Compliance Report ===" +:+ nl;
    status_line (isValid result);
    "ðŸ“ File Size:";
    "   Size: " +:+ toFixed1_KB (FileSize.size (fileSize result)) +:+ "KB";
    "   Limit: " +:+ toFixed1_KB (FileSize.limit (fileSize result)) +:+ "KB ("
      +:+ kind_name (FileSize.type (fileSize result)) +:+ ")";
    "   Status: " +:+ mark (FileSize.isValid (fileSize result)) +:+ nl;
    "ðŸ“ Dimensions:";
    "   Size: " +:+ String_of (Dimensions.width (dimensions result)) +:+ "x"
      +:+ String_of (Dimensions.height (dimensions result)) +:+ "px";
    "   Required: 512x512px";
    "   Status: " +:+ mark (Dimensions.isValid (dimensions result)) +:+ nl;
    "ðŸ“‹ Metadata:";
    text_field_line "Pack" (MetadataReport.pack (metadata result));
    text_field_line "Author" (MetadataReport.author (metadata result));
    text_field_line "ID" (MetadataReport.id (metadata result));
    "   Categories: "
      +:+ String_of (CategoriesField.count (MetadataReport.categories (metadata result)))
      +:+ "/"
      +:+ String_of (CategoriesField.limit (MetadataReport.categories (metadata result)))
      +:+ " " +:+ mark (CategoriesField.isValid (MetadataReport.categories (metadata result)))
      +:+ nl ]
  ++ (if 0 <? Z.of_nat (length (errors result))
      then errors_heading :: map bullet (errors result) ++ [EmptyString]
      else [])
  ++ (if 0 <? Z.of_nat (length (warnings result))
      then warnings_heading :: map bullet (warnings result) ++ [EmptyString]
      else [])
  ++ [learn_more].

Definition generateComplianceReport (result : IWhatsAppValidationResult) : string :=
  join nl (report_lines result).

(** The static [Sticker.getWhatsAppComplianceReport(buffer, metadata)]. *)
Definition getWhatsAppComplianceReport
    (fromBuffer : Buffer -> Outcome (option FileTypeResult))
    (sharp_metadata : Buffer -> Outcome SharpMetadata)
    (buffer : Buffer) (metadata : IStickerOptions) : Outcome string :=
  match WhatsAppValidator.validateSticker fromBuffer sharp_metadata buffer metadata with
  | Returns validation => Returns (generateComplianceReport validation)
  | Throws error => Throws error
  end.

(** ** validateEmojiCategories *)

(** The regular expression of [validateEmojiCategories] carries the flag [u]
    and so reads a string by code points.  An emoji is given here as that
    sequence of code points. *)
Definition CodePoints : Type := list Z.

(** One code point of the six ranges of the pattern. *)
Definition emoji_range (c : Z) : bool :=
  ((0x1F600 <=? c) && (c <=? 0x1F64F))
  || ((0x1F300 <=? c) && (c <=? 0x1F5FF))
  || ((0x1F680 <=? c) && (c <=? 0x1F6FF))
  || ((0x1F1E0 <=? c) && (c <=? 0x1F1FF))
  || ((0x2600 <=? c) && (c <=? 0x26FF))
  || ((0x2700 <=? c) && (c <=? 0x27BF)).

(** [pattern.test(emoji)]: the pattern is not anchored, so one code point of
    a range anywhere in the string is a match. *)
Definition emoji_pattern_test (emoji : CodePoints) : bool := existsb emoji_range emoji.

Module EmojiCheck.
Record t := { isValid : bool; invalidEmojis : list CodePoints }.
End EmojiCheck.

(** The [for ... of] loop, with [invalidEmojis] as it stands. *)
Fixpoint collect_invalid (emojis : list CodePoints) (invalidEmojis : list CodePoints)
  : list CodePoints :=
  match emojis with
  | [] => invalidEmojis
  | emoji :: rest =>
      collect_invalid rest
        (if negb (emoji_pattern_test emoji) then invalidEmojis ++ [emoji]
         else invalidEmojis)
  end.

Definition validateEmojiCategories (emojis : list CodePoints) : EmojiCheck.t :=
  let invalidEmojis := collect_invalid emojis [] in
  {| EmojiCheck.isValid := Z.of_nat (length invalidEmojis) =? 0;
     EmojiCheck.invalidEmojis := invalidEmojis |}.

(** ** Promise.all over two calls *)

(** [Promise.all([a, b])]: both calls are started, in this order, and the
    result is rejected when one of them is. *)
Definition promise_all2 {S} (a b : Eff S unit) : Eff S unit :=
  fun s =>
    match a s with
    | (s1, Returns _) => b s1
    | (s1, Throws error) => (fst (b s1), Throws error)
    end.

(** ** videoToGif, the single-pass converter ([videoToGif.ts]) *)

Module VideoToGifStandard.

Definition outputOptions : list string :=
  [ "-an"; "-vsync"; "0"; "-vcodec"; "libwebp"; "-loop"; "0";
    "-t"; "10";
    "-preset"; "default";
    "-compression_level"; "4";
    "-q:v"; "75";
    "-vf";
    join ","
      [ "fps=15";
        "scale=512:-1:flags=lanczos:force_original_aspect_ratio=decrease";
        "pad=512:512:(ow-iw)/2:(oh-ih)/2:color=white@0" ] ].

Section Converter.

Variables (tmpdir random36 : string).
Variable codec : Buffer -> list string -> Outcome Buffer.

Definition filename : string := tmpdir +:+ "/" +:+ random36.
Definition video : string := filename +:+ "." +:+ "video".
Definition webp : string := filename +:+ "." +:+ "webp".

Definition run : FfmpegRun :=
  {| run_input := video; run_options := outputOptions; run_output := webp |}.

Definition videoToGif (data : Buffer) : Eff World Buffer :=
  writeFile video data;;
  ffmpeg_save codec video outputOptions webp;;
  let* buffer := readFile webp in
  try_catch (promise_all2 (unlink video) (unlink webp)) (fun _ => ret tt);;
  ret buffer.

End Converter.
End VideoToGifStandard.

(** ** videoToGif, the adaptive converter with its fallback *)

Module VideoToGifFallback.

Definition outputOptions : list string :=
  [ "-an"; "-vsync"; "0"; "-vcodec"; "libwebp"; "-loop"; "0";
    "-t"; "5";
    "-preset"; "default";
    "-compression_level"; "6";
    "-q:v"; "35";
    "-method"; "6";
    "-vf";
    join ","
      [ "fps=8";
        "scale=512:512:force_original_aspect_ratio=decrease";
        "pad=512:512:(ow-iw)/2:(oh-ih)/2:color=black@0" ] ].

Section Converter.

(** [random36] is the random name drawn inside [adaptiveVideoToWebp], and
    [random36'] the one drawn in the [catch] block. *)
Variables (tmpdir random36 random36' : string).
Variable codec : Buffer -> list string -> Outcome Buffer.

Definition filename : string := tmpdir +:+ "/" +:+ random36'.
Definition video : string := filename +:+ "." +:+ "video".
Definition webp : string := filename +:+ "." +:+ "webp".

Definition run : FfmpegRun :=
  {| run_input := video; run_options := outputOptions; run_output := webp |}.

(** The [catch] block. *)
Definition fallback (data : Buffer) : Eff World Buffer :=
  writeFile video data;;
  ffmpeg_save codec video outputOptions webp;;
  let* buffer := readFile webp in
  try_catch (promise_all2 (unlink video) (unlink webp)) (fun _ => ret tt);;
  ret buffer.

Definition videoToGif (data : Buffer) : Eff World Buffer :=
  try_catch
    (Adaptive.adaptiveVideoToWebp tmpdir random36 codec data Adaptive.default_targetSize)
    (fun _ => fallback data).

End Converter.
End VideoToGifFallback.

(** ** crop *)

Module Crop.

Definition outputOptions : list string :=
  [ "-vcodec"; "libwebp";
    "-vf";
    "crop=w='min(min(iw\,ih)\,500)':h='min(min(iw\,ih)\,500)',scale=512:512,setsar=1,fps=15";
    "-loop"; "0";
    "-preset"; "default";
    "-an";
    "-vsync"; "0";
    "-s"; "512:512" ].

Section Crop.

Variables (tmpdir random36 : string).
Variable codec : Buffer -> list string -> Outcome Buffer.

Definition name : string := tmpdir +:+ "/" +:+ random36 +:+ ".webp".

Definition run (filename : string) : FfmpegRun :=
  {| run_input := filename; run_options := outputOptions; run_output := name |}.

(** [crop(filename)]: [filename] is the path of a file that is there
    already. *)
Definition crop (filename : string) : Eff World Buffer :=
  ffmpeg_save codec filename outputOptions name;;
  let file := name in
  readFile file.

End Crop.
End Crop.

(** ** videoToGif, the converter with a pre-check *)

Module VideoToGifPrechecked.

Definition targetSize : Z := 500 * 1024.

(** [qualityLevels], which depends on the size of the input. *)
Definition qualityLevels (data : Buffer) : list VideoToGif.Settings :=
  let startFromHighQuality := buffer_length data <=? 600 * 1024 in
  (if startFromHighQuality
   then [ {| VideoToGif.quality := 70; VideoToGif.fps := 12; VideoToGif.duration := 10;
             VideoToGif.compression := 4; VideoToGif.method := 4 |} ]
   else [])
  ++ [ {| VideoToGif.quality := 50; VideoToGif.fps := 10; VideoToGif.duration := 10;
          VideoToGif.compression := 5; VideoToGif.method := 4 |};
       {| VideoToGif.quality := 40; VideoToGif.fps := 8; VideoToGif.duration := 6;
          VideoToGif.compression := 6; VideoToGif.method := 6 |};
       {| VideoToGif.quality := 30; VideoToGif.fps := 6; VideoToGif.duration := 5;
          VideoToGif.compression := 6; VideoToGif.method := 6 |};
       {| VideoToGif.quality := 25; VideoToGif.fps := 5; VideoToGif.duration := 4;
          VideoToGif.compression := 6; VideoToGif.method := 6 |} ].

Definition outputOptions (settings : VideoToGif.Settings) (i : nat) : list string :=
  [ "-an"; "-vsync"; "0"; "-vcodec"; "libwebp"; "-loop"; "0";
    "-t"; String_of (VideoToGif.duration settings);
    "-preset"; "default";
    "-compression_level"; String_of (VideoToGif.compression settings);
    "-q:v"; String_of (VideoToGif.quality settings);
    "-method"; String_of (VideoToGif.method settings);
    "-auto-alt-ref"; "0";
    "-metadata:s:v:0"; "alpha_mode=1";
    "-vf";
    join ","
      (List.filter truthy
         ([ "fps=" +:+ String_of (VideoToGif.fps settings);
            "scale='if(gte(iw,ih),512,-1)':'if(gte(ih,iw),512,-1)':flags=lanczos";
            "pad=512:512:(ow-iw)/2:(oh-ih)/2:color=0x00000000@0" ]
          ++ (if (1 <? i)%nat then ["mpdecimate=hi=64*12:lo=64*5:frac=0.33"] else []))) ].

Section Converter.

Variable fromBuffer : Buffer -> Outcome (option FileTypeResult).
Variable sharp_metadata : Buffer -> Outcome SharpMetadata.
Variables (tmpdir random36 : string).
Variable codec : Buffer -> list string -> Outcome Buffer.

Definition filename : string := tmpdir +:+ "/" +:+ random36.
Definition video : string := filename +:+ "." +:+ "video".
Definition webpFile (settings : VideoToGif.Settings) : string :=
  filename +:+ "_q" +:+ String_of (VideoToGif.quality settings) +:+ ".webp".

(** The pre-check: [true] when it ends in [return data], [false] when the
    function goes on to convert. *)
Definition precheck (data : Buffer) : Eff World bool :=
  try_catch
    (let* fileType := lift (fromBuffer data) in
     match fileType with
     | Some fileType =>
         if String.eqb (mime fileType) "image/webp" then
           if buffer_length data <=? targetSize then
             try_catch
               (let* metadata := lift (sharp_metadata data) in
                let isCorrectSize :=
                  match md_width metadata, md_height metadata with
                  | Some width, Some height => (width =? 512) && (height =? 512)
                  | _, _ => false
                  end in
                ret isCorrectSize)
               (fun _ => ret false)
           else ret false
         else ret false
     | None => ret false
     end)
    (fun _ => ret false).

Definition attempt (levels : list VideoToGif.Settings) (i : nat)
    (settings : VideoToGif.Settings) (result : option Buffer) : Eff World Flow :=
  try_catch
    (ffmpeg_save codec video (outputOptions settings i) (webpFile settings);;
     let* buffer := readFile (webpFile settings) in
     unlink_quietly (webpFile settings);;
     if buffer_length buffer <=? targetSize then ret (Break (Some buffer))
     else if (i =? length levels - 1)%nat then ret (Next (Some buffer))
     else ret (Next result))
    (fun error =>
       if (i =? length levels - 1)%nat then throw error
       else ret (Next result)).

Fixpoint loop (levels remaining : list VideoToGif.Settings) (i : nat)
    (result : option Buffer) : Eff World (option Buffer) :=
  match remaining with
  | [] => ret result
  | settings :: rest =>
      let* flow := attempt levels i settings result in
      match flow with
      | Break result' => ret result'
      | Next result' => loop levels rest (S i) result'
      end
  end.

(** The conversion that follows the pre-check, for any list of quality
    levels.  The call of [ffprobe] between the two is left out: its answer
    and its failure only reach the console. *)
Definition convert (levels : list VideoToGif.Settings) (data : Buffer)
  : Eff World Buffer :=
  writeFile video data;;
  let* result := loop levels levels 0 None in
  unlink_quietly video;;
  match result with
  | None => throw (JsError "Failed to convert video with any quality settings")
  | Some buffer => ret buffer
  end.

(** The function. *)
Definition videoToGif (data : Buffer) : Eff World Buffer :=
  let* done := precheck data in
  if done then ret data
  else convert (qualityLevels data) data.

(** What the codec answers for entry [i] of the ladder. *)
Definition encoded (data : Buffer) (i : nat) (settings : VideoToGif.Settings)
  : Outcome Buffer :=
  codec data (outputOptions settings i).

Definition run_of (i : nat) (settings : VideoToGif.Settings) : FfmpegRun :=
  {| run_input := video; run_options := outputOptions settings i;
     run_output := webpFile settings |}.

Fixpoint runs_from (i : nat) (attempted : list VideoToGif.Settings) : list FfmpegRun :=
  match attempted with
  | [] => []
  | settings :: rest => run_of i settings :: runs_from (S i) rest
  end.

End Converter.
End VideoToGifPrechecked.

(** ** Notions used in the statements *)

(** The lines [generateComplianceReport] adds for a list of [entries] under
    [heading]: none when the list is empty. *)
Definition text_section (heading : string) (entries : list string) : list string :=
  if 0 <? Z.of_nat (length entries)
  then heading :: map bullet entries ++ [EmptyString]
  else [].

(** What one attempt of a converter may do to the files: leave them, or
    remove the file at one path. *)
Definition files_kept_or (path : string) (before after : gmap string Buffer) : Prop :=
  after = before \/ after = delete path before.

(** [text.split(LF)]: the lines of a text, of which there is always one. *)
Fixpoint text_lines (text : string) : list string :=
  match text with
  | EmptyString => [EmptyString]
  | String c rest =>
      if Ascii.eqb c lf then EmptyString :: text_lines rest
      else match text_lines rest with
           | line :: more => String c line :: more
           | [] => [String c EmptyString]
           end
  end.

(** * Properties *)

(** ** Running the monad *)

Lemma bind_returns {S A B} (m : Eff S A) (k : A -> Eff S B) s s' a :
  m s = (s', Returns a) -> bind m k s = k a s'.
Proof. intros H. unfold bind. rewrite H. reflexivity. Qed.

Lemma bind_throws {S A B} (m : Eff S A) (k : A -> Eff S B) s s' e :
  m s = (s', Throws e) -> bind m k s = (s', Throws e).
Proof. intros H. unfold bind. rewrite H. reflexivity. Qed.

Lemma try_catch_returns {S A} (m : Eff S A) h s s' a :
  m s = (s', Returns a) -> try_catch m h s = (s', Returns a).
Proof. intros H. unfold try_catch. rewrite H. reflexivity. Qed.

Ltac run_eff :=
  unfold push_error, push_warning;
  unfold bind, ret, modify, get, lift, throw, try_catch; simpl.

(** ** The validator, step by step *)

Section ValidatorSteps.

Variable fromBuffer : Buffer -> Outcome (option FileTypeResult).
Variable sharp_metadata : Buffer -> Outcome SharpMetadata.

Local Abbreviation isAnimatedSticker :=
  (WhatsAppValidator.isAnimatedSticker fromBuffer sharp_metadata).
Local Abbreviation validateSticker :=
  (WhatsAppValidator.validateSticker fromBuffer sharp_metadata).
Local Abbreviation classified_animated :=
  (Summary.classified_animated fromBuffer sharp_metadata).
Local Abbreviation report := (Summary.report fromBuffer sharp_metadata).

(** Classification leaves the result object alone and never throws. *)
Lemma isAnimatedSticker_run buffer (s : IWhatsAppValidationResult) :
  isAnimatedSticker buffer s = (s, Returns (classified_animated buffer)).
Proof.
  unfold WhatsAppValidator.isAnimatedSticker, WhatsAppValidator.isAnimatedSticker_try,
    Summary.classified_animated.
  run_eff.
  destruct (fromBuffer buffer) as [[fileType|]|e]; simpl; try reflexivity.
  destruct (String.eqb (mime fileType) "image/webp"); simpl; try reflexivity.
  destruct (sharp_metadata buffer) as [m|e]; reflexivity.
Qed.

Lemma validateFileSize_run buffer isAnimated s :
  WhatsAppValidator.validateFileSize buffer isAnimated s
  = (Summary.after_fileSize buffer isAnimated s, Returns tt).
Proof.
  unfold WhatsAppValidator.validateFileSize, Summary.after_fileSize, Summary.size_errors,
    Summary.size_warnings, Summary.size_limit.
  run_eff.
  destruct s as [v es ws [sz sv sl st] d m]; simpl.
  destruct (buffer_length buffer <=? _); simpl;
    destruct (_ <? buffer_length buffer); simpl;
    rewrite ?app_nil_r; reflexivity.
Qed.

Lemma validateDimensions_run buffer s :
  WhatsAppValidator.validateDimensions sharp_metadata buffer s
  = (Summary.after_dimensions sharp_metadata buffer s, Returns tt).
Proof.
  unfold WhatsAppValidator.validateDimensions, Summary.after_dimensions,
    Summary.dimension_errors, Summary.dimensions_after, Summary.right_size,
    Summary.decoded_width, Summary.decoded_height.
  run_eff.
  destruct s as [v es ws f [w h dv] m]; simpl.
  destruct (sharp_metadata buffer) as [md|e]; simpl; [|reflexivity].
  destruct (_ && _); simpl; rewrite ?app_nil_r; reflexivity.
Qed.

Lemma validateMetadata_run options s :
  WhatsAppValidator.validateMetadata options s
  = (Summary.after_metadata options s, Returns tt).
Proof.
  unfold WhatsAppValidator.validateMetadata, Summary.after_metadata,
    Summary.metadata_errors, Summary.metadata_warnings, Summary.metadata_after,
    Summary.text_after, Summary.categories_after, Summary.too_long,
    Summary.bad_charset, Summary.too_many.
  run_eff.
  destruct s as [v es ws f d [[pv pi pl] [av ai al] [iv ii il] [cv ci cc cl]]]; simpl.
  destruct (_ <? strlen (or_empty (opt_pack options))); simpl;
  destruct (_ <? strlen (or_empty (opt_author options))); simpl;
  destruct (_ <? strlen (or_empty (opt_id options))); simpl;
  destruct (truthy _ && _); simpl;
  destruct (_ <? Z.of_nat _); simpl;
  destruct (Z.of_nat _ =? 0); simpl;
  rewrite <- ?app_assoc; simpl; rewrite ?app_nil_r; reflexivity.
Qed.

Lemma validateAnimatedSticker_run buffer s :
  WhatsAppValidator.validateAnimatedSticker sharp_metadata buffer s
  = (Summary.after_animated sharp_metadata buffer s, Returns tt).
Proof.
  unfold WhatsAppValidator.validateAnimatedSticker, Summary.after_animated,
    Summary.animation_warnings.
  run_eff.
  destruct s as [v es ws f d m]; simpl.
  destruct (sharp_metadata buffer) as [md|e]; simpl; [|reflexivity].
  destruct (md_pages md) as [pages|]; simpl; rewrite ?app_nil_r; try reflexivity.
  destruct (negb (pages =? 0) && (1 <? pages)); simpl; rewrite ?app_nil_r; try reflexivity.
  destruct (150 <? pages); simpl; rewrite <- ?app_assoc; reflexivity.
Qed.

(** The [try] block runs to its [return] and yields the summarised report. *)
Lemma validateSticker_try_run buffer options :
  WhatsAppValidator.validateSticker_try fromBuffer sharp_metadata buffer options
    WhatsAppValidator.fresh_result
  = (report buffer options, Returns (report buffer options)).
Proof.
  unfold WhatsAppValidator.validateSticker_try.
  rewrite (bind_returns _ _ _ _ _ (isAnimatedSticker_run buffer _)).
  unfold bind at 1. unfold modify at 1.
  rewrite (bind_returns _ _ _ _ _ (validateFileSize_run buffer _ _)).
  rewrite (bind_returns _ _ _ _ _ (validateDimensions_run buffer _)).
  rewrite (bind_returns _ _ _ _ _ (validateMetadata_run options _)).
  unfold Summary.report, Summary.all_errors, Summary.all_warnings.
  destruct (classified_animated buffer).
  - rewrite (bind_returns _ _ _ _ _ (validateAnimatedSticker_run buffer _)).
    run_eff.
    unfold Summary.after_animated, Summary.after_metadata, Summary.after_dimensions,
      Summary.after_fileSize.
    simpl. rewrite ?app_nil_r, <- ?app_assoc. reflexivity.
  - run_eff.
    unfold Summary.after_metadata, Summary.after_dimensions, Summary.after_fileSize.
    simpl. rewrite ?app_nil_r, <- ?app_assoc. reflexivity.
Qed.

Lemma validateSticker_report buffer options :
  validateSticker buffer options = Returns (report buffer options).
Proof.
  unfold WhatsAppValidator.validateSticker.
  rewrite (try_catch_returns _ _ _ _ _ (validateSticker_try_run buffer options)).
  reflexivity.
Qed.

(** *** The kinds of the entries each check writes *)

Lemma size_errors_kind buffer isAnimated :
  Forall (fun e => error_kind e = SizeError) (Summary.size_errors buffer isAnimated).
Proof.
  unfold Summary.size_errors.
  destruct (_ <=? _); [constructor|].
  constructor; [reflexivity | constructor].
Qed.

Lemma dimension_errors_kind buffer :
  Forall (fun e => error_kind e = DimensionError)
    (Summary.dimension_errors sharp_metadata buffer).
Proof.
  unfold Summary.dimension_errors.
  destruct (sharp_metadata buffer) as [m|e].
  - destruct (Summary.right_size m); [constructor|].
    constructor; [reflexivity | constructor].
  - constructor; [reflexivity | constructor].
Qed.

Lemma metadata_errors_kind options :
  Forall (fun e => error_kind e = PackError \/ error_kind e = AuthorError
                   \/ error_kind e = IdLengthError \/ error_kind e = IdCharsetError
                   \/ error_kind e = CategoriesError)
    (Summary.metadata_errors options).
Proof.
  unfold Summary.metadata_errors.
  repeat apply Forall_app_2;
    match goal with |- Forall _ (if ?c then _ else _) => destruct c end;
    try (constructor; fail);
    (constructor; [|constructor]).
  - left. reflexivity.
  - right. left. reflexivity.
  - right. right. left. reflexivity.
  - right. right. right. left. reflexivity.
  - right. right. right. right. reflexivity.
Qed.

End ValidatorSteps.

(** ** Classification and the size limit *)

Lemma kind_of_report fromBuffer sharp_metadata buffer options :
  FileSize.type (fileSize (Summary.report fromBuffer sharp_metadata buffer options))
  = if Summary.classified_animated fromBuffer sharp_metadata buffer then animated else static.
Proof. reflexivity. Qed.

Lemma classified_animated_iff fromBuffer sharp_metadata buffer :
  Summary.classified_animated fromBuffer sharp_metadata buffer = true <->
  exists fileType,
    fromBuffer buffer = Returns (Some fileType) /\
    (mime fileType = "image/gif"
     \/ (mime fileType = "image/webp"
         /\ exists m pages,
              sharp_metadata buffer = Returns m /\ md_pages m = Some pages /\ 1 < pages)).
Proof.
  unfold Summary.classified_animated. split.
  - destruct (fromBuffer buffer) as [[fileType|]|e]; try discriminate.
    destruct (String.eqb_spec (mime fileType) "image/webp") as [Hw|Hw].
    + destruct (sharp_metadata buffer) as [m|e] eqn:Hm; try discriminate.
      destruct (md_pages m) as [pages|] eqn:Hp; try discriminate.
      intros H. apply Z.ltb_lt in H. exists fileType. split; [reflexivity|].
      right. split; [assumption|]. exists m, pages. auto.
    + intros H. apply String.eqb_eq in H. exists fileType. auto.
  - intros (fileType & Hft & [Hgif | (Hwebp & m & pages & Hm & Hp & Hlt)]); rewrite Hft.
    + rewrite Hgif. reflexivity.
    + rewrite Hwebp, Hm, Hp. simpl. apply Z.ltb_lt. assumption.
Qed.

(** C6, as the code has it.  The validator classifies a buffer from its
    detected type: a GIF is animated whatever its frame count, a WebP is
    animated exactly when it decodes to more than one frame, and anything
    else is static.  That classification alone selects the size limit,
    500 KiB for animated and 100 KiB for static, against which the length
    of the buffer is judged. *)
Theorem classification_selects_limit
    (fromBuffer : Buffer -> Outcome (option FileTypeResult))
    (sharp_metadata : Buffer -> Outcome SharpMetadata)
    (buffer : Buffer) (options : IStickerOptions) :
  exists r,
    WhatsAppValidator.validateSticker fromBuffer sharp_metadata buffer options = Returns r /\
    (FileSize.type (fileSize r) = animated <->
     exists fileType,
       fromBuffer buffer = Returns (Some fileType) /\
       (mime fileType = "image/gif"
        \/ (mime fileType = "image/webp"
            /\ exists m pages,
                 sharp_metadata buffer = Returns m /\ md_pages m = Some pages /\ 1 < pages))) /\
    FileSize.limit (fileSize r)
    = match FileSize.type (fileSize r) with
      | animated => 500 * 1024
      | static => 100 * 1024
      end /\
    FileSize.isValid (fileSize r) = (buffer_length buffer <=? FileSize.limit (fileSize r)).
Proof.
  exists (Summary.report fromBuffer sharp_metadata buffer options).
  split; [apply validateSticker_report|].
  split.
  - rewrite kind_of_report, <- classified_animated_iff.
    destruct (Summary.classified_animated _ _ _); split; congruence.
  - simpl. destruct (Summary.classified_animated _ _ _); split; reflexivity.
Qed.

(** C6 as stated fails on a GIF of a single frame: it is classified as
    animated and judged against the 500 KiB limit. *)
Lemma single_frame_gif_is_animated :
  ~ frame_count_classifies (Samples.detects "gif" "image/gif")
      (Samples.decodes_to 512 512 1) (Samples.zeros 3) no_metadata.
Proof.
  intros H.
  destruct (H _ _ (validateSticker_report _ _ _ _) eq_refl) as [Hpages _].
  destruct (Hpages eq_refl) as (pages & Hsome & Hlt).
  injection Hsome as <-. lia.
Qed.

(** C10, as the code has it.  A buffer whose type is not recognised, for
    which the type detector throws, which is detected as WebP and whose
    decoding throws, or whose detected type is neither WebP nor GIF is
    classified as static: classification itself never throws, and the
    report applies the 100 KiB limit, whatever frame count the data would
    decode to.  A buffer detected as GIF is not decoded for its
    classification: it is animated, with the 500 KiB limit, also when its
    decoding throws. *)
Theorem unrecognised_is_static
    (fromBuffer : Buffer -> Outcome (option FileTypeResult))
    (sharp_metadata : Buffer -> Outcome SharpMetadata)
    (buffer : Buffer) (options : IStickerOptions) :
  ((fromBuffer buffer = Returns None
    \/ (exists cause, fromBuffer buffer = Throws cause)
    \/ (exists fileType cause,
          fromBuffer buffer = Returns (Some fileType) /\ mime fileType = "image/webp"
          /\ sharp_metadata buffer = Throws cause)
    \/ (exists fileType,
          fromBuffer buffer = Returns (Some fileType)
          /\ mime fileType <> "image/webp" /\ mime fileType <> "image/gif")) ->
   (forall s : IWhatsAppValidationResult,
      WhatsAppValidator.isAnimatedSticker fromBuffer sharp_metadata buffer s
      = (s, Returns false)) /\
   exists r,
     WhatsAppValidator.validateSticker fromBuffer sharp_metadata buffer options = Returns r /\
     FileSize.type (fileSize r) = static /\
     FileSize.limit (fileSize r) = 100 * 1024 /\
     FileSize.isValid (fileSize r) = (buffer_length buffer <=? 100 * 1024) /\
     (100 * 1024 < buffer_length buffer ->
      In (msg_file_size_exceeds (buffer_length buffer) (100 * 1024) false) (errors r))) /\
  (forall fileType,
     fromBuffer buffer = Returns (Some fileType) -> mime fileType = "image/gif" ->
     (forall s : IWhatsAppValidationResult,
        WhatsAppValidator.isAnimatedSticker fromBuffer sharp_metadata buffer s
        = (s, Returns true)) /\
     exists r,
       WhatsAppValidator.validateSticker fromBuffer sharp_metadata buffer options = Returns r /\
       FileSize.type (fileSize r) = animated /\
       FileSize.limit (fileSize r) = 500 * 1024 /\
       FileSize.isValid (fileSize r) = (buffer_length buffer <=? 500 * 1024)).
Proof.
  split.
  - intros Hcase.
    assert (Hstatic : Summary.classified_animated fromBuffer sharp_metadata buffer = false).
    { unfold Summary.classified_animated.
      destruct Hcase
        as [H | [(cause & H) | [(ft & cause & H & Hw & Hm) | (ft & H & Hw & Hg)]]];
        rewrite H; try reflexivity.
      - rewrite Hw, Hm. reflexivity.
      - apply String.eqb_neq in Hw, Hg. rewrite Hw, Hg. reflexivity. }
    split.
    + intros s. rewrite isAnimatedSticker_run, Hstatic. reflexivity.
    + exists (Summary.report fromBuffer sharp_metadata buffer options).
      split; [apply validateSticker_report|].
      unfold Summary.report, Summary.all_errors, Summary.size_errors. rewrite Hstatic. simpl.
      split; [reflexivity|]. split; [reflexivity|]. split; [reflexivity|].
      intros Hbig. apply Z.leb_gt in Hbig.
      unfold WHATSAPP_LIMITS.STATIC_MAX_SIZE. rewrite Hbig. left. reflexivity.
  - intros fileType Htype Hgif.
    assert (Hanimated : Summary.classified_animated fromBuffer sharp_metadata buffer = true).
    { apply classified_animated_iff. exists fileType. auto. }
    split.
    + intros s. rewrite isAnimatedSticker_run, Hanimated. reflexivity.
    + exists (Summary.report fromBuffer sharp_metadata buffer options).
      split; [apply validateSticker_report|].
      unfold Summary.report. rewrite Hanimated. simpl.
      split; [reflexivity|]. split; reflexivity.
Qed.

(** An MP4 of forty frames and 200 000 bytes: static, and over the limit.
    A GIF of the same size that does not decode: animated, and within its
    limit. *)
Lemma unrecognised_is_static_witness :
  (exists r,
     WhatsAppValidator.validateSticker (Samples.detects "mp4" "video/mp4")
       (Samples.decodes_to 512 512 40) (Samples.zeros 200000) no_metadata = Returns r /\
     FileSize.type (fileSize r) = static /\
     FileSize.limit (fileSize r) = 100 * 1024 /\
     FileSize.isValid (fileSize r) = false) /\
  (exists r,
     WhatsAppValidator.validateSticker (Samples.detects "gif" "image/gif")
       Samples.undecodable (Samples.zeros 200000) no_metadata = Returns r /\
     FileSize.type (fileSize r) = animated /\
     FileSize.limit (fileSize r) = 500 * 1024 /\
     FileSize.isValid (fileSize r) = true).
Proof.
  split.
  - destruct (unrecognised_is_static (Samples.detects "mp4" "video/mp4")
                (Samples.decodes_to 512 512 40) (Samples.zeros 200000) no_metadata)
      as (Hstatic & _).
    destruct Hstatic as (_ & r & Hr & Hkind & Hlimit & Hvalid & _).
    + right. right. right. exists {| ext := "mp4"; mime := "video/mp4" |}.
      split; [reflexivity|]. split; discriminate.
    + exists r. rewrite Hvalid.
      split; [assumption|]. split; [assumption|]. split; [assumption|].
      unfold buffer_length, Samples.zeros. rewrite repeat_length. reflexivity.
  - destruct (unrecognised_is_static (Samples.detects "gif" "image/gif")
                Samples.undecodable (Samples.zeros 200000) no_metadata)
      as (_ & Hgif).
    destruct (Hgif {| ext := "gif"; mime := "image/gif" |} eq_refl eq_refl)
      as (_ & r & Hr & Hkind & Hlimit & Hvalid).
    exists r. rewrite Hvalid.
    split; [assumption|]. split; [assumption|]. split; [assumption|].
    unfold buffer_length, Samples.zeros. rewrite repeat_length. reflexivity.
Defined.

(** C10 as stated fails on a GIF whose decoding throws: it is classified as
    animated and judged against the 500 KiB limit. *)
Lemma undecodable_gif_is_animated :
  ~ undetermined_media_is_static (Samples.detects "gif" "image/gif")
      Samples.undecodable (Samples.zeros 3) no_metadata.
Proof.
  intros H.
  destruct H as (r & Hr & Hkind & _).
  - right. left. exists (JsError "Input buffer contains unsupported image format").
    reflexivity.
  - rewrite validateSticker_report in Hr. injection Hr as <-.
    discriminate Hkind.
Qed.

(** ** The report is always produced *)

Lemma length_zero_iff_nil {A} (l : list A) : (Z.of_nat (length l) =? 0) = true <-> l = [].
Proof.
  destruct l; simpl; split; intros H; try reflexivity; discriminate.
Qed.

Lemma validateSticker_catch_run error (s : IWhatsAppValidationResult) :
  WhatsAppValidator.validateSticker_catch error s
  = (set_errors (errors s ++ [msg_validation_failed error]) (set_isValid false s),
     Returns (set_errors (errors s ++ [msg_validation_failed error]) (set_isValid false s))).
Proof. reflexivity. Qed.

(** C5.  In every report of [validateSticker], [isValid] is true exactly
    when [errors] is empty.  Warnings play no part: every report carries at
    least the stroke advisory among its warnings, valid or not.  The same
    holds on the path through the [catch] block, from whatever state the
    result object is in: [isValid] is false and [errors] has the new entry. *)
Theorem isValid_iff_no_errors
    (fromBuffer : Buffer -> Outcome (option FileTypeResult))
    (sharp_metadata : Buffer -> Outcome SharpMetadata)
    (buffer : Buffer) (options : IStickerOptions) :
  (exists r,
     WhatsAppValidator.validateSticker fromBuffer sharp_metadata buffer options = Returns r /\
     (isValid r = true <-> errors r = []) /\
     In msg_white_stroke (warnings r)) /\
  (forall (error : Thrown) (s : IWhatsAppValidationResult),
     exists r,
       WhatsAppValidator.validateSticker_catch error s = (r, Returns r) /\
       (isValid r = true <-> errors r = []) /\
       isValid r = false /\
       warnings r = warnings s).
Proof.
  split.
  - exists (Summary.report fromBuffer sharp_metadata buffer options).
    split; [apply validateSticker_report|]. split.
    + apply length_zero_iff_nil.
    + simpl. unfold Summary.all_warnings, Summary.metadata_warnings.
      rewrite !in_app_iff. right. left. right. left. reflexivity.
  - intros error s. eexists. split; [apply validateSticker_catch_run|].
    simpl. split; [|split; reflexivity].
    split; [discriminate|]. intros H. apply app_eq_nil in H. destruct H; discriminate.
Qed.

Lemma kinds_differ (k k' : ErrorKind) (l : list string) :
  k <> k' -> Forall (fun e => error_kind e = k) l -> Forall (fun e => error_kind e <> k') l.
Proof. intros Hne H. eapply Forall_impl; [exact H|]. simpl. intros e He. congruence. Qed.

Lemma metadata_errors_not_kind (k : ErrorKind) options :
  k <> PackError -> k <> AuthorError -> k <> IdLengthError -> k <> IdCharsetError ->
  k <> CategoriesError ->
  Forall (fun e => error_kind e <> k) (Summary.metadata_errors options).
Proof.
  intros. eapply Forall_impl; [apply metadata_errors_kind|]. simpl.
  intros e [He | [He | [He | [He | He]]]]; congruence.
Qed.

Lemma report_errors_kinds fromBuffer sharp_metadata buffer options :
  Forall (fun e => error_kind e <> ValidationFault)
    (errors (Summary.report fromBuffer sharp_metadata buffer options)).
Proof.
  simpl. unfold Summary.all_errors. apply Forall_app_2; [|apply Forall_app_2].
  - eapply kinds_differ; [|apply size_errors_kind]. discriminate.
  - eapply kinds_differ; [|apply dimension_errors_kind]. discriminate.
  - apply metadata_errors_not_kind; discriminate.
Qed.

(** C4, as the code has it.  [validateSticker] always resolves to a report
    and never throws, and the report has no "Validation failed" entry: the
    checks catch their own faults.  When the decoder rejects the buffer, the
    fault shows as exactly one dimension entry among the errors, which embeds
    the cause; the report is invalid; width and height keep their zeros
    while [dimensions.isValid] is lowered to false; and the file-size and
    metadata sub-reports are filled in as for any other buffer.  The [catch]
    block of [validateSticker] itself, from whatever state it starts, adds
    one entry that embeds the cause, lowers [isValid] and leaves every
    sub-report as it finds it. *)
Theorem validateSticker_always_reports
    (fromBuffer : Buffer -> Outcome (option FileTypeResult))
    (sharp_metadata : Buffer -> Outcome SharpMetadata)
    (buffer : Buffer) (options : IStickerOptions) :
  (exists r,
    WhatsAppValidator.validateSticker fromBuffer sharp_metadata buffer options = Returns r /\
    Forall (fun e => error_kind e <> ValidationFault) (errors r) /\
    forall cause, sharp_metadata buffer = Throws cause ->
      (exists before after : list string,
         errors r = (before ++ msg_dimensions_unreadable cause :: after)%list /\
         Forall (fun e => error_kind e <> DimensionError) before /\
         Forall (fun e => error_kind e <> DimensionError) after) /\
      isValid r = false /\
      dimensions r
      = {| Dimensions.width := 0; Dimensions.height := 0; Dimensions.isValid := false |} /\
      FileSize.size (fileSize r) = buffer_length buffer /\
      FileSize.limit (fileSize r)
      = match FileSize.type (fileSize r) with
        | animated => 500 * 1024
        | static => 100 * 1024
        end /\
      TextField.value (MetadataReport.pack (metadata r)) = or_empty (opt_pack options) /\
      TextField.value (MetadataReport.author (metadata r)) = or_empty (opt_author options) /\
      TextField.value (MetadataReport.id (metadata r)) = or_empty (opt_id options) /\
      CategoriesField.value (MetadataReport.categories (metadata r))
      = or_nil (opt_categories options)) /\
  (forall (error : Thrown) (s : IWhatsAppValidationResult),
     exists r,
       WhatsAppValidator.validateSticker_catch error s = (r, Returns r) /\
       errors r = (errors s ++ ["Validation failed: " +:+ describe error])%list /\
       isValid r = false /\
       fileSize r = fileSize s /\ dimensions r = dimensions s /\ metadata r = metadata s).
Proof.
  split.
  2:{ intros error s. eexists. split; [apply validateSticker_catch_run|].
      repeat split; reflexivity. }
  exists (Summary.report fromBuffer sharp_metadata buffer options).
  split; [apply validateSticker_report|].
  split; [apply report_errors_kinds|].
  intros cause Hcause.
  assert (Hdim : Summary.dimension_errors sharp_metadata buffer
                 = [msg_dimensions_unreadable cause]).
  { unfold Summary.dimension_errors. rewrite Hcause. reflexivity. }
  assert (Herrors : errors (Summary.report fromBuffer sharp_metadata buffer options)
     = (Summary.size_errors buffer
          (Summary.classified_animated fromBuffer sharp_metadata buffer)
        ++ msg_dimensions_unreadable cause :: Summary.metadata_errors options)%list).
  { simpl. unfold Summary.all_errors. rewrite Hdim. reflexivity. }
  split; [|split; [|split; [|split; [|split]]]].
  - eexists _, _. split; [exact Herrors|]. split.
    + eapply kinds_differ; [|apply size_errors_kind]. discriminate.
    + apply metadata_errors_not_kind; discriminate.
  - change (isValid (Summary.report fromBuffer sharp_metadata buffer options))
      with (Z.of_nat (length (errors (Summary.report fromBuffer sharp_metadata buffer options))) =? 0).
    rewrite Herrors, length_app. simpl. apply Z.eqb_neq. lia.
  - simpl. unfold Summary.dimensions_after. rewrite Hcause. reflexivity.
  - reflexivity.
  - simpl. destruct (Summary.classified_animated _ _ _); reflexivity.
  - repeat split; reflexivity.
Qed.

(** A corrupt three-byte buffer, with a pack name. *)
Lemma validateSticker_always_reports_witness :
  exists r,
    WhatsAppValidator.validateSticker Samples.unknown_type Samples.undecodable
      (Samples.zeros 3) (Samples.named "My Pack") = Returns r /\
    isValid r = false /\
    dimensions r
    = {| Dimensions.width := 0; Dimensions.height := 0; Dimensions.isValid := false |} /\
    FileSize.size (fileSize r) = 3.
Proof.
  destruct (validateSticker_always_reports Samples.unknown_type Samples.undecodable
              (Samples.zeros 3) (Samples.named "My Pack")) as [(r & Hr & _ & Hfault) _].
  destruct (Hfault _ eq_refl) as (_ & Hvalid & Hdim & Hsize & _).
  exists r. split; [exact Hr|]. split; [exact Hvalid|]. split; [exact Hdim|].
  rewrite Hsize. reflexivity.
Defined.

(** C4 as stated fails: on that corrupt buffer the file-size sub-report
    holds the measured size and the static limit, not the defaults. *)
Lemma corrupt_buffer_report_is_filled_in :
  ~ fault_leaves_defaults Samples.unknown_type Samples.undecodable
      (Samples.zeros 3) (Samples.named "My Pack").
Proof.
  intros H. destruct (H _ eq_refl) as (r & Hr & Hsize & Hdim & Hmeta).
  rewrite validateSticker_report in Hr. injection Hr as <-.
  discriminate Hdim.
Qed.

(** ** Boundaries of the checks *)

Lemma chunk_not_kind (c : bool) (entry : string) (k : ErrorKind) :
  error_kind entry <> k ->
  Forall (fun e => error_kind e <> k) (if c then [entry] else []).
Proof. intros H. destruct c; repeat constructor. exact H. Qed.

Lemma errors_of_report fromBuffer sharp_metadata buffer options :
  errors (Summary.report fromBuffer sharp_metadata buffer options)
  = (Summary.size_errors buffer (Summary.classified_animated fromBuffer sharp_metadata buffer)
     ++ Summary.dimension_errors sharp_metadata buffer
     ++ Summary.metadata_errors options)%list.
Proof. reflexivity. Qed.

Lemma no_size_error_outside fromBuffer sharp_metadata buffer options :
  Summary.size_errors buffer (Summary.classified_animated fromBuffer sharp_metadata buffer) = [] ->
  Forall (fun e => error_kind e <> SizeError)
    (errors (Summary.report fromBuffer sharp_metadata buffer options)).
Proof.
  intros H. rewrite errors_of_report, H. simpl. apply Forall_app_2.
  - eapply kinds_differ; [|apply dimension_errors_kind]. discriminate.
  - apply metadata_errors_not_kind; discriminate.
Qed.

Lemma no_dimension_error_outside fromBuffer sharp_metadata buffer options :
  Summary.dimension_errors sharp_metadata buffer = [] ->
  Forall (fun e => error_kind e <> DimensionError)
    (errors (Summary.report fromBuffer sharp_metadata buffer options)).
Proof.
  intros H. rewrite errors_of_report, H. simpl. apply Forall_app_2.
  - eapply kinds_differ; [|apply size_errors_kind]. discriminate.
  - apply metadata_errors_not_kind; discriminate.
Qed.

(** C7.  For a buffer classified as static, exactly 100 * 1024 bytes give a
    valid file-size sub-report and no size error, and one byte more gives a
    size error.  A buffer that decodes to 512 x 512 is dimensionally valid
    with no dimension error; 511 x 512 and 512 x 511 each give a dimension
    error. *)
Theorem boundary_exactness
    (fromBuffer : Buffer -> Outcome (option FileTypeResult))
    (sharp_metadata : Buffer -> Outcome SharpMetadata)
    (buffer : Buffer) (options : IStickerOptions) :
  exists r,
    WhatsAppValidator.validateSticker fromBuffer sharp_metadata buffer options = Returns r /\
    (FileSize.type (fileSize r) = static ->
     (buffer_length buffer = 100 * 1024 ->
      FileSize.isValid (fileSize r) = true /\
      Forall (fun e => error_kind e <> SizeError) (errors r)) /\
     (buffer_length buffer = 100 * 1024 + 1 ->
      FileSize.isValid (fileSize r) = false /\
      In "File size 100.0KB exceeds WhatsApp limit of 100.0KB for static stickers"
        (errors r))) /\
    (forall m, sharp_metadata buffer = Returns m ->
     (md_width m = Some 512 -> md_height m = Some 512 ->
      Dimensions.isValid (dimensions r) = true /\
      Forall (fun e => error_kind e <> DimensionError) (errors r)) /\
     (md_width m = Some 511 -> md_height m = Some 512 ->
      Dimensions.isValid (dimensions r) = false /\
      In "Sticker dimensions 511x512 must be exactly 512x512 pixels" (errors r)) /\
     (md_width m = Some 512 -> md_height m = Some 511 ->
      Dimensions.isValid (dimensions r) = false /\
      In "Sticker dimensions 512x511 must be exactly 512x512 pixels" (errors r))).
Proof.
  exists (Summary.report fromBuffer sharp_metadata buffer options).
  split; [apply validateSticker_report|]. split.
  - rewrite kind_of_report. intros Hstatic.
    destruct (Summary.classified_animated fromBuffer sharp_metadata buffer) eqn:Hc;
      [discriminate|].
    split; intros Hlen.
    + split.
      * simpl. rewrite Hc, Hlen. reflexivity.
      * apply no_size_error_outside. rewrite Hc. unfold Summary.size_errors.
        rewrite Hlen. reflexivity.
    + split.
      * simpl. rewrite Hc, Hlen. reflexivity.
      * rewrite errors_of_report, Hc. unfold Summary.size_errors. rewrite Hlen.
        apply in_or_app. left. left. reflexivity.
  - intros m Hm.
    assert (Hdims : forall w h, md_width m = Some w -> md_height m = Some h ->
              Dimensions.isValid
                (dimensions (Summary.report fromBuffer sharp_metadata buffer options))
              = ((w =? 512) && (h =? 512)) /\
              Summary.dimension_errors sharp_metadata buffer
              = if (w =? 512) && (h =? 512) then [] else [msg_dimensions w h]).
    { intros w h Hw Hh. simpl.
      unfold Summary.dimensions_after, Summary.dimension_errors, Summary.right_size,
        Summary.decoded_width, Summary.decoded_height.
      rewrite Hm, Hw, Hh. split; reflexivity. }
    split; [|split]; intros Hw Hh; destruct (Hdims _ _ Hw Hh) as [Hvalid Herrs];
      (split; [rewrite Hvalid; reflexivity|]).
    + apply no_dimension_error_outside. rewrite Herrs. reflexivity.
    + rewrite errors_of_report, Herrs.
      apply in_or_app. right. apply in_or_app. left. left. reflexivity.
    + rewrite errors_of_report, Herrs.
      apply in_or_app. right. apply in_or_app. left. left. reflexivity.
Qed.

Lemma length_zeros (size : Z) : 0 <= size -> buffer_length (Samples.zeros size) = size.
Proof.
  intros H. unfold buffer_length, Samples.zeros. rewrite repeat_length. lia.
Qed.

(** The four boundary inputs: 102 400 and 102 401 bytes of unrecognised
    data, and frames of 512 x 512 and 511 x 512. *)
Lemma boundary_exactness_witness :
  (exists r,
     WhatsAppValidator.validateSticker Samples.unknown_type (Samples.decodes_to 512 512 1)
       (Samples.zeros (100 * 1024)) no_metadata = Returns r /\
     FileSize.isValid (fileSize r) = true /\ Dimensions.isValid (dimensions r) = true) /\
  (exists r,
     WhatsAppValidator.validateSticker Samples.unknown_type (Samples.decodes_to 511 512 1)
       (Samples.zeros (100 * 1024 + 1)) no_metadata = Returns r /\
     FileSize.isValid (fileSize r) = false /\ Dimensions.isValid (dimensions r) = false) /\
  (exists r,
     WhatsAppValidator.validateSticker Samples.unknown_type (Samples.decodes_to 512 511 1)
       (Samples.zeros 7) no_metadata = Returns r /\
     Dimensions.isValid (dimensions r) = false).
Proof.
  split; [|split].
  - destruct (boundary_exactness Samples.unknown_type (Samples.decodes_to 512 512 1)
                (Samples.zeros (100 * 1024)) no_metadata) as (r & Hr & Hsize & Hdim).
    pose proof Hr as Hr'. rewrite validateSticker_report in Hr'. injection Hr' as Hr'.
    assert (Hstatic : FileSize.type (fileSize r) = static) by (rewrite <- Hr'; reflexivity).
    destruct (Hsize Hstatic) as [Hexact _].
    destruct (Hexact (length_zeros (100 * 1024) ltac:(lia))) as [Hvalid _].
    destruct (Hdim _ eq_refl) as [Hsquare _].
    destruct (Hsquare eq_refl eq_refl) as [Hdv _].
    exists r. auto.
  - destruct (boundary_exactness Samples.unknown_type (Samples.decodes_to 511 512 1)
                (Samples.zeros (100 * 1024 + 1)) no_metadata) as (r & Hr & Hsize & Hdim).
    pose proof Hr as Hr'. rewrite validateSticker_report in Hr'. injection Hr' as Hr'.
    assert (Hstatic : FileSize.type (fileSize r) = static) by (rewrite <- Hr'; reflexivity).
    destruct (Hsize Hstatic) as [_ Hover].
    destruct (Hover (length_zeros (100 * 1024 + 1) ltac:(lia))) as [Hvalid _].
    destruct (Hdim _ eq_refl) as (_ & Hnarrow & _).
    destruct (Hnarrow eq_refl eq_refl) as [Hdv _].
    exists r. auto.
  - destruct (boundary_exactness Samples.unknown_type (Samples.decodes_to 512 511 1)
                (Samples.zeros 7) no_metadata) as (r & Hr & _ & Hdim).
    destruct (Hdim _ eq_refl) as (_ & _ & Hshort).
    destruct (Hshort eq_refl eq_refl) as [Hdv _].
    exists r. auto.
Defined.

(** ** Metadata limits *)

Lemma all_chars_rejects (p : ascii -> bool) (s : string) (c : ascii) :
  In c (String.list_ascii_of_string s) -> p c = false -> all_chars p s = false.
Proof.
  induction s as [|a s IH]; simpl; [tauto|].
  intros [-> | Hin] Hc.
  - rewrite Hc. reflexivity.
  - rewrite (IH Hin Hc). apply andb_false_r.
Qed.

Lemma bad_charset_of_foreign_char (id : string) (c : ascii) :
  In c (String.list_ascii_of_string id) -> id_char_allowed c = false ->
  Summary.bad_charset id = true.
Proof.
  intros Hin Hc. unfold Summary.bad_charset, id_pattern_test.
  rewrite (all_chars_rejects _ _ _ Hin Hc).
  destruct id; [destruct Hin | reflexivity].
Qed.

Lemma metadata_errors_chunks options :
  Summary.metadata_errors options
  = ((if Summary.too_long 128 (or_empty (opt_pack options)) then [msg_pack_too_long] else [])
     ++ (if Summary.too_long 128 (or_empty (opt_author options))
         then [msg_author_too_long] else [])
     ++ (if Summary.too_long 128 (or_empty (opt_id options)) then [msg_id_too_long] else [])
     ++ (if Summary.bad_charset (or_empty (opt_id options)) then [msg_id_charset] else [])
     ++ (if Summary.too_many (or_nil (opt_categories options))
         then [msg_too_many_categories (Z.of_nat (length (or_nil (opt_categories options))))]
         else []))%list.
Proof. reflexivity. Qed.

Lemma in_metadata_errors fromBuffer sharp_metadata buffer options entry :
  In entry (Summary.metadata_errors options) ->
  In entry (errors (Summary.report fromBuffer sharp_metadata buffer options)).
Proof.
  intros H. rewrite errors_of_report. apply in_or_app. right. apply in_or_app. right. exact H.
Qed.

Ltac other_checks :=
  first [ eapply kinds_differ; [|apply size_errors_kind]; discriminate
        | eapply kinds_differ; [|apply dimension_errors_kind]; discriminate
        | apply chunk_not_kind; discriminate ].

(** C8.  A pack name of 128 characters, counted as [.length] counts them
    in UTF-16 code units, is valid and leaves no pack error; 129 give the
    pack-limit error.  The ID ["a_b-c.d e"] passes
    the charset check, as does any ID the pattern matches, which is then
    valid if it is no longer than 128; an ID with any character outside
    [[A-Za-z0-9_\-. ]] gives the charset error, whatever its length.  More
    than three categories is an error; no categories gives the warning and
    no categories error, and the categories sub-report stays valid. *)
Theorem metadata_boundaries
    (fromBuffer : Buffer -> Outcome (option FileTypeResult))
    (sharp_metadata : Buffer -> Outcome SharpMetadata)
    (buffer : Buffer) (options : IStickerOptions) :
  exists r,
    WhatsAppValidator.validateSticker fromBuffer sharp_metadata buffer options = Returns r /\
    (forall pack, opt_pack options = Some pack ->
     (strlen pack = 128 ->
      TextField.isValid (MetadataReport.pack (metadata r)) = true /\
      Forall (fun e => error_kind e <> PackError) (errors r)) /\
     (strlen pack = 129 ->
      TextField.isValid (MetadataReport.pack (metadata r)) = false /\
      In "Pack name exceeds 128 character limit" (errors r))) /\
    id_pattern_test "a_b-c.d e" = true /\
    (forall id, opt_id options = Some id -> id_pattern_test id = true ->
     Forall (fun e => error_kind e <> IdCharsetError) (errors r) /\
     (strlen id <= 128 -> TextField.isValid (MetadataReport.id (metadata r)) = true)) /\
    (forall id c,
       opt_id options = Some id ->
       In c (String.list_ascii_of_string id) -> id_char_allowed c = false ->
       TextField.isValid (MetadataReport.id (metadata r)) = false /\
       In msg_id_charset (errors r)) /\
    (forall categories, opt_categories options = Some categories ->
     (3 < length categories)%nat ->
     CategoriesField.isValid (MetadataReport.categories (metadata r)) = false /\
     In (msg_too_many_categories (Z.of_nat (length categories))) (errors r)) /\
    (or_nil (opt_categories options) = [] ->
     CategoriesField.isValid (MetadataReport.categories (metadata r)) = true /\
     Forall (fun e => error_kind e <> CategoriesError) (errors r) /\
     In msg_no_categories (warnings r)).
Proof.
  exists (Summary.report fromBuffer sharp_metadata buffer options).
  split; [apply validateSticker_report|].
  split; [|split; [reflexivity|split; [|split; [|split]]]].
  - intros pack Hpack. split; intros Hlen.
    + assert (Hok : Summary.too_long 128 (or_empty (opt_pack options)) = false).
      { rewrite Hpack. unfold Summary.too_long. simpl.
        rewrite Hlen. reflexivity. }
      split.
      * simpl. unfold Summary.text_after, WHATSAPP_LIMITS.PACK_NAME_MAX_LENGTH.
        simpl. rewrite Hok. reflexivity.
      * rewrite errors_of_report, metadata_errors_chunks, Hok.
        repeat apply Forall_app_2; try constructor; other_checks.
    + assert (Hover : Summary.too_long 128 (or_empty (opt_pack options)) = true).
      { rewrite Hpack. unfold Summary.too_long. simpl.
        rewrite Hlen. reflexivity. }
      split.
      * simpl. unfold Summary.text_after, WHATSAPP_LIMITS.PACK_NAME_MAX_LENGTH.
        simpl. rewrite Hover. reflexivity.
      * apply in_metadata_errors. rewrite metadata_errors_chunks, Hover.
        left. reflexivity.
  - intros id Hid Hmatch.
    assert (Hgood : Summary.bad_charset id = false).
    { unfold Summary.bad_charset. rewrite Hmatch. apply andb_false_r. }
    split.
    + rewrite errors_of_report, metadata_errors_chunks, Hid. cbn [or_empty]. rewrite Hgood.
      repeat apply Forall_app_2; try constructor; other_checks.
    + intros Hshort. simpl. rewrite Hid. cbn [or_empty]. rewrite Hgood.
      unfold Summary.too_long, WHATSAPP_LIMITS.ID_MAX_LENGTH.
      apply Z.ltb_ge in Hshort. rewrite Hshort. reflexivity.
  - intros id c Hid Hin Hc.
    pose proof (bad_charset_of_foreign_char id c Hin Hc) as Hbad.
    split.
    + simpl. rewrite Hid. simpl. rewrite Hbad, orb_true_r. reflexivity.
    + apply in_metadata_errors. rewrite metadata_errors_chunks, !in_app_iff.
      do 3 right. left. rewrite Hid. cbn [or_empty]. rewrite Hbad. left. reflexivity.
  - intros categories Hcats Hmany.
    assert (Htoo : Summary.too_many categories = true).
    { unfold Summary.too_many. apply Z.ltb_lt.
      unfold WHATSAPP_LIMITS.MAX_CATEGORIES_PER_STICKER. lia. }
    split.
    + simpl. rewrite Hcats. simpl. rewrite Htoo. reflexivity.
    + apply in_metadata_errors. rewrite metadata_errors_chunks, !in_app_iff.
      do 4 right. rewrite Hcats. cbn [or_nil]. rewrite Htoo. left. reflexivity.
  - intros Hnone. split; [|split].
    + simpl. rewrite Hnone. reflexivity.
    + rewrite errors_of_report, metadata_errors_chunks, Hnone.
      repeat apply Forall_app_2; try constructor; other_checks.
    + simpl. unfold Summary.all_warnings, Summary.metadata_warnings. rewrite Hnone.
      apply in_or_app. right. left. reflexivity.
Qed.

(** An input for each case of the theorem; and two pack names outside ASCII:
    127 letters and an e with acute accent have 129 bytes and 128 code
    units, 127 letters and an emoji beyond the Basic Multilingual Plane
    have 131 bytes and 129 code units. *)
Lemma metadata_boundaries_witness :
  (exists r,
     WhatsAppValidator.validateSticker Samples.unknown_type Samples.undecodable
       (Samples.zeros 3) (Samples.named (Samples.letters 128)) = Returns r /\
     TextField.isValid (MetadataReport.pack (metadata r)) = true) /\
  (exists r,
     WhatsAppValidator.validateSticker Samples.unknown_type Samples.undecodable
       (Samples.zeros 3) (Samples.named (Samples.letters 129)) = Returns r /\
     In "Pack name exceeds 128 character limit" (errors r)) /\
  (exists r,
     WhatsAppValidator.validateSticker Samples.unknown_type Samples.undecodable
       (Samples.zeros 3) (Samples.with_id "a_b-c.d e") = Returns r /\
     TextField.isValid (MetadataReport.id (metadata r)) = true) /\
  (exists r,
     WhatsAppValidator.validateSticker Samples.unknown_type Samples.undecodable
       (Samples.zeros 3) (Samples.with_id "me@home") = Returns r /\
     In msg_id_charset (errors r)) /\
  (exists r,
     WhatsAppValidator.validateSticker Samples.unknown_type Samples.undecodable
       (Samples.zeros 3) (Samples.with_categories ["😀"; "🎉"; "🔥"; "💯"]) = Returns r /\
     CategoriesField.isValid (MetadataReport.categories (metadata r)) = false) /\
  (exists r,
     WhatsAppValidator.validateSticker Samples.unknown_type Samples.undecodable
       (Samples.zeros 3) no_metadata = Returns r /\
     In msg_no_categories (warnings r)) /\
  (exists r,
     WhatsAppValidator.validateSticker Samples.unknown_type Samples.undecodable
       (Samples.zeros 3) (Samples.named (Samples.letters 127 +:+ "é")) = Returns r /\
     TextField.isValid (MetadataReport.pack (metadata r)) = true) /\
  (exists r,
     WhatsAppValidator.validateSticker Samples.unknown_type Samples.undecodable
       (Samples.zeros 3) (Samples.named (Samples.letters 127 +:+ "😀")) = Returns r /\
     In "Pack name exceeds 128 character limit" (errors r)).
Proof.
  split; [|split; [|split; [|split; [|split; [|split; [|split]]]]]].
  - destruct (metadata_boundaries Samples.unknown_type Samples.undecodable
                (Samples.zeros 3) (Samples.named (Samples.letters 128)))
      as (r & Hr & Hpack & _).
    destruct (Hpack _ eq_refl) as [Hexact _].
    destruct (Hexact eq_refl) as [Hvalid _]. exists r. auto.
  - destruct (metadata_boundaries Samples.unknown_type Samples.undecodable
                (Samples.zeros 3) (Samples.named (Samples.letters 129)))
      as (r & Hr & Hpack & _).
    destruct (Hpack _ eq_refl) as [_ Hover].
    destruct (Hover eq_refl) as [_ Hin]. exists r. auto.
  - destruct (metadata_boundaries Samples.unknown_type Samples.undecodable
                (Samples.zeros 3) (Samples.with_id "a_b-c.d e"))
      as (r & Hr & _ & _ & Hid & _).
    destruct (Hid _ eq_refl eq_refl) as [_ Hvalid].
    exists r. split; [exact Hr|]. apply Hvalid. vm_compute. discriminate.
  - destruct (metadata_boundaries Samples.unknown_type Samples.undecodable
                (Samples.zeros 3) (Samples.with_id "me@home"))
      as (r & Hr & _ & _ & _ & Hforeign & _).
    destruct (Hforeign "me@home" "@"%char eq_refl) as [_ Hin].
    + simpl. right. right. left. reflexivity.
    + reflexivity.
    + exists r. auto.
  - destruct (metadata_boundaries Samples.unknown_type Samples.undecodable
                (Samples.zeros 3) (Samples.with_categories ["😀"; "🎉"; "🔥"; "💯"]))
      as (r & Hr & _ & _ & _ & _ & Hmany & _).
    destruct (Hmany _ eq_refl) as [Hinvalid _].
    + simpl. lia.
    + exists r. auto.
  - destruct (metadata_boundaries Samples.unknown_type Samples.undecodable
                (Samples.zeros 3) no_metadata)
      as (r & Hr & _ & _ & _ & _ & _ & Hnone).
    destruct (Hnone eq_refl) as (_ & _ & Hwarn). exists r. auto.
  - destruct (metadata_boundaries Samples.unknown_type Samples.undecodable
                (Samples.zeros 3) (Samples.named (Samples.letters 127 +:+ "é")))
      as (r & Hr & Hpack & _).
    destruct (Hpack _ eq_refl) as [Hexact _].
    destruct (Hexact eq_refl) as [Hvalid _]. exists r. auto.
  - destruct (metadata_boundaries Samples.unknown_type Samples.undecodable
                (Samples.zeros 3) (Samples.named (Samples.letters 127 +:+ "😀")))
      as (r & Hr & Hpack & _).
    destruct (Hpack _ eq_refl) as [_ Hover].
    destruct (Hover eq_refl) as [_ Hin]. exists r. auto.
Defined.

(** The validation scenario of the design document: a pack name of 140
    characters, an author, and no categories. *)
Example long_pack_scenario :
  exists r,
    WhatsAppValidator.validateSticker Samples.unknown_type (Samples.decodes_to 512 512 1)
      (Samples.zeros 3) Samples.long_pack_no_categories = Returns r /\
    isValid r = false /\
    errors r = ["Pack name exceeds 128 character limit"] /\
    In msg_no_categories (warnings r) /\
    TextField.isValid (MetadataReport.author (metadata r)) = true.
Proof.
  eexists. split; [apply validateSticker_report|].
  split; [reflexivity|]. split; [reflexivity|]. split; [|reflexivity].
  left. reflexivity.
Qed.

(** ** Temp-file names *)

Lemma append_same_start (a b c : string) : a +:+ b = a +:+ c -> b = c.
Proof.
  induction a as [|x a IH]; simpl; intros H; [exact H|].
  injection H as H. exact (IH H).
Qed.

(** ** The adaptive converter, attempt by attempt *)

Section AdaptiveSteps.

Variables (tmpdir random36 : string).
Variable codec : Buffer -> list string -> Outcome Buffer.
Variable data : Buffer.
Variable levels : list Adaptive.Settings.
Variable targetSize : Z.

Local Abbreviation video := (Adaptive.video tmpdir random36).
Local Abbreviation webpFile := (Adaptive.webpFile tmpdir random36).
Local Abbreviation run_of := (Adaptive.run_of tmpdir random36).
Local Abbreviation encoded := (Adaptive.encoded codec data).
Local Abbreviation attempt := (Adaptive.attempt tmpdir random36 codec levels targetSize).
Local Abbreviation loop := (Adaptive.loop tmpdir random36 codec levels).
Local Abbreviation convert := (Adaptive.convert tmpdir random36 codec levels).

Lemma adaptive_video_not_webp settings : webpFile settings <> video.
Proof.
  unfold Adaptive.webpFile, Adaptive.video. intros H.
  apply append_same_start in H. discriminate H.
Qed.

(** An attempt whose encoding succeeds. *)
Lemma adaptive_attempt_encodes i settings result w buffer :
  files w !! video = Some data ->
  encoded settings = Returns buffer ->
  attempt i settings result w
  = (after_encoding (run_of settings) w,
     Returns (if buffer_length buffer <=? targetSize then Break (Some buffer)
              else if (i =? length levels - 1)%nat then Next (Some buffer)
              else Next result)).
Proof.
  intros Hvideo Henc. unfold Adaptive.encoded in Henc.
  unfold Adaptive.attempt, ffmpeg_save, readFile, writeFile, unlink_quietly, unlink.
  run_eff. rewrite Hvideo. simpl. rewrite Henc. simpl.
  rewrite lookup_insert_eq. simpl. rewrite lookup_insert_eq. simpl.
  unfold after_encoding, set_files. simpl. rewrite delete_insert_eq.
  destruct (buffer_length buffer <=? targetSize); [reflexivity|].
  destruct (i =? length levels - 1)%nat; reflexivity.
Qed.

(** An attempt whose encoding fails: the loop goes on. *)
Lemma adaptive_attempt_fails i settings result w error :
  files w !! video = Some data ->
  encoded settings = Throws error ->
  attempt i settings result w = (log_run (run_of settings) w, Returns (Next result)).
Proof.
  intros Hvideo Henc. unfold Adaptive.encoded in Henc.
  unfold Adaptive.attempt, ffmpeg_save, readFile, writeFile, unlink_quietly, unlink.
  run_eff. rewrite Hvideo. simpl. rewrite Henc. reflexivity.
Qed.

Lemma video_kept_after_encoding settings w :
  files w !! video = Some data ->
  files (after_encoding (run_of settings) w) !! video = Some data.
Proof.
  intros H. simpl. rewrite lookup_delete_ne; [exact H|]. apply adaptive_video_not_webp.
Qed.

(** The loop passes over [k] entries none of which fits and none of which is
    the last of the ladder. *)
Lemma adaptive_loop_advance (k : nat) :
  forall remaining i w,
    files w !! video = Some data ->
    (i + length remaining = length levels)%nat ->
    (k < length remaining)%nat ->
    (forall j settings buffer, (j < k)%nat -> remaining !! j = Some settings ->
       encoded settings = Returns buffer -> targetSize < buffer_length buffer) ->
    exists w1,
      files w1 !! video = Some data /\
      ffmpeg_runs w1 = (ffmpeg_runs w ++ map run_of (take k remaining))%list /\
      loop remaining targetSize i None w = loop (drop k remaining) targetSize (i + k) None w1.
Proof.
  induction k as [|k IH]; intros remaining i w Hvideo Hlen Hk Hnofit.
  - exists w. rewrite take_0, drop_0, app_nil_r, Nat.add_0_r. auto.
  - destruct remaining as [|settings rest]; [simpl in Hk; lia|].
    simpl in Hk, Hlen.
    assert (Hnotlast : (i =? length levels - 1)%nat = false) by (apply Nat.eqb_neq; lia).
    assert (Hstep : exists w0,
               files w0 !! video = Some data /\
               ffmpeg_runs w0 = (ffmpeg_runs w ++ [run_of settings])%list /\
               attempt i settings None w = (w0, Returns (Next None))).
    { destruct (encoded settings) as [buffer|error] eqn:Henc.
      - exists (after_encoding (run_of settings) w).
        split; [apply video_kept_after_encoding; exact Hvideo|]. split; [reflexivity|].
        rewrite (adaptive_attempt_encodes _ _ _ _ _ Hvideo Henc), Hnotlast.
        pose proof (Hnofit 0%nat settings buffer ltac:(lia) eq_refl Henc) as Hbig.
        apply Z.leb_gt in Hbig. rewrite Hbig. reflexivity.
      - exists (log_run (run_of settings) w).
        split; [exact Hvideo|]. split; [reflexivity|].
        apply (adaptive_attempt_fails _ _ _ _ _ Hvideo Henc). }
    destruct Hstep as (w0 & Hvideo0 & Hruns0 & Hattempt).
    destruct (IH rest (S i) w0 Hvideo0 ltac:(lia) ltac:(lia)) as (w1 & Hvideo1 & Hruns1 & Hloop).
    { intros j s b Hj Hlook. apply (Hnofit (S j) s b); [lia | exact Hlook]. }
    exists w1. split; [exact Hvideo1|]. split.
    + rewrite Hruns1, Hruns0. simpl. rewrite <- app_assoc. reflexivity.
    + simpl. rewrite (bind_returns _ _ _ _ _ Hattempt).
      rewrite Hloop. replace (S i + k)%nat with (i + S k)%nat by lia. reflexivity.
Qed.

(** The conversion once the loop has left [result] and the files behind. *)
Lemma adaptive_convert_after_loop w w1 (result : option Buffer) :
  loop levels targetSize 0 None (set_files (<[video := data]> (files w)) w)
  = (w1, Returns result) ->
  files w1 !! video = Some data ->
  convert data targetSize w
  = (set_files (delete video (files w1)) w1,
     match result with
     | Some buffer => Returns buffer
     | None => Throws (JsError "Failed to convert video with any quality settings")
     end).
Proof.
  intros Hloop Hvideo. unfold Adaptive.convert, writeFile, unlink_quietly, unlink.
  unfold bind at 1. unfold modify at 1.
  rewrite (bind_returns _ _ _ _ _ Hloop).
  run_eff. rewrite Hvideo. destruct result; reflexivity.
Qed.

Lemma written_video_is_there (w : World) :
  files (set_files (<[video := data]> (files w)) w) !! video = Some data.
Proof. simpl. apply lookup_insert_eq. Qed.

(** First fit: the entry [k] whose output is the first within the target is
    accepted, and ffmpeg has run for the entries up to [k] and no other. *)
Lemma adaptive_first_fit k settings buffer w :
  levels !! k = Some settings ->
  encoded settings = Returns buffer ->
  buffer_length buffer <= targetSize ->
  (forall j earlier output, (j < k)%nat -> levels !! j = Some earlier ->
     encoded earlier = Returns output -> targetSize < buffer_length output) ->
  exists w',
    convert data targetSize w = (w', Returns buffer) /\
    ffmpeg_runs w' = (ffmpeg_runs w ++ map run_of (take (S k) levels))%list /\
    files w' !! video = None.
Proof.
  intros Hk Henc Hfits Hbefore.
  pose proof (lookup_lt_Some _ _ _ Hk) as Hlt.
  destruct (adaptive_loop_advance k levels 0%nat _ (written_video_is_there w)
              ltac:(lia) Hlt Hbefore) as (w1 & Hvideo1 & Hruns1 & Hloop).
  rewrite (drop_S _ _ _ Hk) in Hloop. simpl in Hloop.
  rewrite (bind_returns _ _ _ _ _ (adaptive_attempt_encodes _ _ _ _ _ Hvideo1 Henc)) in Hloop.
  apply Z.leb_le in Hfits. rewrite Hfits in Hloop.
  eexists. split; [|split].
  - apply (adaptive_convert_after_loop _ _ _ Hloop).
    apply video_kept_after_encoding. exact Hvideo1.
  - simpl. rewrite Hruns1, (take_S_r _ _ _ Hk), map_app, app_assoc. reflexivity.
  - simpl. apply lookup_delete_eq.
Qed.

(** The whole ladder without a fit: what the last attempt yields decides. *)
Lemma adaptive_no_fit w :
  (forall j settings output, levels !! j = Some settings ->
     encoded settings = Returns output -> targetSize < buffer_length output) ->
  exists w',
    ffmpeg_runs w' = (ffmpeg_runs w ++ map run_of levels)%list /\
    files w' !! video = None /\
    convert data targetSize w
    = (w', match last levels with
           | Some settings =>
               match encoded settings with
               | Returns buffer => Returns buffer
               | Throws _ => Throws (JsError "Failed to convert video with any quality settings")
               end
           | None => Throws (JsError "Failed to convert video with any quality settings")
           end).
Proof.
  intros Hnofit.
  destruct (last levels) as [settings|] eqn:Hlast.
  - rewrite last_lookup in Hlast.
    pose proof (lookup_lt_Some _ _ _ Hlast) as Hlt.
    destruct (adaptive_loop_advance (pred (length levels)) levels 0%nat _
                (written_video_is_there w) ltac:(lia) Hlt)
      as (w1 & Hvideo1 & Hruns1 & Hloop).
    { intros j s b _ Hj. apply (Hnofit j s b Hj). }
    rewrite (drop_S _ _ _ Hlast) in Hloop.
    rewrite drop_ge in Hloop by lia. simpl in Hloop.
    assert (Hall : (map run_of (take (pred (length levels)) levels) ++ [run_of settings])%list
                   = map run_of levels).
    { rewrite <- (take_drop (pred (length levels)) levels) at 3.
      rewrite (drop_S _ _ _ Hlast), drop_ge by lia. rewrite map_app. reflexivity. }
    destruct (encoded settings) as [buffer|error] eqn:Henc.
    + rewrite (bind_returns _ _ _ _ _ (adaptive_attempt_encodes _ _ _ _ _ Hvideo1 Henc))
        in Hloop.
      pose proof (Hnofit _ _ _ Hlast Henc) as Hbig. apply Z.leb_gt in Hbig.
      rewrite Hbig in Hloop.
      rewrite Nat.sub_1_r, Nat.eqb_refl in Hloop. unfold ret in Hloop.
      eexists. split; [|split; [|apply (adaptive_convert_after_loop _ _ _ Hloop);
                                  apply video_kept_after_encoding; exact Hvideo1]].
      * simpl. rewrite Hruns1, <- app_assoc, Hall. reflexivity.
      * simpl. apply lookup_delete_eq.
    + rewrite (bind_returns _ _ _ _ _ (adaptive_attempt_fails _ _ _ _ _ Hvideo1 Henc))
        in Hloop.
      eexists. split; [|split; [|apply (adaptive_convert_after_loop _ _ _ Hloop);
                                  exact Hvideo1]].
      * simpl. rewrite Hruns1, <- app_assoc, Hall. reflexivity.
      * simpl. apply lookup_delete_eq.
  - apply last_None in Hlast.
    assert (Hloop : forall remaining w0, remaining = [] ->
              loop remaining targetSize 0 None w0 = (w0, Returns None))
      by (intros remaining w0 ->; reflexivity).
    pose proof (adaptive_convert_after_loop w _ None (Hloop _ _ Hlast)
                  (written_video_is_there w)) as Hconvert.
    eexists. split; [|split; [|exact Hconvert]].
    + simpl. rewrite Hlast, app_nil_r. reflexivity.
    + simpl. apply lookup_delete_eq.
Qed.

(** Either no entry of the ladder fits, or there is a first one that does. *)
Lemma adaptive_least_fit :
  (forall j settings output, levels !! j = Some settings ->
     encoded settings = Returns output -> targetSize < buffer_length output)
  \/ (exists k settings buffer,
        levels !! k = Some settings /\ encoded settings = Returns buffer /\
        buffer_length buffer <= targetSize /\
        (forall j earlier output, (j < k)%nat -> levels !! j = Some earlier ->
           encoded earlier = Returns output -> targetSize < buffer_length output)).
Proof.
  assert (Hbound : forall n,
    (forall j settings output, (j < n)%nat -> levels !! j = Some settings ->
       encoded settings = Returns output -> targetSize < buffer_length output)
    \/ (exists k settings buffer,
          levels !! k = Some settings /\ encoded settings = Returns buffer /\
          buffer_length buffer <= targetSize /\
          (forall j earlier output, (j < k)%nat -> levels !! j = Some earlier ->
             encoded earlier = Returns output -> targetSize < buffer_length output))).
  { induction n as [|n [IH|IH]]; [left; intros; lia | | right; exact IH].
    destruct (levels !! n) as [settings|] eqn:Hn.
    - destruct (encoded settings) as [buffer|error] eqn:Henc.
      + destruct (Z_le_gt_dec (buffer_length buffer) targetSize) as [Hfit|Hbig].
        * right. exists n, settings, buffer. auto.
        * left. intros j s b Hj Hlook Hb.
          destruct (decide (j = n)) as [->|Hne]; [|apply (IH j s b); [lia|assumption..]].
          rewrite Hn in Hlook. injection Hlook as <-. rewrite Henc in Hb.
          injection Hb as <-. lia.
      + left. intros j s b Hj Hlook Hb.
        destruct (decide (j = n)) as [->|Hne]; [|apply (IH j s b); [lia|assumption..]].
        rewrite Hn in Hlook. injection Hlook as <-. rewrite Henc in Hb. discriminate.
    - left. intros j s b Hj Hlook Hb.
      destruct (decide (j = n)) as [->|Hne]; [|apply (IH j s b); [lia|assumption..]].
      rewrite Hn in Hlook. discriminate. }
  destruct (Hbound (length levels)) as [Hnone|Hsome]; [left|right; exact Hsome].
  intros j s b Hlook Hb.
  apply (Hnone j s b); [apply (lookup_lt_Some _ _ _ Hlook) | exact Hlook | exact Hb].
Qed.

End AdaptiveSteps.

(** ** The optimized converter, attempt by attempt *)

Section OptimizedSteps.

Variables (tmpdir random36 : string).
Variable codec : Buffer -> list string -> Outcome Buffer.
Variable data : Buffer.
Variable levels : list VideoToGif.Settings.

Local Abbreviation video := (VideoToGif.video tmpdir random36).
Local Abbreviation webpFile := (VideoToGif.webpFile tmpdir random36).
Local Abbreviation run_of := (VideoToGif.run_of tmpdir random36).
Local Abbreviation runs_from := (VideoToGif.runs_from tmpdir random36).
Local Abbreviation encoded := (VideoToGif.encoded codec data).
Local Abbreviation attempt := (VideoToGif.attempt tmpdir random36 codec levels).
Local Abbreviation loop := (VideoToGif.loop tmpdir random36 codec levels).
Local Abbreviation convert := (VideoToGif.convert tmpdir random36 codec levels).
Local Abbreviation targetSize := VideoToGif.targetSize.

Lemma optimized_video_not_webp settings : webpFile settings <> video.
Proof.
  unfold VideoToGif.webpFile, VideoToGif.video. intros H.
  apply append_same_start in H. discriminate H.
Qed.

Lemma runs_from_app i (l1 l2 : list VideoToGif.Settings) :
  runs_from i (l1 ++ l2) = (runs_from i l1 ++ runs_from (i + length l1) l2)%list.
Proof.
  revert i. induction l1 as [|s l1 IH]; intros i; simpl.
  - rewrite Nat.add_0_r. reflexivity.
  - rewrite IH. replace (S i + length l1)%nat with (i + S (length l1))%nat by lia.
    reflexivity.
Qed.

Lemma optimized_attempt_encodes i settings result w buffer :
  files w !! video = Some data ->
  encoded i settings = Returns buffer ->
  attempt i settings result w
  = (after_encoding (run_of i settings) w,
     Returns (if buffer_length buffer <=? targetSize then Break (Some buffer)
              else if (i =? length levels - 1)%nat then Next (Some buffer)
              else Next result)).
Proof.
  intros Hvideo Henc. unfold VideoToGif.encoded in Henc.
  unfold VideoToGif.attempt, ffmpeg_save, readFile, writeFile, unlink_quietly, unlink.
  run_eff. rewrite Hvideo. simpl. rewrite Henc. simpl.
  rewrite lookup_insert_eq. simpl. rewrite lookup_insert_eq. simpl.
  unfold after_encoding, set_files. simpl. rewrite delete_insert_eq.
  destruct (buffer_length buffer <=? targetSize); [reflexivity|].
  destruct (i =? length levels - 1)%nat; reflexivity.
Qed.

(** An attempt whose encoding fails: the error is thrown again at the last
    index, and the loop goes on at any other. *)
Lemma optimized_attempt_fails i settings result w error :
  files w !! video = Some data ->
  encoded i settings = Throws error ->
  attempt i settings result w
  = (log_run (run_of i settings) w,
     if (i =? length levels - 1)%nat then Throws error else Returns (Next result)).
Proof.
  intros Hvideo Henc. unfold VideoToGif.encoded in Henc.
  unfold VideoToGif.attempt, ffmpeg_save, readFile, writeFile, unlink_quietly, unlink.
  run_eff. rewrite Hvideo. simpl. rewrite Henc. simpl.
  destruct (i =? length levels - 1)%nat; reflexivity.
Qed.

Lemma optimized_video_kept i settings w :
  files w !! video = Some data ->
  files (after_encoding (run_of i settings) w) !! video = Some data.
Proof.
  intros H. simpl. rewrite lookup_delete_ne; [exact H|]. apply optimized_video_not_webp.
Qed.

Lemma optimized_loop_advance (k : nat) :
  forall remaining i w,
    files w !! video = Some data ->
    (i + length remaining = length levels)%nat ->
    (k < length remaining)%nat ->
    (forall j settings buffer, (j < k)%nat -> remaining !! j = Some settings ->
       encoded (i + j) settings = Returns buffer -> targetSize < buffer_length buffer) ->
    exists w1,
      files w1 !! video = Some data /\
      ffmpeg_runs w1 = (ffmpeg_runs w ++ runs_from i (take k remaining))%list /\
      loop remaining i None w = loop (drop k remaining) (i + k) None w1.
Proof.
  induction k as [|k IH]; intros remaining i w Hvideo Hlen Hk Hnofit.
  - exists w. rewrite take_0, drop_0, app_nil_r, Nat.add_0_r. auto.
  - destruct remaining as [|settings rest]; [simpl in Hk; lia|].
    simpl in Hk, Hlen.
    assert (Hnotlast : (i =? length levels - 1)%nat = false) by (apply Nat.eqb_neq; lia).
    assert (Hstep : exists w0,
               files w0 !! video = Some data /\
               ffmpeg_runs w0 = (ffmpeg_runs w ++ [run_of i settings])%list /\
               attempt i settings None w = (w0, Returns (Next None))).
    { destruct (encoded i settings) as [buffer|error] eqn:Henc.
      - exists (after_encoding (run_of i settings) w).
        split; [apply optimized_video_kept; exact Hvideo|]. split; [reflexivity|].
        rewrite (optimized_attempt_encodes _ _ _ _ _ Hvideo Henc), Hnotlast.
        assert (Hbig : targetSize < buffer_length buffer).
        { apply (Hnofit 0%nat settings buffer); [lia | reflexivity |].
          rewrite Nat.add_0_r. exact Henc. }
        apply Z.leb_gt in Hbig. rewrite Hbig. reflexivity.
      - exists (log_run (run_of i settings) w).
        split; [exact Hvideo|]. split; [reflexivity|].
        rewrite (optimized_attempt_fails _ _ _ _ _ Hvideo Henc), Hnotlast. reflexivity. }
    destruct Hstep as (w0 & Hvideo0 & Hruns0 & Hattempt).
    destruct (IH rest (S i) w0 Hvideo0 ltac:(lia) ltac:(lia)) as (w1 & Hvideo1 & Hruns1 & Hloop).
    { intros j s b Hj Hlook Hb. apply (Hnofit (S j) s b); [lia | exact Hlook |].
      replace (i + S j)%nat with (S i + j)%nat by lia. exact Hb. }
    exists w1. split; [exact Hvideo1|]. split.
    + rewrite Hruns1, Hruns0. simpl. rewrite <- app_assoc. reflexivity.
    + simpl. rewrite (bind_returns _ _ _ _ _ Hattempt).
      rewrite Hloop. replace (S i + k)%nat with (i + S k)%nat by lia. reflexivity.
Qed.

Lemma optimized_convert_after_loop w w1 (result : option Buffer) :
  loop levels 0 None (set_files (<[video := data]> (files w)) w) = (w1, Returns result) ->
  files w1 !! video = Some data ->
  convert data w
  = (set_files (delete video (files w1)) w1,
     match result with
     | Some buffer => Returns buffer
     | None => Throws (JsError "Failed to convert video with any quality settings")
     end).
Proof.
  intros Hloop Hvideo. unfold VideoToGif.convert, writeFile, unlink_quietly, unlink.
  unfold bind at 1. unfold modify at 1.
  rewrite (bind_returns _ _ _ _ _ Hloop).
  run_eff. rewrite Hvideo. destruct result; reflexivity.
Qed.

(** When the loop throws, nothing after it runs. *)
Lemma optimized_convert_loop_throws w w1 error :
  loop levels 0 None (set_files (<[video := data]> (files w)) w) = (w1, Throws error) ->
  convert data w = (w1, Throws error).
Proof.
  intros Hloop. unfold VideoToGif.convert, writeFile.
  unfold bind at 1. unfold modify at 1.
  rewrite (bind_throws _ _ _ _ _ Hloop). reflexivity.
Qed.

Lemma optimized_written_video (w : World) :
  files (set_files (<[video := data]> (files w)) w) !! video = Some data.
Proof. simpl. apply lookup_insert_eq. Qed.

Lemma optimized_first_fit k settings buffer w :
  levels !! k = Some settings ->
  encoded k settings = Returns buffer ->
  buffer_length buffer <= targetSize ->
  (forall j earlier output, (j < k)%nat -> levels !! j = Some earlier ->
     encoded j earlier = Returns output -> targetSize < buffer_length output) ->
  exists w',
    convert data w = (w', Returns buffer) /\
    ffmpeg_runs w' = (ffmpeg_runs w ++ runs_from 0 (take (S k) levels))%list /\
    files w' !! video = None.
Proof.
  intros Hk Henc Hfits Hbefore.
  pose proof (lookup_lt_Some _ _ _ Hk) as Hlt.
  destruct (optimized_loop_advance k levels 0%nat _ (optimized_written_video w)
              ltac:(lia) Hlt Hbefore) as (w1 & Hvideo1 & Hruns1 & Hloop).
  rewrite (drop_S _ _ _ Hk) in Hloop. simpl in Hloop.
  rewrite (bind_returns _ _ _ _ _ (optimized_attempt_encodes _ _ _ _ _ Hvideo1 Henc)) in Hloop.
  apply Z.leb_le in Hfits. rewrite Hfits in Hloop.
  eexists. split; [|split].
  - apply (optimized_convert_after_loop _ _ _ Hloop).
    apply optimized_video_kept. exact Hvideo1.
  - simpl. rewrite Hruns1, (take_S_r _ _ _ Hk), runs_from_app. simpl.
    rewrite length_take_le by lia. rewrite app_assoc. reflexivity.
  - simpl. apply lookup_delete_eq.
Qed.

Lemma runs_from_all settings :
  levels !! pred (length levels) = Some settings ->
  (runs_from 0 (take (pred (length levels)) levels)
   ++ [run_of (pred (length levels)) settings])%list
  = runs_from 0 levels.
Proof.
  intros Hlast. pose proof (lookup_lt_Some _ _ _ Hlast) as Hlt.
  rewrite <- (take_drop (pred (length levels)) levels) at 4.
  rewrite (drop_S _ _ _ Hlast), drop_ge by lia.
  rewrite runs_from_app, length_take_le by lia. reflexivity.
Qed.

(** The whole ladder without a fit.  The last attempt decides: its output is
    returned, or its error is thrown again, and then the input file is still
    in the temp directory. *)
Lemma optimized_no_fit w :
  (forall j settings output, levels !! j = Some settings ->
     encoded j settings = Returns output -> targetSize < buffer_length output) ->
  exists w',
    ffmpeg_runs w' = (ffmpeg_runs w ++ runs_from 0 levels)%list /\
    match last levels with
    | Some settings =>
        match encoded (pred (length levels)) settings with
        | Returns buffer =>
            convert data w = (w', Returns buffer) /\ files w' !! video = None
        | Throws error =>
            convert data w = (w', Throws error) /\ files w' !! video = Some data
        end
    | None =>
        convert data w
        = (w', Throws (JsError "Failed to convert video with any quality settings"))
        /\ files w' !! video = None
    end.
Proof.
  intros Hnofit.
  destruct (last levels) as [settings|] eqn:Hlast.
  - rewrite last_lookup in Hlast.
    pose proof (lookup_lt_Some _ _ _ Hlast) as Hlt.
    destruct (optimized_loop_advance (pred (length levels)) levels 0%nat _
                (optimized_written_video w) ltac:(lia) Hlt)
      as (w1 & Hvideo1 & Hruns1 & Hloop).
    { intros j s b _ Hj. apply (Hnofit j s b Hj). }
    rewrite (drop_S _ _ _ Hlast) in Hloop.
    rewrite drop_ge in Hloop by lia. simpl in Hloop.
    destruct (encoded (pred (length levels)) settings) as [buffer|error] eqn:Henc.
    + rewrite (bind_returns _ _ _ _ _ (optimized_attempt_encodes _ _ _ _ _ Hvideo1 Henc))
        in Hloop.
      pose proof (Hnofit _ _ _ Hlast Henc) as Hbig. apply Z.leb_gt in Hbig.
      rewrite Hbig in Hloop.
      rewrite Nat.sub_1_r, Nat.eqb_refl in Hloop. unfold ret in Hloop.
      eexists. split; [|split; [apply (optimized_convert_after_loop _ _ _ Hloop);
                                apply optimized_video_kept; exact Hvideo1|]].
      * simpl. rewrite Hruns1, <- app_assoc, (runs_from_all _ Hlast). reflexivity.
      * simpl. apply lookup_delete_eq.
    + assert (Hthrow : attempt (pred (length levels)) settings None w1
                       = (log_run (run_of (pred (length levels)) settings) w1, Throws error)).
      { rewrite (optimized_attempt_fails _ _ _ _ _ Hvideo1 Henc), Nat.sub_1_r, Nat.eqb_refl.
        reflexivity. }
      rewrite (bind_throws _ _ _ _ _ Hthrow) in Hloop.
      eexists. split; [|split; [apply (optimized_convert_loop_throws _ _ _ Hloop)|]].
      * simpl. rewrite Hruns1, <- app_assoc, (runs_from_all _ Hlast). reflexivity.
      * simpl. exact Hvideo1.
  - apply last_None in Hlast.
    assert (Hloop : forall remaining w0, remaining = [] ->
              loop remaining 0 None w0 = (w0, Returns None))
      by (intros remaining w0 ->; reflexivity).
    pose proof (optimized_convert_after_loop w _ None (Hloop _ _ Hlast)
                  (optimized_written_video w)) as Hconvert.
    eexists. split; [|split; [exact Hconvert|]].
    + simpl. rewrite Hlast, app_nil_r. reflexivity.
    + simpl. apply lookup_delete_eq.
Qed.

Lemma optimized_least_fit :
  (forall j settings output, levels !! j = Some settings ->
     encoded j settings = Returns output -> targetSize < buffer_length output)
  \/ (exists k settings buffer,
        levels !! k = Some settings /\ encoded k settings = Returns buffer /\
        buffer_length buffer <= targetSize /\
        (forall j earlier output, (j < k)%nat -> levels !! j = Some earlier ->
           encoded j earlier = Returns output -> targetSize < buffer_length output)).
Proof.
  assert (Hbound : forall n,
    (forall j settings output, (j < n)%nat -> levels !! j = Some settings ->
       encoded j settings = Returns output -> targetSize < buffer_length output)
    \/ (exists k settings buffer,
          levels !! k = Some settings /\ encoded k settings = Returns buffer /\
          buffer_length buffer <= targetSize /\
          (forall j earlier output, (j < k)%nat -> levels !! j = Some earlier ->
             encoded j earlier = Returns output -> targetSize < buffer_length output))).
  { induction n as [|n [IH|IH]]; [left; intros; lia | | right; exact IH].
    destruct (levels !! n) as [settings|] eqn:Hn.
    - destruct (encoded n settings) as [buffer|error] eqn:Henc.
      + destruct (Z_le_gt_dec (buffer_length buffer) targetSize) as [Hfit|Hbig].
        * right. exists n, settings, buffer. auto.
        * left. intros j s b Hj Hlook Hb.
          destruct (decide (j = n)) as [->|Hne]; [|apply (IH j s b); [lia|assumption..]].
          rewrite Hn in Hlook. injection Hlook as <-. rewrite Henc in Hb.
          injection Hb as <-. lia.
      + left. intros j s b Hj Hlook Hb.
        destruct (decide (j = n)) as [->|Hne]; [|apply (IH j s b); [lia|assumption..]].
        rewrite Hn in Hlook. injection Hlook as <-. rewrite Henc in Hb. discriminate.
    - left. intros j s b Hj Hlook Hb.
      destruct (decide (j = n)) as [->|Hne]; [|apply (IH j s b); [lia|assumption..]].
      rewrite Hn in Hlook. discriminate. }
  destruct (Hbound (length levels)) as [Hnone|Hsome]; [left|right; exact Hsome].
  intros j s b Hlook Hb.
  apply (Hnone j s b); [apply (lookup_lt_Some _ _ _ Hlook) | exact Hlook | exact Hb].
Qed.

End OptimizedSteps.

(** ** The ladder search *)

(** C1.  First fit, for any ladder, in both converters ([videoToGif] and
    [adaptiveVideoToWebp] are [convert] at their own [qualityLevels]).  If
    entry [k] is the first whose encoding is at most the target size, the
    conversion returns that entry's buffer, and ffmpeg has been started for
    the entries [0..k] in order and for none after [k].  Conversely a
    returned buffer that is within the target is the output of that first
    fitting entry: every entry before it failed to encode or was over the
    target, so no entry is accepted ahead of one whose size check it would
    have had to pass first. *)
Theorem first_fit_acceptance
    (tmpdir random36 : string) (codec : Buffer -> list string -> Outcome Buffer)
    (data : Buffer) (w : World) :
  (forall (levels : list VideoToGif.Settings) k settings buffer,
     levels !! k = Some settings ->
     VideoToGif.encoded codec data k settings = Returns buffer ->
     buffer_length buffer <= VideoToGif.targetSize ->
     (forall j earlier output, (j < k)%nat -> levels !! j = Some earlier ->
        VideoToGif.encoded codec data j earlier = Returns output ->
        VideoToGif.targetSize < buffer_length output) ->
     exists w',
       VideoToGif.convert tmpdir random36 codec levels data w = (w', Returns buffer) /\
       ffmpeg_runs w'
       = (ffmpeg_runs w ++ VideoToGif.runs_from tmpdir random36 0 (take (S k) levels))%list) /\
  (forall (levels : list VideoToGif.Settings) w' buffer,
     VideoToGif.convert tmpdir random36 codec levels data w = (w', Returns buffer) ->
     buffer_length buffer <= VideoToGif.targetSize ->
     exists k settings,
       levels !! k = Some settings /\
       VideoToGif.encoded codec data k settings = Returns buffer /\
       (forall j earlier output, (j < k)%nat -> levels !! j = Some earlier ->
          VideoToGif.encoded codec data j earlier = Returns output ->
          VideoToGif.targetSize < buffer_length output) /\
       ffmpeg_runs w'
       = (ffmpeg_runs w ++ VideoToGif.runs_from tmpdir random36 0 (take (S k) levels))%list) /\
  (forall (levels : list Adaptive.Settings) targetSize k settings buffer,
     levels !! k = Some settings ->
     Adaptive.encoded codec data settings = Returns buffer ->
     buffer_length buffer <= targetSize ->
     (forall j earlier output, (j < k)%nat -> levels !! j = Some earlier ->
        Adaptive.encoded codec data earlier = Returns output ->
        targetSize < buffer_length output) ->
     exists w',
       Adaptive.convert tmpdir random36 codec levels data targetSize w
       = (w', Returns buffer) /\
       ffmpeg_runs w'
       = (ffmpeg_runs w ++ map (Adaptive.run_of tmpdir random36) (take (S k) levels))%list) /\
  (forall (levels : list Adaptive.Settings) targetSize w' buffer,
     Adaptive.convert tmpdir random36 codec levels data targetSize w
     = (w', Returns buffer) ->
     buffer_length buffer <= targetSize ->
     exists k settings,
       levels !! k = Some settings /\
       Adaptive.encoded codec data settings = Returns buffer /\
       (forall j earlier output, (j < k)%nat -> levels !! j = Some earlier ->
          Adaptive.encoded codec data earlier = Returns output ->
          targetSize < buffer_length output) /\
       ffmpeg_runs w'
       = (ffmpeg_runs w ++ map (Adaptive.run_of tmpdir random36) (take (S k) levels))%list).
Proof.
  split; [|split; [|split]].
  - intros levels k settings buffer Hk Henc Hfit Hbefore.
    destruct (optimized_first_fit tmpdir random36 codec data levels k settings buffer w
                Hk Henc Hfit Hbefore) as (w' & Hrun & Hruns & _).
    exists w'. auto.
  - intros levels w' buffer Hrun Hwithin.
    destruct (optimized_least_fit codec data levels)
      as [Hnone | (k & settings & fit & Hk & Henc & Hfit & Hbefore)].
    + destruct (optimized_no_fit tmpdir random36 codec data levels w Hnone)
        as (w1 & _ & Hlast).
      destruct (last levels) as [settings|] eqn:Hl.
      * rewrite last_lookup in Hl.
        destruct (VideoToGif.encoded codec data (pred (length levels)) settings)
          as [output|error] eqn:Henc; destruct Hlast as [Hrun1 _];
          rewrite Hrun1 in Hrun; [|discriminate].
        injection Hrun as _ ->. pose proof (Hnone _ _ _ Hl Henc). lia.
      * destruct Hlast as [Hrun1 _]. rewrite Hrun1 in Hrun. discriminate.
    + destruct (optimized_first_fit tmpdir random36 codec data levels k settings fit w
                  Hk Henc Hfit Hbefore) as (w1 & Hrun1 & Hruns & _).
      rewrite Hrun1 in Hrun. injection Hrun as -> ->.
      exists k, settings. auto.
  - intros levels targetSize k settings buffer Hk Henc Hfit Hbefore.
    destruct (adaptive_first_fit tmpdir random36 codec data levels targetSize k settings
                buffer w Hk Henc Hfit Hbefore) as (w' & Hrun & Hruns & _).
    exists w'. auto.
  - intros levels targetSize w' buffer Hrun Hwithin.
    destruct (adaptive_least_fit codec data levels targetSize)
      as [Hnone | (k & settings & fit & Hk & Henc & Hfit & Hbefore)].
    + destruct (adaptive_no_fit tmpdir random36 codec data levels targetSize w Hnone)
        as (w1 & _ & _ & Hrun1).
      rewrite Hrun1 in Hrun.
      destruct (last levels) as [settings|] eqn:Hl; [|discriminate].
      rewrite last_lookup in Hl.
      destruct (Adaptive.encoded codec data settings) as [output|error] eqn:Henc;
        [|discriminate].
      injection Hrun as _ ->. pose proof (Hnone _ _ _ Hl Henc). lia.
    + destruct (adaptive_first_fit tmpdir random36 codec data levels targetSize k settings
                  fit w Hk Henc Hfit Hbefore) as (w1 & Hrun1 & Hruns & _).
      rewrite Hrun1 in Hrun. injection Hrun as -> ->.
      exists k, settings. auto.
Qed.

(** The scenario of the design document: the first entry encodes to 600 KiB
    and the second to 420 KiB; the second is returned after two runs. *)
Lemma first_fit_acceptance_witness :
  (exists w',
     VideoToGif.videoToGif "/tmp" "0.4fzyo82mvyr"
       (Samples.shrinking "50" (600 * 1024) (420 * 1024)) (Samples.zeros 9)
       Samples.empty_world
     = (w', Returns (Samples.zeros (420 * 1024))) /\
     length (ffmpeg_runs w') = 2%nat) /\
  (exists w',
     Adaptive.adaptiveVideoToWebp "/tmp" "0.4fzyo82mvyr"
       (Samples.shrinking "60" (600 * 1024) (420 * 1024)) (Samples.zeros 9)
       (500 * 1024) Samples.empty_world
     = (w', Returns (Samples.zeros (420 * 1024))) /\
     length (ffmpeg_runs w') = 2%nat).
Proof.
  destruct (first_fit_acceptance "/tmp" "0.4fzyo82mvyr"
              (Samples.shrinking "50" (600 * 1024) (420 * 1024)) (Samples.zeros 9)
              Samples.empty_world) as (Hoptimized & _).
  destruct (first_fit_acceptance "/tmp" "0.4fzyo82mvyr"
              (Samples.shrinking "60" (600 * 1024) (420 * 1024)) (Samples.zeros 9)
              Samples.empty_world) as (_ & _ & Hadaptive & _).
  split.
  - destruct (Hoptimized VideoToGif.qualityLevels 1%nat
                {| VideoToGif.quality := 40; VideoToGif.fps := 8; VideoToGif.duration := 5;
                   VideoToGif.compression := 6; VideoToGif.method := 6 |}
                (Samples.zeros (420 * 1024))) as (w' & Hrun & Hruns).
    + reflexivity.
    + reflexivity.
    + rewrite length_zeros by lia. unfold VideoToGif.targetSize. lia.
    + intros j earlier output Hj Hlook Henc.
      destruct j as [|j]; [|lia]. injection Hlook as <-.
      injection Henc as <-. rewrite length_zeros by lia. unfold VideoToGif.targetSize. lia.
    + exists w'. split; [exact Hrun|]. rewrite Hruns. reflexivity.
  - destruct (Hadaptive Adaptive.qualityLevels (500 * 1024) 1%nat
                {| Adaptive.quality := 50; Adaptive.fps := 10; Adaptive.duration := 6;
                   Adaptive.compression := 5 |}
                (Samples.zeros (420 * 1024))) as (w' & Hrun & Hruns).
    + reflexivity.
    + reflexivity.
    + rewrite length_zeros by lia. lia.
    + intros j earlier output Hj Hlook Henc.
      destruct j as [|j]; [|lia]. injection Hlook as <-.
      injection Henc as <-. rewrite length_zeros by lia. lia.
    + exists w'. split; [exact Hrun|]. rewrite Hruns. reflexivity.
Defined.

(** ** When the conversion fails *)

(** C2, as the code has it, for any ladder.  Each converter raises exactly
    when no entry's output is within the target and the last entry of the
    ladder fails to encode (or the ladder is empty); in particular it raises
    when every encoding fails.  An output over the target from an earlier
    entry is not kept, so it does not prevent the failure. *)
Theorem exhaustion_condition
    (tmpdir random36 : string) (codec : Buffer -> list string -> Outcome Buffer)
    (data : Buffer) (w : World) :
  (forall (levels : list VideoToGif.Settings),
     ((exists w' error,
         VideoToGif.convert tmpdir random36 codec levels data w = (w', Throws error)) <->
      (forall j settings output, levels !! j = Some settings ->
         VideoToGif.encoded codec data j settings = Returns output ->
         VideoToGif.targetSize < buffer_length output) /\
      (forall settings, last levels = Some settings ->
         exists error,
           VideoToGif.encoded codec data (pred (length levels)) settings = Throws error)) /\
     ((forall j settings, levels !! j = Some settings ->
         exists error, VideoToGif.encoded codec data j settings = Throws error) ->
      exists w' error,
        VideoToGif.convert tmpdir random36 codec levels data w = (w', Throws error))) /\
  (forall (levels : list Adaptive.Settings) targetSize,
     ((exists w' error,
         Adaptive.convert tmpdir random36 codec levels data targetSize w
         = (w', Throws error)) <->
      (forall j settings output, levels !! j = Some settings ->
         Adaptive.encoded codec data settings = Returns output ->
         targetSize < buffer_length output) /\
      (forall settings, last levels = Some settings ->
         exists error, Adaptive.encoded codec data settings = Throws error)) /\
     ((forall j settings, levels !! j = Some settings ->
         exists error, Adaptive.encoded codec data settings = Throws error) ->
      exists w' error,
        Adaptive.convert tmpdir random36 codec levels data targetSize w
        = (w', Throws error))).
Proof.
  split.
  - intros levels.
    assert (Hback :
      (forall j settings output, levels !! j = Some settings ->
         VideoToGif.encoded codec data j settings = Returns output ->
         VideoToGif.targetSize < buffer_length output) ->
      (forall settings, last levels = Some settings ->
         exists error,
           VideoToGif.encoded codec data (pred (length levels)) settings = Throws error) ->
      exists w' error,
        VideoToGif.convert tmpdir random36 codec levels data w = (w', Throws error)).
    { intros Hnone Hlastfails.
      destruct (optimized_no_fit tmpdir random36 codec data levels w Hnone)
        as (w1 & _ & Hlast).
      destruct (last levels) as [settings|] eqn:Hl.
      - destruct (Hlastfails settings eq_refl) as (error & Herr).
        rewrite Herr in Hlast. destruct Hlast as [Hrun _]. eauto.
      - destruct Hlast as [Hrun _]. eauto. }
    split; [split|].
    + intros (w' & error & Hrun).
      destruct (optimized_least_fit codec data levels)
        as [Hnone | (k & settings & fit & Hk & Henc & Hfit & Hbefore)].
      * split; [exact Hnone|]. intros settings Hl.
        destruct (optimized_no_fit tmpdir random36 codec data levels w Hnone)
          as (w1 & _ & Hlast).
        rewrite Hl in Hlast.
        destruct (VideoToGif.encoded codec data (pred (length levels)) settings)
          as [output|e]; [|eauto].
        destruct Hlast as [Hrun1 _]. rewrite Hrun1 in Hrun. discriminate.
      * destruct (optimized_first_fit tmpdir random36 codec data levels k settings fit w
                    Hk Henc Hfit Hbefore) as (w1 & Hrun1 & _).
        rewrite Hrun1 in Hrun. discriminate.
    + intros [Hnone Hlastfails]. exact (Hback Hnone Hlastfails).
    + intros Hall. apply Hback.
      * intros j settings output Hj Henc. destruct (Hall j settings Hj) as (e & He).
        rewrite He in Henc. discriminate.
      * intros settings Hl. rewrite last_lookup in Hl. exact (Hall _ _ Hl).
  - intros levels targetSize.
    assert (Hback :
      (forall j settings output, levels !! j = Some settings ->
         Adaptive.encoded codec data settings = Returns output ->
         targetSize < buffer_length output) ->
      (forall settings, last levels = Some settings ->
         exists error, Adaptive.encoded codec data settings = Throws error) ->
      exists w' error,
        Adaptive.convert tmpdir random36 codec levels data targetSize w
        = (w', Throws error)).
    { intros Hnone Hlastfails.
      destruct (adaptive_no_fit tmpdir random36 codec data levels targetSize w Hnone)
        as (w1 & _ & _ & Hrun).
      destruct (last levels) as [settings|] eqn:Hl; [|eauto].
      destruct (Hlastfails settings eq_refl) as (error & Herr).
      rewrite Herr in Hrun. eauto. }
    split; [split|].
    + intros (w' & error & Hrun).
      destruct (adaptive_least_fit codec data levels targetSize)
        as [Hnone | (k & settings & fit & Hk & Henc & Hfit & Hbefore)].
      * split; [exact Hnone|]. intros settings Hl.
        destruct (adaptive_no_fit tmpdir random36 codec data levels targetSize w Hnone)
          as (w1 & _ & _ & Hrun1).
        rewrite Hl in Hrun1.
        destruct (Adaptive.encoded codec data settings) as [output|e]; [|eauto].
        rewrite Hrun1 in Hrun. discriminate.
      * destruct (adaptive_first_fit tmpdir random36 codec data levels targetSize k
                    settings fit w Hk Henc Hfit Hbefore) as (w1 & Hrun1 & _).
        rewrite Hrun1 in Hrun. discriminate.
    + intros [Hnone Hlastfails]. exact (Hback Hnone Hlastfails).
    + intros Hall. apply Hback.
      * intros j settings output Hj Henc. destruct (Hall j settings Hj) as (e & He).
        rewrite He in Henc. discriminate.
      * intros settings Hl. rewrite last_lookup in Hl. exact (Hall _ _ Hl).
Qed.

(** With an encoder that always fails, both converters raise. *)
Lemma exhaustion_condition_witness :
  (exists w' error,
     VideoToGif.videoToGif "/tmp" "0.4fzyo82mvyr" Samples.always_fails (Samples.zeros 9)
       Samples.empty_world = (w', Throws error)) /\
  (exists w' error,
     Adaptive.adaptiveVideoToWebp "/tmp" "0.4fzyo82mvyr" Samples.always_fails
       (Samples.zeros 9) (500 * 1024) Samples.empty_world = (w', Throws error)).
Proof.
  destruct (exhaustion_condition "/tmp" "0.4fzyo82mvyr" Samples.always_fails
              (Samples.zeros 9) Samples.empty_world) as [Hoptimized Hadaptive].
  split.
  - apply (proj2 (Hoptimized VideoToGif.qualityLevels)).
    intros j settings _. exists (JsError "ffmpeg exited with code 1"). reflexivity.
  - apply (proj2 (Hadaptive Adaptive.qualityLevels (500 * 1024))).
    intros j settings _. exists (JsError "ffmpeg exited with code 1"). reflexivity.
Defined.

(** C2 as stated fails: the best quality level encodes (to three bytes,
    over a target of two) and the others fail; the conversion raises although
    one encoding succeeded. *)
Lemma raises_despite_an_encoding :
  ~ raises_only_when_all_fail "/tmp" "0.4fzyo82mvyr" Samples.only_best_encodes
      (Samples.zeros 9) 2 Samples.empty_world.
Proof.
  intros [Hraises _].
  assert (Hrun : exists w' error,
            Adaptive.adaptiveVideoToWebp "/tmp" "0.4fzyo82mvyr" Samples.only_best_encodes
              (Samples.zeros 9) 2 Samples.empty_world = (w', Throws error)).
  { eexists _, _. vm_compute. reflexivity. }
  destruct (Hraises Hrun {| Adaptive.quality := 60; Adaptive.fps := 12;
                            Adaptive.duration := 8; Adaptive.compression := 4 |})
    as (error & Herror).
  - left. reflexivity.
  - discriminate Herror.
Qed.

(** C3, as the code has it, for any ladder.  When no entry's output is within
    the target and the last entry of the ladder encodes, the conversion
    returns that last entry's buffer, after a run of ffmpeg for every entry.
    The buffer is over the target; the converters return the bare buffer, so
    the caller learns so by measuring it. *)
Theorem oversized_fallback
    (tmpdir random36 : string) (codec : Buffer -> list string -> Outcome Buffer)
    (data : Buffer) (w : World) :
  (forall (levels : list VideoToGif.Settings) settings buffer,
     last levels = Some settings ->
     VideoToGif.encoded codec data (pred (length levels)) settings = Returns buffer ->
     (forall j other output, levels !! j = Some other ->
        VideoToGif.encoded codec data j other = Returns output ->
        VideoToGif.targetSize < buffer_length output) ->
     exists w',
       VideoToGif.convert tmpdir random36 codec levels data w = (w', Returns buffer) /\
       VideoToGif.targetSize < buffer_length buffer /\
       ffmpeg_runs w' = (ffmpeg_runs w ++ VideoToGif.runs_from tmpdir random36 0 levels)%list) /\
  (forall (levels : list Adaptive.Settings) targetSize settings buffer,
     last levels = Some settings ->
     Adaptive.encoded codec data settings = Returns buffer ->
     (forall j other output, levels !! j = Some other ->
        Adaptive.encoded codec data other = Returns output ->
        targetSize < buffer_length output) ->
     exists w',
       Adaptive.convert tmpdir random36 codec levels data targetSize w
       = (w', Returns buffer) /\
       targetSize < buffer_length buffer /\
       ffmpeg_runs w' = (ffmpeg_runs w ++ map (Adaptive.run_of tmpdir random36) levels)%list).
Proof.
  split.
  - intros levels settings buffer Hl Henc Hnone.
    destruct (optimized_no_fit tmpdir random36 codec data levels w Hnone)
      as (w1 & Hruns & Hlast).
    rewrite Hl, Henc in Hlast. destruct Hlast as [Hrun _].
    exists w1. split; [exact Hrun|]. split; [|exact Hruns].
    rewrite last_lookup in Hl. exact (Hnone _ _ _ Hl Henc).
  - intros levels targetSize settings buffer Hl Henc Hnone.
    destruct (adaptive_no_fit tmpdir random36 codec data levels targetSize w Hnone)
      as (w1 & Hruns & _ & Hrun).
    rewrite Hl, Henc in Hrun.
    exists w1. split; [exact Hrun|]. split; [|exact Hruns].
    rewrite last_lookup in Hl. exact (Hnone _ _ _ Hl Henc).
Qed.

Lemma shrinking_output first big small data options output :
  Samples.shrinking first big small data options = Returns output ->
  output = Samples.zeros big \/ output = Samples.zeros small.
Proof.
  unfold Samples.shrinking. destruct (options !! 14%nat); [|discriminate].
  destruct (String.eqb _ _); intros H; injection H as <-; auto.
Qed.

(** Every entry encodes to more than the target: the output of the last one
    comes back. *)
Lemma oversized_fallback_witness :
  (exists w',
     VideoToGif.videoToGif "/tmp" "0.4fzyo82mvyr"
       (Samples.shrinking "50" (900 * 1024) (600 * 1024)) (Samples.zeros 9)
       Samples.empty_world
     = (w', Returns (Samples.zeros (600 * 1024))) /\
     length (ffmpeg_runs w') = 4%nat) /\
  (exists w',
     Adaptive.adaptiveVideoToWebp "/tmp" "0.4fzyo82mvyr"
       (Samples.shrinking "60" 5 3) (Samples.zeros 9) 2 Samples.empty_world
     = (w', Returns (Samples.zeros 3)) /\
     length (ffmpeg_runs w') = 5%nat).
Proof.
  split.
  - destruct (oversized_fallback "/tmp" "0.4fzyo82mvyr"
                (Samples.shrinking "50" (900 * 1024) (600 * 1024)) (Samples.zeros 9)
                Samples.empty_world) as [Hoptimized _].
    destruct (Hoptimized VideoToGif.qualityLevels
                {| VideoToGif.quality := 25; VideoToGif.fps := 5; VideoToGif.duration := 3;
                   VideoToGif.compression := 6; VideoToGif.method := 6 |}
                (Samples.zeros (600 * 1024))) as (w' & Hrun & _ & Hruns).
    + reflexivity.
    + reflexivity.
    + intros j other output _ Henc.
      destruct (shrinking_output _ _ _ _ _ _ Henc) as [-> | ->];
        rewrite length_zeros by lia; unfold VideoToGif.targetSize; lia.
    + exists w'. split; [exact Hrun|]. rewrite Hruns. reflexivity.
  - destruct (oversized_fallback "/tmp" "0.4fzyo82mvyr"
                (Samples.shrinking "60" 5 3) (Samples.zeros 9)
                Samples.empty_world) as [_ Hadaptive].
    destruct (Hadaptive Adaptive.qualityLevels 2
                {| Adaptive.quality := 20; Adaptive.fps := 5; Adaptive.duration := 3;
                   Adaptive.compression := 6 |}
                (Samples.zeros 3)) as (w' & Hrun & _ & Hruns).
    + reflexivity.
    + reflexivity.
    + intros j other output _ Henc.
      destruct (shrinking_output _ _ _ _ _ _ Henc) as [-> | ->];
        rewrite length_zeros by lia; lia.
    + exists w'. split; [exact Hrun|]. rewrite Hruns. reflexivity.
Defined.

(** C3 as stated fails on the same input as C2: the one output there is,
    from the first entry, is not returned. *)
Lemma earlier_output_is_dropped :
  ~ falls_back_to_last_output "/tmp" "0.4fzyo82mvyr" Samples.only_best_encodes
      (Samples.zeros 9) 2 Samples.empty_world.
Proof.
  intros H.
  destruct (H 0%nat {| Adaptive.quality := 60; Adaptive.fps := 12;
                       Adaptive.duration := 8; Adaptive.compression := 4 |}
              (Samples.zeros 3)) as (w' & Hrun).
  - reflexivity.
  - reflexivity.
  - intros j later Hj Hlook.
    do 5 (destruct j as [|j]; [first [lia | injection Hlook as <-; eexists; reflexivity]|]).
    discriminate Hlook.
  - intros j other output Hlook Henc.
    do 5 (destruct j as [|j];
          [injection Hlook as <-; first [discriminate Henc | injection Henc as <-; vm_compute; reflexivity]|]).
    discriminate Hlook.
  - vm_compute in Hrun. discriminate Hrun.
Qed.

(** ** Temp files *)

(** C9 fails in [videoToGif]: when no entry fits and the last attempt fails,
    the error is thrown from inside the loop, and the input file written at
    the start is still in the temp directory. *)
Theorem input_file_left_behind
    (tmpdir random36 : string) (codec : Buffer -> list string -> Outcome Buffer)
    (data : Buffer) (w : World)
    (levels : list VideoToGif.Settings) (settings : VideoToGif.Settings) (error : Thrown) :
  last levels = Some settings ->
  VideoToGif.encoded codec data (pred (length levels)) settings = Throws error ->
  (forall j other output, levels !! j = Some other ->
     VideoToGif.encoded codec data j other = Returns output ->
     VideoToGif.targetSize < buffer_length output) ->
  exists w',
    VideoToGif.convert tmpdir random36 codec levels data w = (w', Throws error) /\
    files w' !! VideoToGif.video tmpdir random36 = Some data.
Proof.
  intros Hl Henc Hnone.
  destruct (optimized_no_fit tmpdir random36 codec data levels w Hnone) as (w1 & _ & Hlast).
  rewrite Hl, Henc in Hlast. exists w1. exact Hlast.
Qed.

Lemma input_file_left_behind_witness :
  exists w',
    VideoToGif.videoToGif "/tmp" "0.4fzyo82mvyr" Samples.always_fails (Samples.zeros 9)
      Samples.empty_world
    = (w', Throws (JsError "ffmpeg exited with code 1")) /\
    files w' !! "/tmp/0.4fzyo82mvyr.video" = Some (Samples.zeros 9).
Proof.
  apply (input_file_left_behind "/tmp" "0.4fzyo82mvyr" Samples.always_fails (Samples.zeros 9)
           Samples.empty_world VideoToGif.qualityLevels
           {| VideoToGif.quality := 25; VideoToGif.fps := 5; VideoToGif.duration := 3;
              VideoToGif.compression := 6; VideoToGif.method := 6 |}).
  - reflexivity.
  - reflexivity.
  - intros j other output _ Henc. discriminate Henc.
Defined.

(** The sibling does clean up: [adaptiveVideoToWebp] leaves no input file
    behind, however it ends. *)
Lemma adaptive_removes_input
    (tmpdir random36 : string) (codec : Buffer -> list string -> Outcome Buffer)
    (data : Buffer) (w : World) (levels : list Adaptive.Settings) (targetSize : Z) :
  exists w' outcome,
    Adaptive.convert tmpdir random36 codec levels data targetSize w = (w', outcome) /\
    files w' !! Adaptive.video tmpdir random36 = None.
Proof.
  destruct (adaptive_least_fit codec data levels targetSize)
    as [Hnone | (k & settings & fit & Hk & Henc & Hfit & Hbefore)].
  - destruct (adaptive_no_fit tmpdir random36 codec data levels targetSize w Hnone)
      as (w1 & _ & Hgone & Hrun). eauto.
  - destruct (adaptive_first_fit tmpdir random36 codec data levels targetSize k settings
                fit w Hk Henc Hfit Hbefore) as (w1 & Hrun & _ & Hgone). eauto.
Qed.

(** * Further properties of the validator *)

(** ** The overall flag and the flags of the sub-reports *)

(** X1.  In every report of [validateSticker] the overall [isValid] is the
    conjunction of the six [isValid] flags of the sub-reports: a report is
    valid exactly when its file size, its dimensions and its four metadata
    fields are. *)
Theorem isValid_is_all_subreports
    (fromBuffer : Buffer -> Outcome (option FileTypeResult))
    (sharp_metadata : Buffer -> Outcome SharpMetadata)
    (buffer : Buffer) (options : IStickerOptions) :
  exists r,
    WhatsAppValidator.validateSticker fromBuffer sharp_metadata buffer options = Returns r /\
    isValid r
    = FileSize.isValid (fileSize r)
      && Dimensions.isValid (dimensions r)
      && TextField.isValid (MetadataReport.pack (metadata r))
      && TextField.isValid (MetadataReport.author (metadata r))
      && TextField.isValid (MetadataReport.id (metadata r))
      && CategoriesField.isValid (MetadataReport.categories (metadata r)).
Proof.
  exists (Summary.report fromBuffer sharp_metadata buffer options).
  split; [apply validateSticker_report|].
  unfold Summary.report, Summary.all_errors, Summary.size_errors, Summary.dimension_errors,
    Summary.dimensions_after, Summary.metadata_after, Summary.text_after,
    Summary.categories_after.
  rewrite metadata_errors_chunks.
  unfold WHATSAPP_LIMITS.PACK_NAME_MAX_LENGTH, WHATSAPP_LIMITS.AUTHOR_MAX_LENGTH,
    WHATSAPP_LIMITS.ID_MAX_LENGTH.
  cbn [isValid fileSize dimensions metadata FileSize.isValid Dimensions.isValid
       TextField.isValid CategoriesField.isValid MetadataReport.pack MetadataReport.author
       MetadataReport.id MetadataReport.categories WhatsAppValidator.fresh_result].
  destruct (buffer_length buffer <=? _);
    destruct (sharp_metadata buffer) as [m|e]; [destruct (Summary.right_size m)| |
                                                 destruct (Summary.right_size m)|];
    destruct (Summary.too_long 128 (or_empty (opt_pack options)));
    destruct (Summary.too_long 128 (or_empty (opt_author options)));
    destruct (Summary.too_long 128 (or_empty (opt_id options)));
    destruct (Summary.bad_charset (or_empty (opt_id options)));
    destruct (Summary.too_many (or_nil (opt_categories options)));
    reflexivity.
Qed.

(** ** The order of the errors *)

Lemma chunk_kind_sublist (c : bool) (entry : string) (k : ErrorKind) :
  error_kind entry = k ->
  sublist (map error_kind (if c then [entry] else [])) [k].
Proof.
  intros <-. destruct c; simpl.
  - apply sublist_skip, sublist_nil.
  - apply sublist_cons, sublist_nil.
Qed.

Lemma chunk_kind_sublist_else (c : bool) (entry : string) (k : ErrorKind) :
  error_kind entry = k ->
  sublist (map error_kind (if c then [] else [entry])) [k].
Proof.
  intros <-. destruct c; simpl.
  - apply sublist_cons, sublist_nil.
  - apply sublist_skip, sublist_nil.
Qed.

(** X2.  The errors of a report come in the order of the checks, with at
    most one entry for each: read by kind they form a subsequence of size,
    dimensions, pack, author, ID length, ID charset, categories.  So a report
    never has more than seven errors. *)
Theorem errors_follow_the_checks
    (fromBuffer : Buffer -> Outcome (option FileTypeResult))
    (sharp_metadata : Buffer -> Outcome SharpMetadata)
    (buffer : Buffer) (options : IStickerOptions) :
  exists r,
    WhatsAppValidator.validateSticker fromBuffer sharp_metadata buffer options = Returns r /\
    sublist (map error_kind (errors r))
      [SizeError; DimensionError; PackError; AuthorError; IdLengthError; IdCharsetError;
       CategoriesError] /\
    (length (errors r) <= 7)%nat.
Proof.
  exists (Summary.report fromBuffer sharp_metadata buffer options).
  split; [apply validateSticker_report|].
  assert (Hsub : sublist
            (map error_kind (errors (Summary.report fromBuffer sharp_metadata buffer options)))
            [SizeError; DimensionError; PackError; AuthorError; IdLengthError;
             IdCharsetError; CategoriesError]).
  { rewrite errors_of_report, metadata_errors_chunks, !map_app.
    change [SizeError; DimensionError; PackError; AuthorError; IdLengthError;
            IdCharsetError; CategoriesError]
      with ([SizeError] ++ [DimensionError] ++ [PackError] ++ [AuthorError]
            ++ [IdLengthError] ++ [IdCharsetError] ++ [CategoriesError])%list.
    repeat apply sublist_app; try (apply chunk_kind_sublist; reflexivity).
    - unfold Summary.size_errors. apply chunk_kind_sublist_else. reflexivity.
    - unfold Summary.dimension_errors.
      destruct (sharp_metadata buffer) as [m|e].
      + apply chunk_kind_sublist_else. reflexivity.
      + apply sublist_skip, sublist_nil. }
  split; [exact Hsub|].
  apply sublist_length in Hsub. rewrite length_map in Hsub. exact Hsub.
Qed.

(** ** Warnings *)

Lemma warnings_of_report fromBuffer sharp_metadata buffer options :
  warnings (Summary.report fromBuffer sharp_metadata buffer options)
  = (Summary.size_warnings buffer
     ++ Summary.metadata_warnings options
     ++ (if Summary.classified_animated fromBuffer sharp_metadata buffer
         then Summary.animation_warnings sharp_metadata buffer else []))%list.
Proof. reflexivity. Qed.

(** Two texts that differ within their fixed beginnings. *)
Ltac texts_differ H :=
  exfalso;
  unfold msg_file_size_large, msg_no_categories, msg_white_stroke, msg_animated_detected,
    msg_high_frame_count, msg_animated_unreadable, msg_too_many_categories in H;
  cbn [String.append] in H; discriminate H.

Lemma in_animation_warnings sharp_metadata buffer entry :
  In entry (Summary.animation_warnings sharp_metadata buffer) ->
  entry = msg_animated_detected
  \/ (exists pages, entry = msg_high_frame_count pages)
  \/ (exists error, entry = msg_animated_unreadable error).
Proof.
  unfold Summary.animation_warnings.
  destruct (sharp_metadata buffer) as [m|e].
  - destruct (md_pages m) as [pages|]; [|intros []].
    destruct (negb (pages =? 0) && (1 <? pages)); [|intros []].
    intros [<- | H]; [auto|].
    destruct (150 <? pages); [|destruct H].
    destruct H as [<- | []]. eauto.
  - intros [<- | []]. eauto.
Qed.

Lemma in_metadata_warnings options entry :
  In entry (Summary.metadata_warnings options) ->
  entry = msg_no_categories \/ entry = msg_white_stroke.
Proof.
  unfold Summary.metadata_warnings. rewrite in_app_iff.
  intros [H | [<- | []]]; [|auto].
  destruct (_ =? 0); [|destruct H]. destruct H as [<- | []]. auto.
Qed.

(** X3.  The advisory about a file much larger than recommended is among the
    warnings exactly when the buffer has more than 45 KiB, three times the
    recommended 15 KiB, whatever the kind of the sticker and whether or not
    the size is within its limit. *)
Theorem size_advisory_threshold
    (fromBuffer : Buffer -> Outcome (option FileTypeResult))
    (sharp_metadata : Buffer -> Outcome SharpMetadata)
    (buffer : Buffer) (options : IStickerOptions) :
  exists r,
    WhatsAppValidator.validateSticker fromBuffer sharp_metadata buffer options = Returns r /\
    (In (msg_file_size_large (buffer_length buffer)) (warnings r)
     <-> 45 * 1024 < buffer_length buffer).
Proof.
  exists (Summary.report fromBuffer sharp_metadata buffer options).
  split; [apply validateSticker_report|].
  rewrite warnings_of_report, !in_app_iff. unfold Summary.size_warnings.
  change (WHATSAPP_LIMITS.RECOMMENDED_FILE_SIZE * 3) with (45 * 1024).
  destruct (Z.ltb_spec (45 * 1024) (buffer_length buffer)) as [Hbig|Hsmall].
  - split; [intros _; exact Hbig|]. intros _. left. left. reflexivity.
  - split; [|lia]. intros [[] | [H | H]].
    + apply in_metadata_warnings in H. destruct H as [H|H]; texts_differ H.
    + destruct (Summary.classified_animated _ _ _); [|destruct H].
      apply in_animation_warnings in H.
      destruct H as [H | [(pages & H) | (error & H)]]; texts_differ H.
Qed.

(** X4.  What the frame count does.  In a report of kind animated, for a
    buffer that decodes to [pages] frames, the reminder about animation
    limits is among the warnings exactly when [pages > 1], and the advisory
    about a high frame count exactly when [pages > 150].  In a report of
    kind static none of the three animation warnings occurs. *)
Theorem frame_count_warnings
    (fromBuffer : Buffer -> Outcome (option FileTypeResult))
    (sharp_metadata : Buffer -> Outcome SharpMetadata)
    (buffer : Buffer) (options : IStickerOptions) :
  exists r,
    WhatsAppValidator.validateSticker fromBuffer sharp_metadata buffer options = Returns r /\
    (forall m pages,
       FileSize.type (fileSize r) = animated ->
       sharp_metadata buffer = Returns m -> md_pages m = Some pages ->
       (In msg_animated_detected (warnings r) <-> 1 < pages) /\
       (In (msg_high_frame_count pages) (warnings r) <-> 150 < pages)) /\
    (FileSize.type (fileSize r) = static ->
     ~ In msg_animated_detected (warnings r) /\
     (forall pages, ~ In (msg_high_frame_count pages) (warnings r)) /\
     (forall error, ~ In (msg_animated_unreadable error) (warnings r))).
Proof.
  exists (Summary.report fromBuffer sharp_metadata buffer options).
  split; [apply validateSticker_report|].
  rewrite kind_of_report.
  assert (Hothers : forall entry,
            In entry (Summary.size_warnings buffer ++ Summary.metadata_warnings options) ->
            entry = msg_file_size_large (buffer_length buffer)
            \/ entry = msg_no_categories \/ entry = msg_white_stroke).
  { intros entry. rewrite in_app_iff. intros [H|H].
    - unfold Summary.size_warnings in H. destruct (_ <? _); [|destruct H].
      destruct H as [<- | []]. auto.
    - apply in_metadata_warnings in H. tauto. }
  split.
  - intros m pages Hkind Hm Hpages.
    destruct (Summary.classified_animated fromBuffer sharp_metadata buffer) eqn:Hc;
      [|discriminate].
    rewrite warnings_of_report, Hc. rewrite app_assoc, !(in_app_iff (_ ++ _)).
    unfold Summary.animation_warnings. rewrite Hm, Hpages.
    split.
    + split.
      * intros [H | H].
        -- apply Hothers in H. destruct H as [H | [H | H]]; texts_differ H.
        -- destruct (Z.ltb_spec 1 pages) as [Hlt|Hge]; [exact Hlt|].
           rewrite andb_false_r in H. destruct H.
      * intros Hlt. right.
        replace (negb (pages =? 0) && (1 <? pages)) with true.
        -- left. reflexivity.
        -- symmetry. apply andb_true_iff. split.
           ++ apply negb_true_iff, Z.eqb_neq. lia.
           ++ apply Z.ltb_lt. exact Hlt.
    + split.
      * intros [H | H].
        -- apply Hothers in H. destruct H as [H | [H | H]]; texts_differ H.
        -- destruct (negb (pages =? 0) && (1 <? pages)); [|destruct H].
           destruct H as [H | H]; [texts_differ H|].
           destruct (Z.ltb_spec 150 pages) as [Hlt|Hge]; [exact Hlt | destruct H].
      * intros Hlt. right.
        replace (negb (pages =? 0) && (1 <? pages)) with true.
        -- right. apply Z.ltb_lt in Hlt. rewrite Hlt. left. reflexivity.
        -- symmetry. apply andb_true_iff. split.
           ++ apply negb_true_iff, Z.eqb_neq. lia.
           ++ apply Z.ltb_lt. lia.
  - intros Hkind.
    destruct (Summary.classified_animated fromBuffer sharp_metadata buffer) eqn:Hc;
      [discriminate|].
    rewrite warnings_of_report, Hc, app_nil_r.
    split; [|split]; [|intros pages|intros error]; intros H; apply Hothers in H;
      destruct H as [H | [H | H]]; texts_differ H.
Qed.

(** A GIF of 151 frames, and an unrecognised buffer. *)
Lemma frame_count_warnings_witness :
  (exists r,
     WhatsAppValidator.validateSticker (Samples.detects "gif" "image/gif")
       (Samples.decodes_to 512 512 151) (Samples.zeros 3) no_metadata = Returns r /\
     In (msg_high_frame_count 151) (warnings r)) /\
  (exists r,
     WhatsAppValidator.validateSticker Samples.unknown_type
       (Samples.decodes_to 512 512 151) (Samples.zeros 3) no_metadata = Returns r /\
     ~ In (msg_high_frame_count 151) (warnings r)).
Proof.
  split.
  - destruct (frame_count_warnings (Samples.detects "gif" "image/gif")
                (Samples.decodes_to 512 512 151) (Samples.zeros 3) no_metadata)
      as (r & Hr & Hanimated & _).
    pose proof Hr as Hr'. rewrite validateSticker_report in Hr'. injection Hr' as Hr'.
    assert (Hkind : FileSize.type (fileSize r) = animated) by (rewrite <- Hr'; reflexivity).
    destruct (Hanimated _ 151 Hkind eq_refl eq_refl) as [_ Hhigh].
    exists r. split; [exact Hr|]. apply Hhigh. lia.
  - destruct (frame_count_warnings Samples.unknown_type
                (Samples.decodes_to 512 512 151) (Samples.zeros 3) no_metadata)
      as (r & Hr & _ & Hstatic).
    pose proof Hr as Hr'. rewrite validateSticker_report in Hr'. injection Hr' as Hr'.
    assert (Hkind : FileSize.type (fileSize r) = static) by (rewrite <- Hr'; reflexivity).
    destruct (Hstatic Hkind) as (_ & Hnone & _).
    exists r. split; [exact Hr|]. apply Hnone.
Defined.

(** ** Metadata errors *)

Lemma kind_of_member (k : ErrorKind) (l : list string) (entry : string) :
  Forall (fun e => error_kind e = k) l -> In entry l -> error_kind entry = k.
Proof.
  induction 1 as [|e l He _ IH]; intros Hin; [destruct Hin|].
  destruct Hin as [<- | Hin]; [exact He | exact (IH Hin)].
Qed.

Lemma in_chunk (c : bool) (m entry : string) :
  In entry (if c then [m] else []) <-> c = true /\ entry = m.
Proof.
  destruct c; simpl; split.
  - intros [<- | []]. auto.
  - intros [_ ->]. auto.
  - intros [].
  - intros [H _]. discriminate H.
Qed.

(** An entry of [errors], located by its kind. *)
Lemma error_of_kind fromBuffer sharp_metadata buffer options entry :
  In entry (errors (Summary.report fromBuffer sharp_metadata buffer options)) ->
  match error_kind entry with
  | PackError =>
      Summary.too_long 128 (or_empty (opt_pack options)) = true /\ entry = msg_pack_too_long
  | AuthorError =>
      Summary.too_long 128 (or_empty (opt_author options)) = true
      /\ entry = msg_author_too_long
  | IdLengthError =>
      Summary.too_long 128 (or_empty (opt_id options)) = true /\ entry = msg_id_too_long
  | IdCharsetError =>
      Summary.bad_charset (or_empty (opt_id options)) = true /\ entry = msg_id_charset
  | CategoriesError =>
      Summary.too_many (or_nil (opt_categories options)) = true
      /\ entry = msg_too_many_categories (Z.of_nat (length (or_nil (opt_categories options))))
  | _ => True
  end.
Proof.
  rewrite errors_of_report, metadata_errors_chunks, !in_app_iff, !in_chunk.
  intros [H | [H | [H | [H | [H | [H | H]]]]]].
  - rewrite (kind_of_member _ _ _ (size_errors_kind _ _) H). exact I.
  - rewrite (kind_of_member _ _ _ (dimension_errors_kind _ _) H). exact I.
  - destruct H as [Hc ->]. split; [exact Hc | reflexivity].
  - destruct H as [Hc ->]. split; [exact Hc | reflexivity].
  - destruct H as [Hc ->]. split; [exact Hc | reflexivity].
  - destruct H as [Hc ->]. split; [exact Hc | reflexivity].
  - destruct H as [Hc ->]. split; [exact Hc | reflexivity].
Qed.

(** X5.  Each metadata error is in the report exactly when its own condition
    holds, independently of the others: the pack, author and ID length
    errors when the [.length] of the text, its number of UTF-16 code units,
    is more than 128, the charset error when the ID is not empty and not
    matched by the pattern, the categories error when there are more than
    three.  A missing or empty ID gives no ID error; an ID that is too long
    and has a foreign character gives both. *)
Theorem metadata_errors_exact
    (fromBuffer : Buffer -> Outcome (option FileTypeResult))
    (sharp_metadata : Buffer -> Outcome SharpMetadata)
    (buffer : Buffer) (options : IStickerOptions) :
  exists r,
    WhatsAppValidator.validateSticker fromBuffer sharp_metadata buffer options = Returns r /\
    (In msg_pack_too_long (errors r) <-> 128 < strlen (or_empty (opt_pack options))) /\
    (In msg_author_too_long (errors r) <-> 128 < strlen (or_empty (opt_author options))) /\
    (In msg_id_too_long (errors r) <-> 128 < strlen (or_empty (opt_id options))) /\
    (In msg_id_charset (errors r)
     <-> or_empty (opt_id options) <> EmptyString
         /\ id_pattern_test (or_empty (opt_id options)) = false) /\
    (In (msg_too_many_categories (Z.of_nat (length (or_nil (opt_categories options)))))
        (errors r)
     <-> (3 < length (or_nil (opt_categories options)))%nat).
Proof.
  exists (Summary.report fromBuffer sharp_metadata buffer options).
  split; [apply validateSticker_report|].
  assert (Hcharset : forall id,
            Summary.bad_charset id = true
            <-> id <> EmptyString /\ id_pattern_test id = false).
  { intros id. unfold Summary.bad_charset. rewrite andb_true_iff, negb_true_iff.
    destruct id; simpl; split; intros [H1 H2]; split; congruence. }
  assert (Hlong : forall s, Summary.too_long 128 s = true <-> 128 < strlen s)
    by (intros s; apply Z.ltb_lt).
  assert (Hmany : forall l : list string,
            Summary.too_many l = true <-> (3 < length l)%nat).
  { intros l. unfold Summary.too_many, WHATSAPP_LIMITS.MAX_CATEGORIES_PER_STICKER.
    rewrite Z.ltb_lt. lia. }
  split; [|split; [|split; [|split]]].
  - rewrite <- Hlong. split.
    + intros H. apply error_of_kind in H. exact (proj1 H).
    + intros H. apply in_metadata_errors. rewrite metadata_errors_chunks, !in_app_iff, !in_chunk.
      left. auto.
  - rewrite <- Hlong. split.
    + intros H. apply error_of_kind in H. exact (proj1 H).
    + intros H. apply in_metadata_errors. rewrite metadata_errors_chunks, !in_app_iff, !in_chunk.
      right. left. auto.
  - rewrite <- Hlong. split.
    + intros H. apply error_of_kind in H. exact (proj1 H).
    + intros H. apply in_metadata_errors. rewrite metadata_errors_chunks, !in_app_iff, !in_chunk.
      do 2 right. left. auto.
  - rewrite <- Hcharset. split.
    + intros H. apply error_of_kind in H. exact (proj1 H).
    + intros H. apply in_metadata_errors. rewrite metadata_errors_chunks, !in_app_iff, !in_chunk.
      do 3 right. left. auto.
  - rewrite <- Hmany. split.
    + intros H. apply error_of_kind in H. exact (proj1 H).
    + intros H. apply in_metadata_errors. rewrite metadata_errors_chunks, !in_app_iff, !in_chunk.
      do 4 right. auto.
Qed.

(** A pack name of a hundred CJK characters has 300 bytes and 100 code
    units: no pack error.  Sixty-five emojis beyond the Basic Multilingual
    Plane have 130 code units: a pack error. *)
Lemma metadata_errors_exact_witness :
  (exists r,
     WhatsAppValidator.validateSticker Samples.unknown_type Samples.undecodable
       (Samples.zeros 3) (Samples.named (Samples.copies 100 "日")) = Returns r /\
     ~ In msg_pack_too_long (errors r)) /\
  (exists r,
     WhatsAppValidator.validateSticker Samples.unknown_type Samples.undecodable
       (Samples.zeros 3) (Samples.named (Samples.copies 65 "😀")) = Returns r /\
     In msg_pack_too_long (errors r)).
Proof.
  split.
  - destruct (metadata_errors_exact Samples.unknown_type Samples.undecodable
                (Samples.zeros 3) (Samples.named (Samples.copies 100 "日")))
      as (r & Hr & Hpack & _).
    exists r. split; [exact Hr|]. rewrite Hpack. vm_compute. discriminate.
  - destruct (metadata_errors_exact Samples.unknown_type Samples.undecodable
                (Samples.zeros 3) (Samples.named (Samples.copies 65 "😀")))
      as (r & Hr & Hpack & _).
    exists r. split; [exact Hr|]. apply Hpack. reflexivity.
Defined.

(** * The compliance report as text *)

Lemma in_map_bullet (entries : list string) (line : string) :
  In line (map bullet entries) -> exists entry, line = bullet entry /\ In entry entries.
Proof.
  intros H. apply in_map_iff in H. destruct H as (entry & <- & Hin). eauto.
Qed.

Lemma positive_length_iff {A} (l : list A) : (0 <? Z.of_nat (length l)) = true <-> l <> [].
Proof.
  destruct l; simpl; split; intros H; try reflexivity; try discriminate; congruence.
Qed.

(** The lines of the optional section for [entries] under [heading]. *)
Lemma in_section (heading line : string) (entries : list string) :
  In line (if 0 <? Z.of_nat (length entries)
           then heading :: map bullet entries ++ [EmptyString]
           else [])
  <-> entries <> []
      /\ (line = heading \/ (exists entry, line = bullet entry /\ In entry entries)
          \/ line = EmptyString).
Proof.
  destruct entries as [|e entries].
  - simpl. split; [intros [] | intros [H _]; congruence].
  - change (0 <? Z.of_nat (length (e :: entries))) with true. cbv iota. split.
    + intros H. split; [discriminate|].
      destruct H as [<- | H]; [auto|].
      apply in_app_iff in H. destruct H as [H | [<- | []]]; [|auto].
      right. left. apply in_map_bullet. exact H.
    + intros [_ [-> | [(entry & -> & Hin) | ->]]].
      * left. reflexivity.
      * right. apply in_or_app. left. apply in_map. exact Hin.
      * right. apply in_or_app. right. left. reflexivity.
Qed.

Lemma report_lines_split (result : IWhatsAppValidationResult) :
  report_lines result
  = (take 15 (report_lines result)
     ++ text_section errors_heading (errors result)
     ++ text_section warnings_heading (warnings result)
     ++ [learn_more])%list.
Proof. reflexivity. Qed.

Lemma fixed_lines_differ (result : IWhatsAppValidationResult) (line : string) :
  In line (take 15 (report_lines result)) ->
  line <> errors_heading /\ line <> warnings_heading /\ forall entry, line <> bullet entry.
Proof.
  intros Hin. unfold report_lines in Hin. cbn [firstn app In] in Hin.
  repeat (destruct Hin as [<- | Hin];
          [split; [|split; [|intros entry]]; intros Heq;
           unfold status_line, text_field_line, mark, bullet, errors_heading,
             warnings_heading in Heq;
           cbn [String.append] in Heq; discriminate Heq |]).
  destruct Hin.
Qed.

Lemma report_lines_facts (result : IWhatsAppValidationResult) :
  (report_lines result !! 1%nat = Some (status_line true) <-> isValid result = true) /\
  (In errors_heading (report_lines result) <-> errors result <> []) /\
  (In warnings_heading (report_lines result) <-> warnings result <> []) /\
  (forall entry, In entry (errors result) -> In (bullet entry) (report_lines result)) /\
  (forall entry, In entry (warnings result) -> In (bullet entry) (report_lines result)).
Proof.
  assert (Hlines : forall line,
            In line (report_lines result) <->
            In line (take 15 (report_lines result))
            \/ (errors result <> []
                /\ (line = errors_heading
                    \/ (exists entry, line = bullet entry /\ In entry (errors result))
                    \/ line = EmptyString))
            \/ (warnings result <> []
                /\ (line = warnings_heading
                    \/ (exists entry, line = bullet entry /\ In entry (warnings result))
                    \/ line = EmptyString))
            \/ line = learn_more).
  { intros line. rewrite (report_lines_split result) at 1.
    unfold text_section. rewrite !in_app_iff, !in_section. cbn [In]. intuition. }
  split; [|split; [|split; [|split]]].
  - cbn. destruct (isValid result); split; intros H; try reflexivity; discriminate H.
  - rewrite Hlines. split.
    + intros [H | [[Hne _] | [[_ H] | H]]].
      * exfalso. exact (proj1 (fixed_lines_differ _ _ H) eq_refl).
      * exact Hne.
      * exfalso. destruct H as [H | [(entry & H & _) | H]];
          unfold errors_heading, warnings_heading, bullet in H; discriminate H.
      * discriminate H.
    + intros Hne. right. left. auto.
  - rewrite Hlines. split.
    + intros [H | [[_ H] | [[Hne _] | H]]].
      * exfalso. exact (proj1 (proj2 (fixed_lines_differ _ _ H)) eq_refl).
      * exfalso. destruct H as [H | [(entry & H & _) | H]];
          unfold errors_heading, warnings_heading, bullet in H; discriminate H.
      * exact Hne.
      * discriminate H.
    + intros Hne. right. right. left. auto.
  - intros entry Hin. rewrite Hlines. right. left.
    split; [intros Hnil; rewrite Hnil in Hin; destruct Hin|]. eauto.
  - intros entry Hin. rewrite Hlines. right. right. left.
    split; [intros Hnil; rewrite Hnil in Hin; destruct Hin|]. eauto.
Qed.

(** ** The lines of the text *)

Lemma text_lines_not_nil (text : string) : text_lines text <> [].
Proof.
  destruct text as [|c rest]; simpl; [discriminate|].
  destruct (Ascii.eqb c lf); [discriminate|].
  destruct (text_lines rest); discriminate.
Qed.

Lemma text_lines_cons (c : ascii) (rest : string) :
  text_lines (String c rest)
  = if Ascii.eqb c lf then EmptyString :: text_lines rest
    else match text_lines rest with
         | line :: more => String c line :: more
         | [] => [String c EmptyString]
         end.
Proof. reflexivity. Qed.

Lemma text_lines_app_nl (a b : string) :
  text_lines (a +:+ nl +:+ b) = (text_lines a ++ text_lines b)%list.
Proof.
  induction a as [|c a IH]; [reflexivity|].
  change (String c a +:+ nl +:+ b) with (String c (a +:+ nl +:+ b)).
  rewrite !text_lines_cons, IH.
  destruct (Ascii.eqb c lf); [reflexivity|].
  destruct (text_lines a) as [|line more] eqn:Ha; [|reflexivity].
  exfalso. exact (text_lines_not_nil a Ha).
Qed.

Lemma text_lines_join (parts : list string) :
  parts <> [] -> text_lines (join nl parts) = concat (map text_lines parts).
Proof.
  induction parts as [|p rest IH]; [congruence|]. intros _.
  destruct rest as [|q rest].
  - simpl. rewrite app_nil_r. reflexivity.
  - change (join nl (p :: q :: rest)) with (p +:+ nl +:+ join nl (q :: rest)).
    rewrite text_lines_app_nl, IH by discriminate. reflexivity.
Qed.

(** A text of one line, and what it gives when it comes first. *)
Lemma one_line_inv (c : ascii) (s : string) :
  text_lines (String c s) = [String c s] -> Ascii.eqb c lf = false /\ text_lines s = [s].
Proof.
  rewrite text_lines_cons.
  destruct (Ascii.eqb c lf); [discriminate|]. intros H. split; [reflexivity|].
  destruct (text_lines s) as [|line more] eqn:Hs; [|injection H as -> ->; reflexivity].
  exfalso. exact (text_lines_not_nil s Hs).
Qed.

Lemma text_lines_prefix (a b : string) :
  text_lines a = [a] ->
  text_lines (a +:+ b)
  = match text_lines b with
    | line :: more => (a +:+ line) :: more
    | [] => [a]
    end.
Proof.
  induction a as [|c a IH]; intros Ha.
  - change (EmptyString +:+ b) with b.
    destruct (text_lines b) eqn:Hb; [|reflexivity].
    exfalso. exact (text_lines_not_nil b Hb).
  - apply one_line_inv in Ha as [Hc Ha].
    change (String c a +:+ b) with (String c (a +:+ b)).
    rewrite text_lines_cons, Hc, (IH Ha).
    destruct (text_lines b); reflexivity.
Qed.

Lemma one_line_app (a b : string) :
  text_lines a = [a] -> text_lines b = [b] -> text_lines (a +:+ b) = [a +:+ b].
Proof. intros Ha Hb. rewrite (text_lines_prefix a b Ha), Hb. reflexivity. Qed.

Lemma one_line_nl (a : string) : text_lines a = [a] -> text_lines (a +:+ nl) = [a; EmptyString].
Proof.
  intros Ha. change (a +:+ nl) with (a +:+ nl +:+ EmptyString).
  rewrite text_lines_app_nl, Ha. reflexivity.
Qed.

Lemma one_line_uint (d : Decimal.uint) :
  text_lines (NilEmpty.string_of_uint d) = [NilEmpty.string_of_uint d].
Proof.
  induction d; [reflexivity | ..];
    cbn [NilEmpty.string_of_uint]; rewrite text_lines_cons, IHd; reflexivity.
Qed.

Lemma one_line_String_of (n : Z) : text_lines (String_of n) = [String_of n].
Proof.
  unfold String_of, NilZero.string_of_int, NilZero.string_of_uint.
  destruct (Z.to_int n) as [d|d].
  - destruct d; try reflexivity; apply one_line_uint.
  - apply (one_line_app "-"); [reflexivity|].
    destruct d; try reflexivity; apply one_line_uint.
Qed.

Lemma one_line_toFixed1_KB (size : Z) : text_lines (toFixed1_KB size) = [toFixed1_KB size].
Proof.
  unfold toFixed1_KB.
  repeat first [apply one_line_String_of | apply one_line_app | reflexivity].
Qed.

Lemma one_line_mark (valid : bool) : text_lines (mark valid) = [mark valid].
Proof. destruct valid; reflexivity. Qed.

Lemma one_line_bullet (entry : string) :
  text_lines entry = [entry] -> text_lines (bullet entry) = [bullet entry].
Proof. intros H. apply one_line_app; [reflexivity | exact H]. Qed.

Lemma one_line_kind_name (kind : StickerKind) : text_lines (kind_name kind) = [kind_name kind].
Proof. destruct kind; reflexivity. Qed.

Lemma line_then_nl (a b x : string) :
  text_lines a = [a] -> text_lines b = [x; EmptyString] ->
  text_lines (a +:+ b) = [a +:+ x; EmptyString].
Proof. intros Ha Hb. rewrite (text_lines_prefix a b Ha), Hb. reflexivity. Qed.

Ltac one_line :=
  repeat first [ assumption
               | apply one_line_String_of | apply one_line_toFixed1_KB | apply one_line_mark
               | apply one_line_kind_name
               | apply one_line_app
               | reflexivity ].

Ltac ends_nl :=
  first [ apply one_line_nl; one_line
        | eapply line_then_nl; [one_line | ends_nl] ].

(** The lines of an optional section whose entries have one line each. *)
Lemma section_text_lines (heading : string) (entries : list string) :
  text_lines heading = [heading] ->
  Forall (fun entry => text_lines entry = [entry]) entries ->
  concat (map text_lines (text_section heading entries)) = text_section heading entries.
Proof.
  intros Hheading Hentries. unfold text_section.
  destruct (0 <? Z.of_nat (length entries)); [|reflexivity].
  cbn [map concat]. rewrite Hheading. cbn [app]. f_equal.
  induction Hentries as [|entry entries Hentry _ IH]; [reflexivity|].
  cbn [map app concat]. rewrite (one_line_bullet _ Hentry), IH. reflexivity.
Qed.

Lemma report_text_parts (result : IWhatsAppValidationResult) :
  text_lines (generateComplianceReport result)
  = (concat (map text_lines (take 15 (report_lines result)))
     ++ concat (map text_lines (text_section errors_heading (errors result)))
     ++ concat (map text_lines (text_section warnings_heading (warnings result)))
     ++ [learn_more])%list.
Proof.
  unfold generateComplianceReport. rewrite text_lines_join.
  - rewrite (report_lines_split result) at 1.
    rewrite !map_app, !concat_app. reflexivity.
  - rewrite report_lines_split. discriminate.
Qed.

(** The first fifteen entries of the array, line by line. *)
Lemma fixed_text_lines (result : IWhatsAppValidationResult) :
  text_lines (TextField.value (MetadataReport.pack (metadata result)))
  = [TextField.value (MetadataReport.pack (metadata result))] ->
  text_lines (TextField.value (MetadataReport.author (metadata result)))
  = [TextField.value (MetadataReport.author (metadata result))] ->
  text_lines (TextField.value (MetadataReport.id (metadata result)))
  = [TextField.value (MetadataReport.id (metadata result))] ->
  concat (map text_lines (take 15 (report_lines result)))
  = [ "=== WhatsApp Sticker Compliance Report ===";
      EmptyString;
      status_text (isValid result);
      EmptyString;
      "ðŸ“ File Size:";
      "   Size: " +:+ toFixed1_KB (FileSize.size (fileSize result)) +:+ "KB";
      "   Limit: " +:+ toFixed1_KB (FileSize.limit (fileSize result)) +:+ "KB ("
        +:+ kind_name (FileSize.type (fileSize result)) +:+ ")";
      "   Status: " +:+ mark (FileSize.isValid (fileSize result));
      EmptyString;
      "ðŸ“ Dimensions:";
      "   Size: " +:+ String_of (Dimensions.width (dimensions result)) +:+ "x"
        +:+ String_of (Dimensions.height (dimensions result)) +:+ "px";
      "   Required: 512x512px";
      "   Status: " +:+ mark (Dimensions.isValid (dimensions result));
      EmptyString;
      "ðŸ“‹ Metadata:";
      text_field_line "Pack" (MetadataReport.pack (metadata result));
      text_field_line "Author" (MetadataReport.author (metadata result));
      text_field_line "ID" (MetadataReport.id (metadata result));
      "   Categories: "
        +:+ String_of (CategoriesField.count (MetadataReport.categories (metadata result)))
        +:+ "/"
        +:+ String_of (CategoriesField.limit (MetadataReport.categories (metadata result)))
        +:+ " " +:+ mark (CategoriesField.isValid (MetadataReport.categories (metadata result)));
      EmptyString ].
Proof.
  intros Hpack Hauthor Hid.
  assert (Hstatus : text_lines (status_line (isValid result))
                    = [status_text (isValid result); EmptyString]).
  { unfold status_line. apply one_line_nl. destruct (isValid result); reflexivity. }
  assert (Hfield : forall label f,
            text_lines label = [label] ->
            text_lines (TextField.value f) = [TextField.value f] ->
            text_lines (text_field_line label f) = [text_field_line label f]).
  { intros label f Hlabel Hvalue. unfold text_field_line. one_line. }
  assert (Hmark : forall valid,
            text_lines ("   Status: " +:+ mark valid +:+ nl)
            = ["   Status: " +:+ mark valid; EmptyString])
    by (intros valid; ends_nl).
  assert (Hcategories : forall count limit valid,
            text_lines ("   Categories: " +:+ String_of count +:+ "/" +:+ String_of limit
                        +:+ " " +:+ mark valid +:+ nl)
            = ["   Categories: " +:+ String_of count +:+ "/" +:+ String_of limit
               +:+ " " +:+ mark valid; EmptyString])
    by (intros count limit valid; ends_nl).
  unfold report_lines. cbn [take firstn app map concat].
  rewrite Hstatus, !Hmark, Hcategories.
  rewrite (Hfield "Pack" _ eq_refl Hpack), (Hfield "Author" _ eq_refl Hauthor),
    (Hfield "ID" _ eq_refl Hid).
  repeat match goal with
         | |- context [text_lines (?a +:+ ?b)] => rewrite (one_line_app a b) by one_line
         end.
  rewrite take_0.
  reflexivity.
Qed.

Lemma fixed_text_lines_differ (result : IWhatsAppValidationResult) (line : string) :
  text_lines (TextField.value (MetadataReport.pack (metadata result)))
  = [TextField.value (MetadataReport.pack (metadata result))] ->
  text_lines (TextField.value (MetadataReport.author (metadata result)))
  = [TextField.value (MetadataReport.author (metadata result))] ->
  text_lines (TextField.value (MetadataReport.id (metadata result)))
  = [TextField.value (MetadataReport.id (metadata result))] ->
  In line (concat (map text_lines (take 15 (report_lines result)))) ->
  line <> errors_heading /\ line <> warnings_heading /\ forall entry, line <> bullet entry.
Proof.
  intros Hpack Hauthor Hid Hin.
  rewrite (fixed_text_lines result Hpack Hauthor Hid) in Hin. cbn [In] in Hin.
  repeat (destruct Hin as [<- | Hin];
          [split; [|split; [|intros entry]]; intros Heq;
           unfold status_text, text_field_line, mark, bullet, errors_heading,
             warnings_heading in Heq;
           cbn [String.append] in Heq; discriminate Heq |]).
  destruct Hin.
Qed.

(** X6.  The text of [generateComplianceReport], line by line, for any
    result object.  Its first four lines are the title, an empty line, the
    status and an empty line, and the status reads COMPLIANT exactly when
    [isValid] is set, with no look at [errors]; its last line is the pointer
    to the documentation.  When the three metadata texts and the entries of
    [errors] and [warnings] have one line each, the text has 21 lines
    besides the two optional sections, each of two lines plus one per entry;
    the heading of the errors section is a line of the text exactly when
    [errors] is not empty, and likewise for the warnings; and every error
    and every warning has its bullet line. *)
Theorem report_text_structure (result : IWhatsAppValidationResult) :
  take 4 (text_lines (generateComplianceReport result))
  = [ "=== WhatsApp Sticker Compliance Report ==="; EmptyString;
      status_text (isValid result); EmptyString ] /\
  last (text_lines (generateComplianceReport result)) = Some learn_more /\
  (text_lines (TextField.value (MetadataReport.pack (metadata result)))
   = [TextField.value (MetadataReport.pack (metadata result))] ->
   text_lines (TextField.value (MetadataReport.author (metadata result)))
   = [TextField.value (MetadataReport.author (metadata result))] ->
   text_lines (TextField.value (MetadataReport.id (metadata result)))
   = [TextField.value (MetadataReport.id (metadata result))] ->
   Forall (fun entry => text_lines entry = [entry]) (errors result) ->
   Forall (fun entry => text_lines entry = [entry]) (warnings result) ->
   length (text_lines (generateComplianceReport result))
   = (21 + match errors result with [] => 0 | _ :: _ => 2 + length (errors result) end
         + match warnings result with [] => 0 | _ :: _ => 2 + length (warnings result) end)%nat /\
   (In errors_heading (text_lines (generateComplianceReport result))
    <-> errors result <> []) /\
   (In warnings_heading (text_lines (generateComplianceReport result))
    <-> warnings result <> []) /\
   (forall entry, In entry (errors result) ->
      In (bullet entry) (text_lines (generateComplianceReport result))) /\
   (forall entry, In entry (warnings result) ->
      In (bullet entry) (text_lines (generateComplianceReport result)))).
Proof.
  rewrite report_text_parts. split; [|split].
  - unfold report_lines. cbn [take firstn app map concat].
    destruct (isValid result); reflexivity.
  - rewrite !app_assoc. apply last_snoc.
  - intros Hpack Hauthor Hid Herrors Hwarnings.
    pose proof (fixed_text_lines_differ result) as Hfixed.
    specialize (fun line => Hfixed line Hpack Hauthor Hid).
    assert (Hcount : length (concat (map text_lines (take 15 (report_lines result))))
                     = 20%nat)
      by (rewrite (fixed_text_lines result Hpack Hauthor Hid); reflexivity).
    rewrite (section_text_lines errors_heading _ eq_refl Herrors),
      (section_text_lines warnings_heading _ eq_refl Hwarnings).
    assert (Hlines : forall line,
              In line (concat (map text_lines (take 15 (report_lines result)))
                       ++ text_section errors_heading (errors result)
                       ++ text_section warnings_heading (warnings result)
                       ++ [learn_more])%list <->
              In line (concat (map text_lines (take 15 (report_lines result))))
              \/ (errors result <> []
                  /\ (line = errors_heading
                      \/ (exists entry, line = bullet entry /\ In entry (errors result))
                      \/ line = EmptyString))
              \/ (warnings result <> []
                  /\ (line = warnings_heading
                      \/ (exists entry, line = bullet entry /\ In entry (warnings result))
                      \/ line = EmptyString))
              \/ line = learn_more).
    { intros line. unfold text_section. rewrite !in_app_iff, !in_section. cbn [In].
      intuition. }
    split; [|split; [|split; [|split]]].
    + rewrite !length_app, Hcount. unfold text_section.
      destruct (errors result); destruct (warnings result);
        simpl; rewrite ?length_app, ?length_map; simpl; lia.
    + rewrite Hlines. split.
      * intros [H | [[Hne _] | [[_ H] | H]]].
        -- exfalso. exact (proj1 (Hfixed _ H) eq_refl).
        -- exact Hne.
        -- exfalso. destruct H as [H | [(entry & H & _) | H]];
             unfold errors_heading, warnings_heading, bullet in H; discriminate H.
        -- discriminate H.
      * intros Hne. right. left. auto.
    + rewrite Hlines. split.
      * intros [H | [[_ H] | [[Hne _] | H]]].
        -- exfalso. exact (proj1 (proj2 (Hfixed _ H)) eq_refl).
        -- exfalso. destruct H as [H | [(entry & H & _) | H]];
             unfold errors_heading, warnings_heading, bullet in H; discriminate H.
        -- exact Hne.
        -- discriminate H.
      * intros Hne. right. right. left. auto.
    + intros entry Hin. rewrite Hlines. right. left.
      split; [intros Hnil; rewrite Hnil in Hin; destruct Hin|]. eauto.
    + intros entry Hin. rewrite Hlines. right. right. left.
      split; [intros Hnil; rewrite Hnil in Hin; destruct Hin|]. eauto.
Qed.

(** The report of the validation scenario: one error and two warnings, and
    so 28 lines. *)
Lemma report_text_structure_witness :
  length (text_lines
            (generateComplianceReport
               (Summary.report Samples.unknown_type (Samples.decodes_to 512 512 1)
                  (Samples.zeros 3) Samples.long_pack_no_categories))) = 28%nat /\
  In (bullet msg_pack_too_long)
    (text_lines
       (generateComplianceReport
          (Summary.report Samples.unknown_type (Samples.decodes_to 512 512 1)
             (Samples.zeros 3) Samples.long_pack_no_categories))).
Proof.
  destruct (report_text_structure
              (Summary.report Samples.unknown_type (Samples.decodes_to 512 512 1)
                 (Samples.zeros 3) Samples.long_pack_no_categories))
    as (_ & _ & Hlines).
  destruct Hlines as (Hlength & _ & _ & Herrors & _).
  - reflexivity.
  - reflexivity.
  - reflexivity.
  - repeat constructor.
  - repeat constructor.
  - split; [rewrite Hlength; reflexivity|].
    apply Herrors. left. reflexivity.
Defined.

(** X7.  The static [getWhatsAppComplianceReport] never throws.  Its text
    says COMPLIANT exactly when it has no errors section, and it always has a
    warnings section, with the bullet of the stroke advisory. *)
Theorem compliance_report_consistent
    (fromBuffer : Buffer -> Outcome (option FileTypeResult))
    (sharp_metadata : Buffer -> Outcome SharpMetadata)
    (buffer : Buffer) (options : IStickerOptions) :
  exists r,
    WhatsAppValidator.validateSticker fromBuffer sharp_metadata buffer options = Returns r /\
    getWhatsAppComplianceReport fromBuffer sharp_metadata buffer options
    = Returns (join nl (report_lines r)) /\
    (report_lines r !! 1%nat = Some (status_line true)
     <-> ~ In errors_heading (report_lines r)) /\
    In warnings_heading (report_lines r) /\
    In (bullet msg_white_stroke) (report_lines r).
Proof.
  exists (Summary.report fromBuffer sharp_metadata buffer options).
  split; [apply validateSticker_report|]. split.
  { unfold getWhatsAppComplianceReport. rewrite validateSticker_report. reflexivity. }
  destruct (report_lines_facts
              (Summary.report fromBuffer sharp_metadata buffer options))
    as (Hstatus & Herrors & Hwarnings & _ & Hbullets).
  assert (Hstroke : In msg_white_stroke
            (warnings (Summary.report fromBuffer sharp_metadata buffer options))).
  { rewrite warnings_of_report, !in_app_iff. right. left.
    unfold Summary.metadata_warnings. rewrite in_app_iff. right. left. reflexivity. }
  split; [|split].
  - rewrite Hstatus, Herrors.
    change (isValid (Summary.report fromBuffer sharp_metadata buffer options))
      with (Z.of_nat (length (errors (Summary.report fromBuffer sharp_metadata buffer
                                        options))) =? 0).
    rewrite length_zero_iff_nil. split; [intros -> H; exact (H eq_refl)|].
    intros H. destruct (errors _); [reflexivity|]. exfalso. apply H. discriminate.
  - apply Hwarnings. intros Hnil. rewrite Hnil in Hstroke. destruct Hstroke.
  - apply Hbullets. exact Hstroke.
Qed.

(** * validateEmojiCategories *)

Lemma collect_invalid_filter (emojis invalidEmojis : list CodePoints) :
  collect_invalid emojis invalidEmojis
  = (invalidEmojis ++ List.filter (fun emoji => negb (emoji_pattern_test emoji)) emojis)%list.
Proof.
  revert invalidEmojis. induction emojis as [|emoji rest IH]; intros invalidEmojis; simpl.
  - rewrite app_nil_r. reflexivity.
  - rewrite IH. destruct (emoji_pattern_test emoji); simpl; [reflexivity|].
    rewrite <- app_assoc. reflexivity.
Qed.

(** X8.  [validateEmojiCategories] reports as invalid exactly the emojis
    without a code point in one of the six ranges, in the order of the input
    and as often as they occur; and [isValid] holds exactly when every emoji
    of the input has such a code point. *)
Theorem invalid_emojis_are_the_unmatched (emojis : list CodePoints) :
  EmojiCheck.invalidEmojis (validateEmojiCategories emojis)
  = List.filter (fun emoji => negb (emoji_pattern_test emoji)) emojis /\
  (EmojiCheck.isValid (validateEmojiCategories emojis) = true
   <-> forall emoji, In emoji emojis ->
         exists c, In c emoji /\ emoji_range c = true).
Proof.
  unfold validateEmojiCategories. cbn [EmojiCheck.invalidEmojis EmojiCheck.isValid].
  rewrite collect_invalid_filter. cbn [app]. split; [reflexivity|].
  rewrite length_zero_iff_nil. split.
  - intros Hnone emoji Hin.
    destruct (emoji_pattern_test emoji) eqn:Htest.
    + apply existsb_exists in Htest. exact Htest.
    + assert (Hf : In emoji (List.filter (fun e => negb (emoji_pattern_test e)) emojis)).
      { apply filter_In. rewrite Htest. auto. }
      rewrite Hnone in Hf. destruct Hf.
  - intros Hall.
    destruct (List.filter (fun e => negb (emoji_pattern_test e)) emojis) as [|emoji l] eqn:Hf;
      [reflexivity|].
    assert (Hin : In emoji (List.filter (fun e => negb (emoji_pattern_test e)) emojis))
      by (rewrite Hf; left; reflexivity).
    apply filter_In in Hin. destruct Hin as [Hin Hneg].
    apply negb_true_iff in Hneg.
    destruct (Hall emoji Hin) as (c & Hc & Hrange).
    assert (Htest : emoji_pattern_test emoji = true) by (apply existsb_exists; eauto).
    congruence.
Qed.

(** X9.  Edges of the emoji pattern.  It is not anchored: a string passes as
    soon as one of its code points is in a range, whatever stands before and
    after.  The empty string never passes.  And a string all of whose code
    points lie in U+1F900..U+1FAFF never passes, so that it is reported
    invalid wherever it stands in the input. *)
Theorem emoji_pattern_edges :
  (forall (before after : CodePoints) (c : Z),
     emoji_range c = true -> emoji_pattern_test (before ++ c :: after)%list = true) /\
  emoji_pattern_test [] = false /\
  (forall (emojis : list CodePoints) (emoji : CodePoints),
     Forall (fun c => 0x1F900 <= c <= 0x1FAFF) emoji ->
     In emoji emojis ->
     emoji_pattern_test emoji = false /\
     In emoji (EmojiCheck.invalidEmojis (validateEmojiCategories emojis)) /\
     EmojiCheck.isValid (validateEmojiCategories emojis) = false).
Proof.
  split; [|split].
  - intros before after c Hc. unfold emoji_pattern_test.
    rewrite existsb_app. simpl. rewrite Hc. apply orb_true_r.
  - reflexivity.
  - intros emojis emoji Hall Hin.
    assert (Htest : emoji_pattern_test emoji = false).
    { clear Hin. unfold emoji_pattern_test.
      induction Hall as [|c l Hc _ IH]; [reflexivity|]. simpl. rewrite IH.
      rewrite orb_false_r. unfold emoji_range.
      rewrite (proj2 (Z.leb_gt c 0x1F64F)), (proj2 (Z.leb_gt c 0x1F5FF)),
        (proj2 (Z.leb_gt c 0x1F6FF)), (proj2 (Z.leb_gt c 0x1F1FF)),
        (proj2 (Z.leb_gt c 0x26FF)), (proj2 (Z.leb_gt c 0x27BF)) by lia.
      rewrite !andb_false_r. reflexivity. }
    assert (Hinvalid : In emoji (EmojiCheck.invalidEmojis (validateEmojiCategories emojis))).
    { unfold validateEmojiCategories. cbn [EmojiCheck.invalidEmojis].
      rewrite collect_invalid_filter. cbn [app]. apply filter_In. rewrite Htest. auto. }
    split; [exact Htest|]. split; [exact Hinvalid|].
    unfold validateEmojiCategories in *. cbn [EmojiCheck.invalidEmojis EmojiCheck.isValid] in *.
    destruct (collect_invalid emojis []); [destruct Hinvalid | reflexivity].
Qed.

(** U+1F923 after U+1F600: the second is reported, the first is not. *)
Lemma emoji_pattern_edges_witness :
  validateEmojiCategories [[0x1F600]; [0x1F923]]
  = {| EmojiCheck.isValid := false; EmojiCheck.invalidEmojis := [[0x1F923]] |}
  /\ emoji_pattern_test ([0x61] ++ 0x1F600 :: [0x62])%list = true.
Proof.
  destruct emoji_pattern_edges as (Hfree & _ & Hhigh).
  split.
  - destruct (Hhigh [[0x1F600]; [0x1F923]] [0x1F923]) as (_ & _ & Hinvalid).
    + constructor; [lia | constructor].
    + right. left. reflexivity.
    + reflexivity.
  - apply Hfree. reflexivity.
Defined.

(** * Further properties of the converters *)

Lemma lookup_unlink_quietly (path p : string) (w : World) :
  files (fst (unlink_quietly path w)) !! p
  = if decide (p = path) then None else files w !! p.
Proof.
  unfold unlink_quietly, unlink. run_eff.
  destruct (files w !! path) eqn:Hpath; simpl; destruct (decide (p = path)) as [->|Hne].
  - apply lookup_delete_eq.
  - apply lookup_delete_ne. congruence.
  - exact Hpath.
  - reflexivity.
Qed.

Lemma runs_unlink_quietly (path : string) (w : World) :
  ffmpeg_runs (fst (unlink_quietly path w)) = ffmpeg_runs w
  /\ snd (unlink_quietly path w) = Returns tt.
Proof.
  unfold unlink_quietly, unlink. run_eff.
  destruct (files w !! path); simpl; auto.
Qed.

(** ** The adaptive converter on any temp directory *)

Section AdaptiveEffects.

Variables (tmpdir random36 : string).
Variable codec : Buffer -> list string -> Outcome Buffer.
Variable levels : list Adaptive.Settings.
Variable targetSize : Z.

Local Abbreviation video := (Adaptive.video tmpdir random36).
Local Abbreviation webpFile := (Adaptive.webpFile tmpdir random36).
Local Abbreviation run_of := (Adaptive.run_of tmpdir random36).
Local Abbreviation attempt := (Adaptive.attempt tmpdir random36 codec levels targetSize).
Local Abbreviation loop := (Adaptive.loop tmpdir random36 codec levels).

(** One attempt: one more run, and the files as they were or without the
    attempt's own file; it never throws. *)
Lemma adaptive_attempt_effect i settings result w :
  exists fs flow,
    attempt i settings result w
    = ({| files := fs; ffmpeg_runs := ffmpeg_runs w ++ [run_of settings] |}, Returns flow)
    /\ files_kept_or (webpFile settings) (files w) fs.
Proof.
  unfold Adaptive.attempt, ffmpeg_save, readFile, writeFile, unlink_quietly, unlink,
    files_kept_or.
  run_eff.
  destruct (files w !! video) as [input|]; simpl; [|eauto].
  destruct (codec input (Adaptive.outputOptions settings)) as [encoded|error]; simpl;
    [|eauto].
  rewrite lookup_insert_eq. simpl. rewrite lookup_insert_eq. simpl.
  rewrite delete_insert_eq.
  destruct (buffer_length encoded <=? targetSize); [eauto|].
  destruct (i =? length levels - 1)%nat; eauto.
Qed.

(** The loop: the runs are those of the first [n] remaining entries, in
    order; every path is as before or is the removed file of one of them. *)
Lemma adaptive_loop_effect remaining :
  forall i result w,
  exists w1 result1 n,
    loop remaining targetSize i result w = (w1, Returns result1) /\
    (n <= length remaining)%nat /\ ((1 <= n)%nat \/ remaining = []) /\
    ffmpeg_runs w1 = (ffmpeg_runs w ++ map run_of (take n remaining))%list /\
    forall p, files w1 !! p = files w !! p
              \/ (files w1 !! p = None /\ exists settings,
                    In settings remaining /\ p = webpFile settings).
Proof.
  induction remaining as [|settings rest IH]; intros i result w.
  - exists w, result, 0%nat. simpl. rewrite app_nil_r.
    repeat split; auto.
  - destruct (adaptive_attempt_effect i settings result w) as (fs & flow & Hattempt & Hfs).
    simpl. rewrite (bind_returns _ _ _ _ _ Hattempt).
    assert (Hstep : forall p,
              fs !! p = files w !! p \/ (fs !! p = None /\ p = webpFile settings)).
    { intros p. destruct Hfs as [-> | ->]; [auto|].
      destruct (decide (p = webpFile settings)) as [->|Hne].
      - right. split; [apply lookup_delete_eq | reflexivity].
      - left. apply lookup_delete_ne. congruence. }
    destruct flow as [result'|result'].
    + eexists _, result', 1%nat. split; [reflexivity|]. simpl.
      split; [lia|]. split; [left; lia|]. split; [reflexivity|].
      intros p. destruct (Hstep p) as [H | [H ->]]; [left; exact H|].
      right. split; [exact H|]. exists settings. split; [left|]; reflexivity.
    + destruct (IH (S i) result'
                  {| files := fs; ffmpeg_runs := ffmpeg_runs w ++ [run_of settings] |})
        as (w1 & result1 & n & Hloop & Hn & _ & Hruns & Hfiles).
      exists w1, result1, (S n). split; [exact Hloop|].
      split; [simpl; lia|]. split; [left; lia|]. split.
      * rewrite Hruns. simpl. rewrite <- app_assoc. reflexivity.
      * intros p. destruct (Hfiles p) as [H | (H & s & Hs & ->)].
        -- simpl in H. rewrite H. destruct (Hstep p) as [H' | [H' ->]]; [left; exact H'|].
           right. split; [exact H'|]. exists settings. split; [left|]; reflexivity.
        -- right. split; [exact H|]. exists s. split; [right; exact Hs | reflexivity].
Qed.

(** The conversion as a whole. *)
Lemma adaptive_convert_effect (data : Buffer) (w : World) :
  exists w' outcome n,
    Adaptive.convert tmpdir random36 codec levels data targetSize w = (w', outcome) /\
    (n <= length levels)%nat /\ ((1 <= n)%nat \/ levels = []) /\
    ffmpeg_runs w' = (ffmpeg_runs w ++ map run_of (take n levels))%list /\
    (outcome = Throws (JsError "Failed to convert video with any quality settings")
     \/ exists buffer, outcome = Returns buffer) /\
    files w' !! video = None /\
    forall p, p <> video ->
      files w' !! p = files w !! p
      \/ (files w' !! p = None /\ exists settings,
            In settings levels /\ p = webpFile settings).
Proof.
  destruct (adaptive_loop_effect levels 0%nat None
              (set_files (<[video := data]> (files w)) w))
    as (w1 & result & n & Hloop & Hn & Hpos & Hruns & Hfiles).
  pose proof (lookup_unlink_quietly video) as Hlookup.
  pose proof (runs_unlink_quietly video w1) as [Hruns1 Hret].
  unfold Adaptive.convert, writeFile. unfold bind at 1. unfold modify at 1.
  rewrite (bind_returns _ _ _ _ _ Hloop).
  unfold bind at 1.
  destruct (unlink_quietly video w1) as [w2 o] eqn:Hunlink.
  simpl in Hret, Hruns1. subst o.
  exists w2, (match result with
              | Some buffer => Returns buffer
              | None => Throws (JsError "Failed to convert video with any quality settings")
              end), n.
  split; [destruct result; reflexivity|].
  split; [exact Hn|]. split; [exact Hpos|]. split; [rewrite Hruns1; exact Hruns|].
  split; [destruct result; eauto|].
  assert (Hw2 : forall p, files w2 !! p = if decide (p = video) then None else files w1 !! p).
  { intros p. specialize (Hlookup p w1). rewrite Hunlink in Hlookup. exact Hlookup. }
  split.
  - rewrite Hw2. destruct (decide (video = video)); [reflexivity | congruence].
  - intros p Hp. rewrite Hw2. destruct (decide (p = video)) as [->|_]; [congruence|].
    destruct (Hfiles p) as [H | H].
    + left. rewrite H. simpl. apply lookup_insert_ne. congruence.
    + right. exact H.
Qed.

End AdaptiveEffects.

(** ** The optimized converter on any temp directory *)

Section OptimizedEffects.

Variables (tmpdir random36 : string).
Variable codec : Buffer -> list string -> Outcome Buffer.
Variable levels : list VideoToGif.Settings.

Local Abbreviation video := (VideoToGif.video tmpdir random36).
Local Abbreviation webpFile := (VideoToGif.webpFile tmpdir random36).
Local Abbreviation run_of := (VideoToGif.run_of tmpdir random36).
Local Abbreviation runs_from := (VideoToGif.runs_from tmpdir random36).
Local Abbreviation attempt := (VideoToGif.attempt tmpdir random36 codec levels).
Local Abbreviation loop := (VideoToGif.loop tmpdir random36 codec levels).

(** One attempt: one more run, and the files as they were or without the
    attempt's own file. *)
Lemma optimized_attempt_effect i settings result w :
  exists fs outcome,
    attempt i settings result w
    = ({| files := fs; ffmpeg_runs := ffmpeg_runs w ++ [run_of i settings] |}, outcome)
    /\ files_kept_or (webpFile settings) (files w) fs.
Proof.
  unfold VideoToGif.attempt, ffmpeg_save, readFile, writeFile, unlink_quietly, unlink,
    files_kept_or.
  run_eff.
  destruct (files w !! video) as [input|]; simpl.
  2: { destruct (i =? length levels - 1)%nat; eauto. }
  destruct (codec input (VideoToGif.outputOptions settings i)) as [encoded|error]; simpl.
  2: { destruct (i =? length levels - 1)%nat; eauto. }
  rewrite lookup_insert_eq. simpl. rewrite lookup_insert_eq. simpl.
  rewrite delete_insert_eq.
  destruct (buffer_length encoded <=? VideoToGif.targetSize); [eauto|].
  destruct (i =? length levels - 1)%nat; eauto.
Qed.

(** The loop: the runs are those of the first [n] remaining entries, in
    order; every path is as before or is the removed file of one of them. *)
Lemma optimized_loop_effect remaining :
  forall i result w,
  exists w1 outcome n,
    loop remaining i result w = (w1, outcome) /\
    (n <= length remaining)%nat /\ ((1 <= n)%nat \/ remaining = []) /\
    ffmpeg_runs w1 = (ffmpeg_runs w ++ runs_from i (take n remaining))%list /\
    forall p, files w1 !! p = files w !! p
              \/ (files w1 !! p = None /\ exists settings,
                    In settings remaining /\ p = webpFile settings).
Proof.
  induction remaining as [|settings rest IH]; intros i result w.
  - exists w, (Returns result), 0%nat. simpl. rewrite app_nil_r.
    repeat split; auto.
  - destruct (optimized_attempt_effect i settings result w) as (fs & outcome & Hattempt & Hfs).
    assert (Hstep : forall p,
              fs !! p = files w !! p
              \/ (fs !! p = None /\ exists settings0,
                    In settings0 (settings :: rest) /\ p = webpFile settings0)).
    { intros p. destruct Hfs as [-> | ->]; [auto|].
      destruct (decide (p = webpFile settings)) as [->|Hne].
      - right. split; [apply lookup_delete_eq|].
        exists settings. split; [left|]; reflexivity.
      - left. apply lookup_delete_ne. congruence. }
    simpl. destruct outcome as [flow|error].
    + rewrite (bind_returns _ _ _ _ _ Hattempt).
      destruct flow as [result'|result'].
      * eexists _, (Returns result'), 1%nat. split; [reflexivity|]. simpl.
        split; [lia|]. split; [left; lia|]. split; [reflexivity|]. exact Hstep.
      * destruct (IH (S i) result'
                    {| files := fs; ffmpeg_runs := ffmpeg_runs w ++ [run_of i settings] |})
          as (w1 & outcome1 & n & Hloop & Hn & _ & Hruns & Hfiles).
        exists w1, outcome1, (S n). split; [exact Hloop|].
        split; [simpl; lia|]. split; [left; lia|]. split.
        -- rewrite Hruns. simpl. rewrite <- app_assoc. reflexivity.
        -- intros p. destruct (Hfiles p) as [H | (H & s & Hs & ->)].
           ++ simpl in H. rewrite H. exact (Hstep p).
           ++ right. split; [exact H|]. exists s. split; [right; exact Hs | reflexivity].
    + rewrite (bind_throws _ _ _ _ _ Hattempt).
      eexists _, (Throws error), 1%nat. split; [reflexivity|]. simpl.
      split; [lia|]. split; [left; lia|]. split; [reflexivity|]. exact Hstep.
Qed.

(** The conversion as a whole.  The input file is gone, unless the loop
    threw. *)
Lemma optimized_convert_effect (data : Buffer) (w : World) :
  exists w' outcome n,
    VideoToGif.convert tmpdir random36 codec levels data w = (w', outcome) /\
    (n <= length levels)%nat /\ ((1 <= n)%nat \/ levels = []) /\
    ffmpeg_runs w' = (ffmpeg_runs w ++ runs_from 0 (take n levels))%list /\
    (files w' !! video = None
     \/ (files w' !! video = Some data /\ exists error, outcome = Throws error)) /\
    forall p, p <> video ->
      files w' !! p = files w !! p
      \/ (files w' !! p = None /\ exists settings,
            In settings levels /\ p = webpFile settings).
Proof.
  destruct (optimized_loop_effect levels 0%nat None
              (set_files (<[video := data]> (files w)) w))
    as (w1 & outcome & n & Hloop & Hn & Hpos & Hruns & Hfiles).
  assert (Hothers : forall p, p <> video ->
            files w1 !! p = files w !! p
            \/ (files w1 !! p = None /\ exists settings,
                  In settings levels /\ p = webpFile settings)).
  { intros p Hp. destruct (Hfiles p) as [H | H]; [left | right; exact H].
    rewrite H. simpl. apply lookup_insert_ne. congruence. }
  unfold VideoToGif.convert, writeFile. unfold bind at 1. unfold modify at 1.
  destruct outcome as [result|error].
  - pose proof (lookup_unlink_quietly video) as Hlookup.
    pose proof (runs_unlink_quietly video w1) as [Hruns1 Hret].
    rewrite (bind_returns _ _ _ _ _ Hloop).
    unfold bind at 1.
    destruct (unlink_quietly video w1) as [w2 o] eqn:Hunlink.
    simpl in Hret, Hruns1. subst o.
    assert (Hw2 : forall p,
              files w2 !! p = if decide (p = video) then None else files w1 !! p).
    { intros p. specialize (Hlookup p w1). rewrite Hunlink in Hlookup. exact Hlookup. }
    exists w2, (match result with
                | Some buffer => Returns buffer
                | None => Throws (JsError "Failed to convert video with any quality settings")
                end), n.
    split; [destruct result; reflexivity|].
    split; [exact Hn|]. split; [exact Hpos|]. split; [rewrite Hruns1; exact Hruns|].
    split.
    + left. rewrite Hw2. destruct (decide (video = video)); [reflexivity | congruence].
    + intros p Hp. rewrite Hw2. destruct (decide (p = video)) as [->|_]; [congruence|].
      apply Hothers, Hp.
  - rewrite (bind_throws _ _ _ _ _ Hloop).
    exists w1, (Throws error), n.
    split; [reflexivity|].
    split; [exact Hn|]. split; [exact Hpos|]. split; [exact Hruns|].
    split; [|exact Hothers].
    right. split; [|eauto].
    destruct (Hfiles video) as [H | (_ & settings & _ & H)].
    + rewrite H. simpl. apply lookup_insert_eq.
    + symmetry in H. apply optimized_video_not_webp in H. contradiction.
Qed.

End OptimizedEffects.

(** ** The ladder of the converter with a pre-check *)

Section PrecheckedEffects.

Variables (tmpdir random36 : string).
Variable codec : Buffer -> list string -> Outcome Buffer.
Variable levels : list VideoToGif.Settings.

Local Abbreviation video := (VideoToGifPrechecked.video tmpdir random36).
Local Abbreviation webpFile := (VideoToGifPrechecked.webpFile tmpdir random36).
Local Abbreviation run_of := (VideoToGifPrechecked.run_of tmpdir random36).
Local Abbreviation runs_from := (VideoToGifPrechecked.runs_from tmpdir random36).
Local Abbreviation attempt := (VideoToGifPrechecked.attempt tmpdir random36 codec levels).
Local Abbreviation loop := (VideoToGifPrechecked.loop tmpdir random36 codec levels).

(** One attempt: one more run, and the files as they were or without the
    attempt's own file. *)
Lemma prechecked_attempt_effect i settings result w :
  exists fs outcome,
    attempt i settings result w
    = ({| files := fs; ffmpeg_runs := ffmpeg_runs w ++ [run_of i settings] |}, outcome)
    /\ files_kept_or (webpFile settings) (files w) fs.
Proof.
  unfold VideoToGifPrechecked.attempt, ffmpeg_save, readFile, writeFile, unlink_quietly, unlink,
    files_kept_or.
  run_eff.
  destruct (files w !! video) as [input|]; simpl.
  2: { destruct (i =? length levels - 1)%nat; eauto. }
  destruct (codec input (VideoToGifPrechecked.outputOptions settings i)) as [encoded|error]; simpl.
  2: { destruct (i =? length levels - 1)%nat; eauto. }
  rewrite lookup_insert_eq. simpl. rewrite lookup_insert_eq. simpl.
  rewrite delete_insert_eq.
  destruct (buffer_length encoded <=? VideoToGifPrechecked.targetSize); [eauto|].
  destruct (i =? length levels - 1)%nat; eauto.
Qed.

(** The loop: the runs are those of the first [n] remaining entries, in
    order; every path is as before or is the removed file of one of them. *)
Lemma prechecked_loop_effect remaining :
  forall i result w,
  exists w1 outcome n,
    loop remaining i result w = (w1, outcome) /\
    (n <= length remaining)%nat /\ ((1 <= n)%nat \/ remaining = []) /\
    ffmpeg_runs w1 = (ffmpeg_runs w ++ runs_from i (take n remaining))%list /\
    forall p, files w1 !! p = files w !! p
              \/ (files w1 !! p = None /\ exists settings,
                    In settings remaining /\ p = webpFile settings).
Proof.
  induction remaining as [|settings rest IH]; intros i result w.
  - exists w, (Returns result), 0%nat. simpl. rewrite app_nil_r.
    repeat split; auto.
  - destruct (prechecked_attempt_effect i settings result w) as (fs & outcome & Hattempt & Hfs).
    assert (Hstep : forall p,
              fs !! p = files w !! p
              \/ (fs !! p = None /\ exists settings0,
                    In settings0 (settings :: rest) /\ p = webpFile settings0)).
    { intros p. destruct Hfs as [-> | ->]; [auto|].
      destruct (decide (p = webpFile settings)) as [->|Hne].
      - right. split; [apply lookup_delete_eq|].
        exists settings. split; [left|]; reflexivity.
      - left. apply lookup_delete_ne. congruence. }
    simpl. destruct outcome as [flow|error].
    + rewrite (bind_returns _ _ _ _ _ Hattempt).
      destruct flow as [result'|result'].
      * eexists _, (Returns result'), 1%nat. split; [reflexivity|]. simpl.
        split; [lia|]. split; [left; lia|]. split; [reflexivity|]. exact Hstep.
      * destruct (IH (S i) result'
                    {| files := fs; ffmpeg_runs := ffmpeg_runs w ++ [run_of i settings] |})
          as (w1 & outcome1 & n & Hloop & Hn & _ & Hruns & Hfiles).
        exists w1, outcome1, (S n). split; [exact Hloop|].
        split; [simpl; lia|]. split; [left; lia|]. split.
        -- rewrite Hruns. simpl. rewrite <- app_assoc. reflexivity.
        -- intros p. destruct (Hfiles p) as [H | (H & s & Hs & ->)].
           ++ simpl in H. rewrite H. exact (Hstep p).
           ++ right. split; [exact H|]. exists s. split; [right; exact Hs | reflexivity].
    + rewrite (bind_throws _ _ _ _ _ Hattempt).
      eexists _, (Throws error), 1%nat. split; [reflexivity|]. simpl.
      split; [lia|]. split; [left; lia|]. split; [reflexivity|]. exact Hstep.
Qed.

End PrecheckedEffects.

(** ** The ladder of the converter with a pre-check, attempt by attempt *)

Section PrecheckedLadder.

Variables (tmpdir random36 : string).
Variable codec : Buffer -> list string -> Outcome Buffer.
Variable data : Buffer.
Variable levels : list VideoToGif.Settings.

Local Abbreviation video := (VideoToGifPrechecked.video tmpdir random36).
Local Abbreviation webpFile := (VideoToGifPrechecked.webpFile tmpdir random36).
Local Abbreviation run_of := (VideoToGifPrechecked.run_of tmpdir random36).
Local Abbreviation runs_from := (VideoToGifPrechecked.runs_from tmpdir random36).
Local Abbreviation encoded := (VideoToGifPrechecked.encoded codec data).
Local Abbreviation attempt := (VideoToGifPrechecked.attempt tmpdir random36 codec levels).
Local Abbreviation loop := (VideoToGifPrechecked.loop tmpdir random36 codec levels).
Local Abbreviation convert := (VideoToGifPrechecked.convert tmpdir random36 codec levels).
Local Abbreviation targetSize := VideoToGifPrechecked.targetSize.

Lemma prechecked_video_not_webp settings : webpFile settings <> video.
Proof.
  unfold VideoToGifPrechecked.webpFile, VideoToGifPrechecked.video. intros H.
  apply append_same_start in H. discriminate H.
Qed.

Lemma prechecked_runs_from_app i (l1 l2 : list VideoToGif.Settings) :
  runs_from i (l1 ++ l2) = (runs_from i l1 ++ runs_from (i + length l1) l2)%list.
Proof.
  revert i. induction l1 as [|s l1 IH]; intros i; simpl.
  - rewrite Nat.add_0_r. reflexivity.
  - rewrite IH. replace (S i + length l1)%nat with (i + S (length l1))%nat by lia.
    reflexivity.
Qed.

Lemma prechecked_attempt_encodes i settings result w buffer :
  files w !! video = Some data ->
  encoded i settings = Returns buffer ->
  attempt i settings result w
  = (after_encoding (run_of i settings) w,
     Returns (if buffer_length buffer <=? targetSize then Break (Some buffer)
              else if (i =? length levels - 1)%nat then Next (Some buffer)
              else Next result)).
Proof.
  intros Hvideo Henc. unfold VideoToGifPrechecked.encoded in Henc.
  unfold VideoToGifPrechecked.attempt, ffmpeg_save, readFile, writeFile, unlink_quietly, unlink.
  run_eff. rewrite Hvideo. simpl. rewrite Henc. simpl.
  rewrite lookup_insert_eq. simpl. rewrite lookup_insert_eq. simpl.
  unfold after_encoding, set_files. simpl. rewrite delete_insert_eq.
  destruct (buffer_length buffer <=? targetSize); [reflexivity|].
  destruct (i =? length levels - 1)%nat; reflexivity.
Qed.

(** An attempt whose encoding fails: the error is thrown again at the last
    index, and the loop goes on at any other. *)
Lemma prechecked_attempt_fails i settings result w error :
  files w !! video = Some data ->
  encoded i settings = Throws error ->
  attempt i settings result w
  = (log_run (run_of i settings) w,
     if (i =? length levels - 1)%nat then Throws error else Returns (Next result)).
Proof.
  intros Hvideo Henc. unfold VideoToGifPrechecked.encoded in Henc.
  unfold VideoToGifPrechecked.attempt, ffmpeg_save, readFile, writeFile, unlink_quietly, unlink.
  run_eff. rewrite Hvideo. simpl. rewrite Henc. simpl.
  destruct (i =? length levels - 1)%nat; reflexivity.
Qed.

Lemma prechecked_video_kept i settings w :
  files w !! video = Some data ->
  files (after_encoding (run_of i settings) w) !! video = Some data.
Proof.
  intros H. simpl. rewrite lookup_delete_ne; [exact H|]. apply prechecked_video_not_webp.
Qed.

Lemma prechecked_loop_advance (k : nat) :
  forall remaining i w,
    files w !! video = Some data ->
    (i + length remaining = length levels)%nat ->
    (k < length remaining)%nat ->
    (forall j settings buffer, (j < k)%nat -> remaining !! j = Some settings ->
       encoded (i + j) settings = Returns buffer -> targetSize < buffer_length buffer) ->
    exists w1,
      files w1 !! video = Some data /\
      ffmpeg_runs w1 = (ffmpeg_runs w ++ runs_from i (take k remaining))%list /\
      loop remaining i None w = loop (drop k remaining) (i + k) None w1.
Proof.
  induction k as [|k IH]; intros remaining i w Hvideo Hlen Hk Hnofit.
  - exists w. rewrite take_0, drop_0, app_nil_r, Nat.add_0_r. auto.
  - destruct remaining as [|settings rest]; [simpl in Hk; lia|].
    simpl in Hk, Hlen.
    assert (Hnotlast : (i =? length levels - 1)%nat = false) by (apply Nat.eqb_neq; lia).
    assert (Hstep : exists w0,
               files w0 !! video = Some data /\
               ffmpeg_runs w0 = (ffmpeg_runs w ++ [run_of i settings])%list /\
               attempt i settings None w = (w0, Returns (Next None))).
    { destruct (encoded i settings) as [buffer|error] eqn:Henc.
      - exists (after_encoding (run_of i settings) w).
        split; [apply prechecked_video_kept; exact Hvideo|]. split; [reflexivity|].
        rewrite (prechecked_attempt_encodes _ _ _ _ _ Hvideo Henc), Hnotlast.
        assert (Hbig : targetSize < buffer_length buffer).
        { apply (Hnofit 0%nat settings buffer); [lia | reflexivity |].
          rewrite Nat.add_0_r. exact Henc. }
        apply Z.leb_gt in Hbig. rewrite Hbig. reflexivity.
      - exists (log_run (run_of i settings) w).
        split; [exact Hvideo|]. split; [reflexivity|].
        rewrite (prechecked_attempt_fails _ _ _ _ _ Hvideo Henc), Hnotlast. reflexivity. }
    destruct Hstep as (w0 & Hvideo0 & Hruns0 & Hattempt).
    destruct (IH rest (S i) w0 Hvideo0 ltac:(lia) ltac:(lia)) as (w1 & Hvideo1 & Hruns1 & Hloop).
    { intros j s b Hj Hlook Hb. apply (Hnofit (S j) s b); [lia | exact Hlook |].
      replace (i + S j)%nat with (S i + j)%nat by lia. exact Hb. }
    exists w1. split; [exact Hvideo1|]. split.
    + rewrite Hruns1, Hruns0. simpl. rewrite <- app_assoc. reflexivity.
    + simpl. rewrite (bind_returns _ _ _ _ _ Hattempt).
      rewrite Hloop. replace (S i + k)%nat with (i + S k)%nat by lia. reflexivity.
Qed.

Lemma prechecked_convert_after_loop w w1 (result : option Buffer) :
  loop levels 0 None (set_files (<[video := data]> (files w)) w) = (w1, Returns result) ->
  files w1 !! video = Some data ->
  convert data w
  = (set_files (delete video (files w1)) w1,
     match result with
     | Some buffer => Returns buffer
     | None => Throws (JsError "Failed to convert video with any quality settings")
     end).
Proof.
  intros Hloop Hvideo. unfold VideoToGifPrechecked.convert, writeFile, unlink_quietly, unlink.
  unfold bind at 1. unfold modify at 1.
  rewrite (bind_returns _ _ _ _ _ Hloop).
  run_eff. rewrite Hvideo. destruct result; reflexivity.
Qed.

(** When the loop throws, nothing after it runs. *)
Lemma prechecked_convert_loop_throws w w1 error :
  loop levels 0 None (set_files (<[video := data]> (files w)) w) = (w1, Throws error) ->
  convert data w = (w1, Throws error).
Proof.
  intros Hloop. unfold VideoToGifPrechecked.convert, writeFile.
  unfold bind at 1. unfold modify at 1.
  rewrite (bind_throws _ _ _ _ _ Hloop). reflexivity.
Qed.

Lemma prechecked_written_video (w : World) :
  files (set_files (<[video := data]> (files w)) w) !! video = Some data.
Proof. simpl. apply lookup_insert_eq. Qed.

Lemma prechecked_first_fit k settings buffer w :
  levels !! k = Some settings ->
  encoded k settings = Returns buffer ->
  buffer_length buffer <= targetSize ->
  (forall j earlier output, (j < k)%nat -> levels !! j = Some earlier ->
     encoded j earlier = Returns output -> targetSize < buffer_length output) ->
  exists w',
    convert data w = (w', Returns buffer) /\
    ffmpeg_runs w' = (ffmpeg_runs w ++ runs_from 0 (take (S k) levels))%list /\
    files w' !! video = None.
Proof.
  intros Hk Henc Hfits Hbefore.
  pose proof (lookup_lt_Some _ _ _ Hk) as Hlt.
  destruct (prechecked_loop_advance k levels 0%nat _ (prechecked_written_video w)
              ltac:(lia) Hlt Hbefore) as (w1 & Hvideo1 & Hruns1 & Hloop).
  rewrite (drop_S _ _ _ Hk) in Hloop. simpl in Hloop.
  rewrite (bind_returns _ _ _ _ _ (prechecked_attempt_encodes _ _ _ _ _ Hvideo1 Henc)) in Hloop.
  apply Z.leb_le in Hfits. rewrite Hfits in Hloop.
  eexists. split; [|split].
  - apply (prechecked_convert_after_loop _ _ _ Hloop).
    apply prechecked_video_kept. exact Hvideo1.
  - simpl. rewrite Hruns1, (take_S_r _ _ _ Hk), prechecked_runs_from_app. simpl.
    rewrite length_take_le by lia. rewrite app_assoc. reflexivity.
  - simpl. apply lookup_delete_eq.
Qed.

Lemma prechecked_runs_from_all settings :
  levels !! pred (length levels) = Some settings ->
  (runs_from 0 (take (pred (length levels)) levels)
   ++ [run_of (pred (length levels)) settings])%list
  = runs_from 0 levels.
Proof.
  intros Hlast. pose proof (lookup_lt_Some _ _ _ Hlast) as Hlt.
  rewrite <- (take_drop (pred (length levels)) levels) at 4.
  rewrite (drop_S _ _ _ Hlast), drop_ge by lia.
  rewrite prechecked_runs_from_app, length_take_le by lia. reflexivity.
Qed.

(** The whole ladder without a fit.  The last attempt decides: its output is
    returned, or its error is thrown again, and then the input file is still
    in the temp directory. *)
Lemma prechecked_no_fit w :
  (forall j settings output, levels !! j = Some settings ->
     encoded j settings = Returns output -> targetSize < buffer_length output) ->
  exists w',
    ffmpeg_runs w' = (ffmpeg_runs w ++ runs_from 0 levels)%list /\
    match last levels with
    | Some settings =>
        match encoded (pred (length levels)) settings with
        | Returns buffer =>
            convert data w = (w', Returns buffer) /\ files w' !! video = None
        | Throws error =>
            convert data w = (w', Throws error) /\ files w' !! video = Some data
        end
    | None =>
        convert data w
        = (w', Throws (JsError "Failed to convert video with any quality settings"))
        /\ files w' !! video = None
    end.
Proof.
  intros Hnofit.
  destruct (last levels) as [settings|] eqn:Hlast.
  - rewrite last_lookup in Hlast.
    pose proof (lookup_lt_Some _ _ _ Hlast) as Hlt.
    destruct (prechecked_loop_advance (pred (length levels)) levels 0%nat _
                (prechecked_written_video w) ltac:(lia) Hlt)
      as (w1 & Hvideo1 & Hruns1 & Hloop).
    { intros j s b _ Hj. apply (Hnofit j s b Hj). }
    rewrite (drop_S _ _ _ Hlast) in Hloop.
    rewrite drop_ge in Hloop by lia. simpl in Hloop.
    destruct (encoded (pred (length levels)) settings) as [buffer|error] eqn:Henc.
    + rewrite (bind_returns _ _ _ _ _ (prechecked_attempt_encodes _ _ _ _ _ Hvideo1 Henc))
        in Hloop.
      pose proof (Hnofit _ _ _ Hlast Henc) as Hbig. apply Z.leb_gt in Hbig.
      rewrite Hbig in Hloop.
      rewrite Nat.sub_1_r, Nat.eqb_refl in Hloop. unfold ret in Hloop.
      eexists. split; [|split; [apply (prechecked_convert_after_loop _ _ _ Hloop);
                                apply prechecked_video_kept; exact Hvideo1|]].
      * simpl. rewrite Hruns1, <- app_assoc, (prechecked_runs_from_all _ Hlast). reflexivity.
      * simpl. apply lookup_delete_eq.
    + assert (Hthrow : attempt (pred (length levels)) settings None w1
                       = (log_run (run_of (pred (length levels)) settings) w1, Throws error)).
      { rewrite (prechecked_attempt_fails _ _ _ _ _ Hvideo1 Henc), Nat.sub_1_r, Nat.eqb_refl.
        reflexivity. }
      rewrite (bind_throws _ _ _ _ _ Hthrow) in Hloop.
      eexists. split; [|split; [apply (prechecked_convert_loop_throws _ _ _ Hloop)|]].
      * simpl. rewrite Hruns1, <- app_assoc, (prechecked_runs_from_all _ Hlast). reflexivity.
      * simpl. exact Hvideo1.
  - apply last_None in Hlast.
    assert (Hloop : forall remaining w0, remaining = [] ->
              loop remaining 0 None w0 = (w0, Returns None))
      by (intros remaining w0 ->; reflexivity).
    pose proof (prechecked_convert_after_loop w _ None (Hloop _ _ Hlast)
                  (prechecked_written_video w)) as Hconvert.
    eexists. split; [|split; [exact Hconvert|]].
    + simpl. rewrite Hlast, app_nil_r. reflexivity.
    + simpl. apply lookup_delete_eq.
Qed.

Lemma prechecked_least_fit :
  (forall j settings output, levels !! j = Some settings ->
     encoded j settings = Returns output -> targetSize < buffer_length output)
  \/ (exists k settings buffer,
        levels !! k = Some settings /\ encoded k settings = Returns buffer /\
        buffer_length buffer <= targetSize /\
        (forall j earlier output, (j < k)%nat -> levels !! j = Some earlier ->
           encoded j earlier = Returns output -> targetSize < buffer_length output)).
Proof.
  assert (Hbound : forall n,
    (forall j settings output, (j < n)%nat -> levels !! j = Some settings ->
       encoded j settings = Returns output -> targetSize < buffer_length output)
    \/ (exists k settings buffer,
          levels !! k = Some settings /\ encoded k settings = Returns buffer /\
          buffer_length buffer <= targetSize /\
          (forall j earlier output, (j < k)%nat -> levels !! j = Some earlier ->
             encoded j earlier = Returns output -> targetSize < buffer_length output))).
  { induction n as [|n [IH|IH]]; [left; intros; lia | | right; exact IH].
    destruct (levels !! n) as [settings|] eqn:Hn.
    - destruct (encoded n settings) as [buffer|error] eqn:Henc.
      + destruct (Z_le_gt_dec (buffer_length buffer) targetSize) as [Hfit|Hbig].
        * right. exists n, settings, buffer. auto.
        * left. intros j s b Hj Hlook Hb.
          destruct (decide (j = n)) as [->|Hne]; [|apply (IH j s b); [lia|assumption..]].
          rewrite Hn in Hlook. injection Hlook as <-. rewrite Henc in Hb.
          injection Hb as <-. lia.
      + left. intros j s b Hj Hlook Hb.
        destruct (decide (j = n)) as [->|Hne]; [|apply (IH j s b); [lia|assumption..]].
        rewrite Hn in Hlook. injection Hlook as <-. rewrite Henc in Hb. discriminate.
    - left. intros j s b Hj Hlook Hb.
      destruct (decide (j = n)) as [->|Hne]; [|apply (IH j s b); [lia|assumption..]].
      rewrite Hn in Hlook. discriminate. }
  destruct (Hbound (length levels)) as [Hnone|Hsome]; [left|right; exact Hsome].
  intros j s b Hlook Hb.
  apply (Hnone j s b); [apply (lookup_lt_Some _ _ _ Hlook) | exact Hlook | exact Hb].
Qed.

End PrecheckedLadder.

(** ** What the two adaptive converters do to the temp directory and raise *)

(** X10.  Whatever the encoder does, each converter runs ffmpeg on the
    first [n] entries of its ladder and on nothing else, once each and in
    the order of the ladder; [n] is at least one unless the ladder is
    empty, so no entry is skipped, retried or tried out of order. *)
Theorem runs_follow_the_ladder
    (tmpdir random36 : string) (codec : Buffer -> list string -> Outcome Buffer)
    (data : Buffer) (w : World) :
  (forall levels : list VideoToGif.Settings,
     exists w' outcome n,
       VideoToGif.convert tmpdir random36 codec levels data w = (w', outcome) /\
       (n <= length levels)%nat /\ ((1 <= n)%nat \/ levels = []) /\
       ffmpeg_runs w'
       = (ffmpeg_runs w ++ VideoToGif.runs_from tmpdir random36 0 (take n levels))%list) /\
  (forall (levels : list Adaptive.Settings) targetSize,
     exists w' outcome n,
       Adaptive.convert tmpdir random36 codec levels data targetSize w = (w', outcome) /\
       (n <= length levels)%nat /\ ((1 <= n)%nat \/ levels = []) /\
       ffmpeg_runs w'
       = (ffmpeg_runs w ++ map (Adaptive.run_of tmpdir random36) (take n levels))%list).
Proof.
  split.
  - intros levels.
    destruct (optimized_convert_effect tmpdir random36 codec levels data w)
      as (w' & outcome & n & Hrun & Hn & Hpos & Hruns & _).
    exists w', outcome, n. auto.
  - intros levels targetSize.
    destruct (adaptive_convert_effect tmpdir random36 codec levels targetSize data w)
      as (w' & outcome & n & Hrun & Hn & Hpos & Hruns & _).
    exists w', outcome, n. auto.
Qed.

(** X11.  [adaptiveVideoToWebp] leaves nothing behind, whether it returns
    or raises: afterwards its input file is not there, no file has been
    created or changed, and the only paths that may have lost a file are
    its input file and the output files of its ladder. *)
Theorem adaptive_leaves_no_file
    (tmpdir random36 : string) (codec : Buffer -> list string -> Outcome Buffer)
    (levels : list Adaptive.Settings) (targetSize : Z) (data : Buffer) (w : World) :
  exists w' outcome,
    Adaptive.convert tmpdir random36 codec levels data targetSize w = (w', outcome) /\
    files w' !! Adaptive.video tmpdir random36 = None /\
    files w' ⊆ files w /\
    forall p,
      files w' !! p = files w !! p
      \/ (files w' !! p = None /\
          (p = Adaptive.video tmpdir random36
           \/ exists settings,
                In settings levels /\ p = Adaptive.webpFile tmpdir random36 settings)).
Proof.
  destruct (adaptive_convert_effect tmpdir random36 codec levels targetSize data w)
    as (w' & outcome & n & Hrun & _ & _ & _ & _ & Hvideo & Hfiles).
  assert (Hall : forall p,
            files w' !! p = files w !! p
            \/ (files w' !! p = None /\
                (p = Adaptive.video tmpdir random36
                 \/ exists settings,
                      In settings levels
                      /\ p = Adaptive.webpFile tmpdir random36 settings))).
  { intros p. destruct (decide (p = Adaptive.video tmpdir random36)) as [->|Hp].
    - right. auto.
    - destruct (Hfiles p Hp) as [H | [H H']]; auto. }
  exists w', outcome. split; [exact Hrun|]. split; [exact Hvideo|]. split; [|exact Hall].
  apply map_subseteq_spec. intros p buffer Hp.
  destruct (Hall p) as [H | [H _]]; congruence.
Qed.

(** X12.  The errors the converters raise.  [adaptiveVideoToWebp] never
    passes on an error of ffmpeg: whatever it raises is its own
    [Failed to convert video with any quality settings].  The optimized
    [videoToGif] does the opposite: with a ladder that is not empty it never
    reaches that message; what it raises is the error of ffmpeg on the last
    entry, and then the input file is still in the temp directory. *)
Theorem errors_raised
    (tmpdir random36 : string) (codec : Buffer -> list string -> Outcome Buffer)
    (data : Buffer) (w w' : World) (error : Thrown) :
  (forall (levels : list Adaptive.Settings) targetSize,
     Adaptive.convert tmpdir random36 codec levels data targetSize w = (w', Throws error) ->
     error = JsError "Failed to convert video with any quality settings") /\
  (forall (levels : list VideoToGif.Settings),
     VideoToGif.convert tmpdir random36 codec levels data w = (w', Throws error) ->
     levels <> [] ->
     exists settings,
       last levels = Some settings /\
       VideoToGif.encoded codec data (pred (length levels)) settings = Throws error /\
       files w' !! VideoToGif.video tmpdir random36 = Some data).
Proof.
  split.
  - intros levels targetSize Hrun.
    destruct (adaptive_convert_effect tmpdir random36 codec levels targetSize data w)
      as (w1 & outcome & n & Hrun1 & _ & _ & _ & [-> | [buffer ->]] & _);
      rewrite Hrun in Hrun1; congruence.
  - intros levels Hrun Hlevels.
    destruct (optimized_least_fit codec data levels)
      as [Hnone | (k & settings & buffer & Hk & Henc & Hfits & Hfirst)].
    + destruct (optimized_no_fit tmpdir random36 codec data levels w Hnone)
        as (w1 & _ & Hlast).
      destruct (last levels) as [settings|] eqn:Hl.
      * exists settings. split; [reflexivity|].
        destruct (VideoToGif.encoded codec data (pred (length levels)) settings)
          as [buffer|error1]; destruct Hlast as [Hrun1 Hvideo];
          rewrite Hrun in Hrun1; [discriminate Hrun1|].
        injection Hrun1 as -> ->. auto.
      * apply last_None in Hl. contradiction.
    + destruct (optimized_first_fit tmpdir random36 codec data levels k settings buffer w
                  Hk Henc Hfits Hfirst) as (w1 & Hrun1 & _).
      rewrite Hrun in Hrun1. discriminate Hrun1.
Qed.

Lemma errors_raised_witness :
  (exists w' error,
     Adaptive.convert "/tmp" "0.4fzyo82mvyr" Samples.always_fails
       Adaptive.qualityLevels (Samples.zeros 9) (500 * 1024) Samples.empty_world
     = (w', Throws error) /\
     error = JsError "Failed to convert video with any quality settings") /\
  (exists w',
     VideoToGif.convert "/tmp" "0.4fzyo82mvyr" Samples.always_fails
       VideoToGif.qualityLevels (Samples.zeros 9) Samples.empty_world
     = (w', Throws (JsError "ffmpeg exited with code 1")) /\
     files w' !! VideoToGif.video "/tmp" "0.4fzyo82mvyr" = Some (Samples.zeros 9)).
Proof.
  split.
  - destruct (adaptive_no_fit "/tmp" "0.4fzyo82mvyr" Samples.always_fails (Samples.zeros 9)
                Adaptive.qualityLevels (500 * 1024) Samples.empty_world)
      as (w' & _ & _ & Hrun).
    { intros j settings output _ Henc. discriminate Henc. }
    simpl in Hrun.
    exists w', (JsError "Failed to convert video with any quality settings").
    split; [exact Hrun|].
    destruct (errors_raised "/tmp" "0.4fzyo82mvyr" Samples.always_fails (Samples.zeros 9)
                Samples.empty_world w'
                (JsError "Failed to convert video with any quality settings"))
      as (Hadaptive & _).
    exact (Hadaptive Adaptive.qualityLevels (500 * 1024) Hrun).
  - destruct (optimized_no_fit "/tmp" "0.4fzyo82mvyr" Samples.always_fails (Samples.zeros 9)
                VideoToGif.qualityLevels Samples.empty_world) as (w' & _ & Hrun & _).
    { intros j settings output _ Henc. discriminate Henc. }
    exists w'. split; [exact Hrun|].
    destruct (errors_raised "/tmp" "0.4fzyo82mvyr" Samples.always_fails (Samples.zeros 9)
                Samples.empty_world w' (JsError "ffmpeg exited with code 1"))
      as (_ & Hoptimized).
    destruct (Hoptimized VideoToGif.qualityLevels Hrun) as (settings & _ & _ & Hvideo).
    + discriminate.
    + exact Hvideo.
Defined.

(** X13.  The optimized [videoToGif] touches only its own files: every path
    but that of its input file holds what it held, or has lost the output
    file of a ladder entry; and whenever the function returns, the input
    file is gone and no file has been created or changed. *)
Theorem optimized_touches_only_its_files
    (tmpdir random36 : string) (codec : Buffer -> list string -> Outcome Buffer)
    (levels : list VideoToGif.Settings) (data : Buffer) (w : World) :
  exists w' outcome,
    VideoToGif.convert tmpdir random36 codec levels data w = (w', outcome) /\
    match outcome with
    | Returns _ => files w' !! VideoToGif.video tmpdir random36 = None /\ files w' ⊆ files w
    | Throws _ => True
    end /\
    forall p,
      p = VideoToGif.video tmpdir random36
      \/ files w' !! p = files w !! p
      \/ (files w' !! p = None /\
          exists settings,
            In settings levels /\ p = VideoToGif.webpFile tmpdir random36 settings).
Proof.
  destruct (optimized_convert_effect tmpdir random36 codec levels data w)
    as (w' & outcome & n & Hrun & _ & _ & _ & Hvideo & Hfiles).
  exists w', outcome. split; [exact Hrun|]. split.
  - destruct outcome as [buffer|error]; [|exact I].
    destruct Hvideo as [Hvideo | (_ & error & Herror)]; [|discriminate Herror].
    split; [exact Hvideo|].
    apply map_subseteq_spec. intros p output Hp.
    destruct (decide (p = VideoToGif.video tmpdir random36)) as [->|Hne]; [congruence|].
    destruct (Hfiles p Hne) as [H | [H _]]; congruence.
  - intros p. destruct (decide (p = VideoToGif.video tmpdir random36)) as [->|Hne]; auto.
Qed.

(** X14.  The size guarantee of the two adaptive converters: each returns a
    buffer within the target exactly when the encoder's output for some
    entry of the ladder is within the target.  So an oversized result means
    that no entry could have fitted, and a failure of the encoder on some
    entries never costs a fitting result of another. *)
Theorem fits_iff_some_level_fits
    (tmpdir random36 : string) (codec : Buffer -> list string -> Outcome Buffer)
    (data : Buffer) (w : World) :
  (forall levels : list VideoToGif.Settings,
     (exists w' buffer,
        VideoToGif.convert tmpdir random36 codec levels data w = (w', Returns buffer) /\
        buffer_length buffer <= VideoToGif.targetSize)
     <->
     (exists k settings output,
        levels !! k = Some settings /\
        VideoToGif.encoded codec data k settings = Returns output /\
        buffer_length output <= VideoToGif.targetSize)) /\
  (forall (levels : list Adaptive.Settings) targetSize,
     (exists w' buffer,
        Adaptive.convert tmpdir random36 codec levels data targetSize w
        = (w', Returns buffer) /\
        buffer_length buffer <= targetSize)
     <->
     (exists k settings output,
        levels !! k = Some settings /\
        Adaptive.encoded codec data settings = Returns output /\
        buffer_length output <= targetSize)).
Proof.
  split.
  - intros levels.
    destruct (optimized_least_fit codec data levels)
      as [Hnone | (k & settings & buffer & Hk & Henc & Hfits & Hfirst)].
    + split.
      * intros (w' & buffer & Hrun & Hfits). exfalso.
        destruct (optimized_no_fit tmpdir random36 codec data levels w Hnone)
          as (w1 & _ & Hlast).
        destruct (last levels) as [settings|] eqn:Hl.
        -- rewrite last_lookup in Hl.
           destruct (VideoToGif.encoded codec data (pred (length levels)) settings)
             as [output|error] eqn:Henc; destruct Hlast as [Hrun1 _];
             rewrite Hrun in Hrun1; [|discriminate Hrun1].
           injection Hrun1 as _ <-.
           specialize (Hnone _ _ _ Hl Henc). lia.
        -- destruct Hlast as [Hrun1 _]. rewrite Hrun in Hrun1. discriminate Hrun1.
      * intros (k & settings & output & Hk & Henc & Hfits).
        specialize (Hnone _ _ _ Hk Henc). lia.
    + split.
      * intros _. eauto 10.
      * intros _.
        destruct (optimized_first_fit tmpdir random36 codec data levels k settings buffer w
                    Hk Henc Hfits Hfirst) as (w1 & Hrun1 & _).
        eauto.
  - intros levels targetSize.
    destruct (adaptive_least_fit codec data levels targetSize)
      as [Hnone | (k & settings & buffer & Hk & Henc & Hfits & Hfirst)].
    + split.
      * intros (w' & buffer & Hrun & Hfits). exfalso.
        destruct (adaptive_no_fit tmpdir random36 codec data levels targetSize w Hnone)
          as (w1 & _ & _ & Hrun1).
        rewrite Hrun in Hrun1.
        destruct (last levels) as [settings|] eqn:Hl; [|discriminate Hrun1].
        rewrite last_lookup in Hl.
        destruct (Adaptive.encoded codec data settings) as [output|error] eqn:Henc;
          [|discriminate Hrun1].
        injection Hrun1 as _ <-.
        specialize (Hnone _ _ _ Hl Henc). lia.
      * intros (k & settings & output & Hk & Henc & Hfits).
        specialize (Hnone _ _ _ Hk Henc). lia.
    + split.
      * intros _. eauto 10.
      * intros _.
        destruct (adaptive_first_fit tmpdir random36 codec data levels targetSize k settings
                    buffer w Hk Henc Hfits Hfirst) as (w1 & Hrun1 & _).
        eauto.
Qed.

(** ** The single-pass converter, the fallback and crop *)

Lemma standard_video_not_webp (tmpdir random36 : string) :
  VideoToGifStandard.video tmpdir random36 <> VideoToGifStandard.webp tmpdir random36.
Proof.
  unfold VideoToGifStandard.video, VideoToGifStandard.webp. intros H.
  apply append_same_start in H. discriminate H.
Qed.

Lemma single_pass_run (codec : Buffer -> list string -> Outcome Buffer)
    (video webp : string) (options : list string) (data : Buffer) (w : World) :
  video <> webp ->
  exists w',
    ffmpeg_runs w'
    = (ffmpeg_runs w
       ++ [{| run_input := video; run_options := options; run_output := webp |}])%list /\
    (forall p, p = video \/ p = webp \/ files w' !! p = files w !! p) /\
    match codec data options with
    | Returns buffer =>
        (writeFile video data;;
         ffmpeg_save codec video options webp;;
         let* buffer := readFile webp in
         try_catch (promise_all2 (unlink video) (unlink webp)) (fun _ => ret tt);;
         ret buffer) w = (w', Returns buffer)
        /\ files w' !! video = None /\ files w' !! webp = None
    | Throws error =>
        (writeFile video data;;
         ffmpeg_save codec video options webp;;
         let* buffer := readFile webp in
         try_catch (promise_all2 (unlink video) (unlink webp)) (fun _ => ret tt);;
         ret buffer) w = (w', Throws error)
        /\ files w' !! video = Some data /\ files w' !! webp = files w !! webp
    end.
Proof.
  intros Hne.
  unfold ffmpeg_save, readFile, writeFile, promise_all2, unlink. run_eff.
  rewrite lookup_insert_eq. simpl.
  destruct (codec data options) as [buffer|error]; simpl.
  - rewrite lookup_insert_eq. simpl.
    rewrite lookup_insert_ne by congruence. rewrite lookup_insert_eq. simpl.
    rewrite lookup_delete_ne by congruence. rewrite lookup_insert_eq. simpl.
    refine (ex_intro _ {| files := _; ffmpeg_runs := _ |} _). simpl.
    split; [reflexivity|]. split; [|split; [reflexivity|]]; simpl.
    + intros p. destruct (decide (p = video)) as [->|Hv]; [auto|].
      destruct (decide (p = webp)) as [->|Hw]; [auto|].
      right; right. rewrite !lookup_delete_ne, !lookup_insert_ne by congruence.
      reflexivity.
    + split; [|apply lookup_delete_eq].
      rewrite lookup_delete_ne by congruence. apply lookup_delete_eq.
  - refine (ex_intro _ {| files := _; ffmpeg_runs := _ |} _). simpl.
    split; [reflexivity|]. split; [|split; [reflexivity|]]; simpl.
    + intros p. destruct (decide (p = video)) as [->|Hv]; [auto|].
      right; right. rewrite lookup_insert_ne by congruence. reflexivity.
    + split; [apply lookup_insert_eq|]. apply lookup_insert_ne. congruence.
Qed.

(** X15.  The single-pass [videoToGif] returns whatever ffmpeg produced,
    of any size: it runs ffmpeg once and measures nothing.  When ffmpeg
    succeeds both temp files are removed; when it fails the error is passed
    on and the input file is left in the temp directory.  No other path is
    touched. *)
Theorem single_pass_conversion
    (tmpdir random36 : string) (codec : Buffer -> list string -> Outcome Buffer)
    (data : Buffer) (w : World) :
  exists w',
    ffmpeg_runs w' = (ffmpeg_runs w ++ [VideoToGifStandard.run tmpdir random36])%list /\
    (forall p, p = VideoToGifStandard.video tmpdir random36
               \/ p = VideoToGifStandard.webp tmpdir random36
               \/ files w' !! p = files w !! p) /\
    match codec data VideoToGifStandard.outputOptions with
    | Returns buffer =>
        VideoToGifStandard.videoToGif tmpdir random36 codec data w = (w', Returns buffer)
        /\ files w' !! VideoToGifStandard.video tmpdir random36 = None
        /\ files w' !! VideoToGifStandard.webp tmpdir random36 = None
    | Throws error =>
        VideoToGifStandard.videoToGif tmpdir random36 codec data w = (w', Throws error)
        /\ files w' !! VideoToGifStandard.video tmpdir random36 = Some data
        /\ files w' !! VideoToGifStandard.webp tmpdir random36
           = files w !! VideoToGifStandard.webp tmpdir random36
    end.
Proof.
  exact (single_pass_run codec _ _ VideoToGifStandard.outputOptions data w
           (standard_video_not_webp tmpdir random36)).
Qed.

Lemma fallback_video_not_webp (tmpdir random36' : string) :
  VideoToGifFallback.video tmpdir random36' <> VideoToGifFallback.webp tmpdir random36'.
Proof.
  unfold VideoToGifFallback.video, VideoToGifFallback.webp. intros H.
  apply append_same_start in H. discriminate H.
Qed.

(** X16.  [videoToGif] with its fallback.  When [adaptiveVideoToWebp]
    returns, the wrapper returns the same buffer and does nothing more.
    When it raises, all five entries of its ladder have been run, and the
    wrapper runs ffmpeg once more with the fallback options: it returns that
    output unmeasured, or passes on the error of ffmpeg and leaves the
    fallback's input file behind. *)
Theorem fallback_after_adaptive
    (tmpdir random36 random36' : string) (codec : Buffer -> list string -> Outcome Buffer)
    (data : Buffer) (w : World) :
  match Adaptive.adaptiveVideoToWebp tmpdir random36 codec data
          Adaptive.default_targetSize w with
  | (w1, Returns buffer) =>
      VideoToGifFallback.videoToGif tmpdir random36 random36' codec data w
      = (w1, Returns buffer)
  | (w1, Throws _) =>
      ffmpeg_runs w1
      = (ffmpeg_runs w ++ map (Adaptive.run_of tmpdir random36) Adaptive.qualityLevels)%list /\
      exists w',
        ffmpeg_runs w' = (ffmpeg_runs w1 ++ [VideoToGifFallback.run tmpdir random36'])%list /\
        match codec data VideoToGifFallback.outputOptions with
        | Returns buffer =>
            VideoToGifFallback.videoToGif tmpdir random36 random36' codec data w
            = (w', Returns buffer)
            /\ files w' !! VideoToGifFallback.video tmpdir random36' = None
            /\ files w' !! VideoToGifFallback.webp tmpdir random36' = None
        | Throws error =>
            VideoToGifFallback.videoToGif tmpdir random36 random36' codec data w
            = (w', Throws error)
            /\ files w' !! VideoToGifFallback.video tmpdir random36' = Some data
        end
  end.
Proof.
  unfold VideoToGifFallback.videoToGif, try_catch.
  destruct (Adaptive.adaptiveVideoToWebp tmpdir random36 codec data
              Adaptive.default_targetSize w) as [w1 [buffer|error]] eqn:Hadaptive;
    [reflexivity|].
  split.
  - unfold Adaptive.adaptiveVideoToWebp in Hadaptive.
    destruct (adaptive_least_fit codec data Adaptive.qualityLevels
                Adaptive.default_targetSize)
      as [Hnone | (k & settings & buffer & Hk & Henc & Hfits & Hfirst)].
    + destruct (adaptive_no_fit tmpdir random36 codec data Adaptive.qualityLevels
                  Adaptive.default_targetSize w Hnone) as (w2 & Hruns & _ & Hrun).
      rewrite Hadaptive in Hrun. injection Hrun as -> _. exact Hruns.
    + destruct (adaptive_first_fit tmpdir random36 codec data Adaptive.qualityLevels
                  Adaptive.default_targetSize k settings buffer w Hk Henc Hfits Hfirst)
        as (w2 & Hrun & _).
      rewrite Hadaptive in Hrun. discriminate Hrun.
  - destruct (single_pass_run codec _ _ VideoToGifFallback.outputOptions data w1
                (fallback_video_not_webp tmpdir random36'))
      as (w' & Hruns & _ & Hrun).
    exists w'. split; [exact Hruns|].
    unfold VideoToGifFallback.fallback.
    destruct (codec data VideoToGifFallback.outputOptions) as [buffer|error'].
    + exact Hrun.
    + destruct Hrun as (Hrun & Hvideo & _). auto.
Qed.

(** X17.  [crop] never removes the file it makes ffmpeg write: after a
    crop that returns, the output is still in the temp directory under the
    name drawn for it, and nothing else has changed.  A crop that raises
    leaves the files as they were, and when the source file is there the
    error is that of ffmpeg. *)
Theorem crop_keeps_its_output
    (tmpdir random36 : string) (codec : Buffer -> list string -> Outcome Buffer)
    (filename : string) (w : World) :
  exists w' outcome,
    Crop.crop tmpdir random36 codec filename w = (w', outcome) /\
    ffmpeg_runs w' = (ffmpeg_runs w ++ [Crop.run tmpdir random36 filename])%list /\
    match outcome with
    | Returns buffer =>
        (exists source,
           files w !! filename = Some source /\
           codec source Crop.outputOptions = Returns buffer) /\
        files w' = <[Crop.name tmpdir random36 := buffer]> (files w)
    | Throws error =>
        files w' = files w /\
        match files w !! filename with
        | Some source => codec source Crop.outputOptions = Throws error
        | None => True
        end
    end.
Proof.
  unfold Crop.crop, ffmpeg_save, readFile, writeFile. run_eff.
  destruct (files w !! filename) as [source|] eqn:Hsource; simpl.
  - destruct (codec source Crop.outputOptions) as [buffer|error] eqn:Hcodec; simpl.
    + rewrite lookup_insert_eq. simpl.
      eexists _, _. split; [reflexivity|]. split; [reflexivity|]. simpl.
      split; [|reflexivity]. exists source. auto.
    + eexists _, _. split; [reflexivity|]. split; [reflexivity|]. simpl.
      auto.
  - eexists _, _. split; [reflexivity|]. split; [reflexivity|]. simpl.
    auto.
Qed.

(** ** The converter with a pre-check *)

Section PrecheckedSteps.

Variable fromBuffer : Buffer -> Outcome (option FileTypeResult).
Variable sharp_metadata : Buffer -> Outcome SharpMetadata.
Variables (tmpdir random36 : string).
Variable codec : Buffer -> list string -> Outcome Buffer.
Variable data : Buffer.

(** The input is a WebP within the target size that decodes to 512 x 512. *)
Local Abbreviation meets_requirements :=
  (exists fileType metadata,
     fromBuffer data = Returns (Some fileType) /\
     mime fileType = "image/webp" /\
     buffer_length data <= VideoToGifPrechecked.targetSize /\
     sharp_metadata data = Returns metadata /\
     md_width metadata = Some 512 /\ md_height metadata = Some 512).

(** The pre-check never throws and never touches the files. *)
Lemma precheck_run (w : World) :
  exists done,
    VideoToGifPrechecked.precheck fromBuffer sharp_metadata data w = (w, Returns done) /\
    (done = true <-> meets_requirements).
Proof.
  unfold VideoToGifPrechecked.precheck. run_eff.
  destruct (fromBuffer data) as [[fileType|]|error] eqn:Htype; simpl.
  2,3: exists false; split; [reflexivity|];
       split; [discriminate | intros (? & ? & H & _); discriminate H].
  destruct (String.eqb (mime fileType) "image/webp") eqn:Hmime.
  2: { exists false. split; [reflexivity|]. split; [discriminate|].
       intros (? & ? & H & Hm & _). injection H as <-.
       apply String.eqb_neq in Hmime. contradiction. }
  apply String.eqb_eq in Hmime.
  destruct (buffer_length data <=? VideoToGifPrechecked.targetSize) eqn:Hsize.
  2: { exists false. split; [reflexivity|]. split; [discriminate|].
       intros (? & ? & _ & _ & H & _). apply Z.leb_gt in Hsize. lia. }
  apply Z.leb_le in Hsize.
  destruct (sharp_metadata data) as [metadata|error] eqn:Hmeta; simpl.
  2: { exists false. split; [reflexivity|]. split; [discriminate|].
       intros (? & ? & _ & _ & _ & H & _). discriminate H. }
  eexists. split; [reflexivity|].
  destruct (md_width metadata) as [width|] eqn:Hwidth.
  2: { split; [discriminate|].
       intros (? & ? & _ & _ & _ & H & Hw & _). injection H as <-. congruence. }
  destruct (md_height metadata) as [height|] eqn:Hheight.
  2: { split; [discriminate|].
       intros (? & ? & _ & _ & _ & H & _ & Hh). injection H as <-. congruence. }
  split.
  - intros H. apply andb_true_iff in H as [H1 H2].
    apply Z.eqb_eq in H1, H2. subst width height.
    exists fileType, metadata. auto 10.
  - intros (? & ? & _ & _ & _ & H & Hw & Hh). injection H as <-.
    rewrite Hwidth in Hw. rewrite Hheight in Hh.
    injection Hw as ->. injection Hh as ->. reflexivity.
Qed.

End PrecheckedSteps.

(** X18.  An input that is already a WebP of at most 500 KiB decoding to
    512 x 512 is returned as it is: no temp file is written and ffmpeg is
    not run, whatever the encoder would have done. *)
Theorem compliant_webp_is_returned_as_is
    (fromBuffer : Buffer -> Outcome (option FileTypeResult))
    (sharp_metadata : Buffer -> Outcome SharpMetadata)
    (tmpdir random36 : string) (codec : Buffer -> list string -> Outcome Buffer)
    (data : Buffer) (w : World) (fileType : FileTypeResult) (metadata : SharpMetadata) :
  fromBuffer data = Returns (Some fileType) ->
  mime fileType = "image/webp" ->
  buffer_length data <= VideoToGifPrechecked.targetSize ->
  sharp_metadata data = Returns metadata ->
  md_width metadata = Some 512 ->
  md_height metadata = Some 512 ->
  VideoToGifPrechecked.videoToGif fromBuffer sharp_metadata tmpdir random36 codec data w
  = (w, Returns data).
Proof.
  intros Htype Hmime Hsize Hmeta Hwidth Hheight.
  destruct (precheck_run fromBuffer sharp_metadata data w) as (done & Hrun & Hdone).
  unfold VideoToGifPrechecked.videoToGif.
  rewrite (bind_returns _ _ _ _ _ Hrun).
  replace done with true; [reflexivity|].
  symmetry. apply Hdone. exists fileType, metadata. auto 10.
Qed.

Lemma compliant_webp_is_returned_as_is_witness :
  VideoToGifPrechecked.videoToGif (Samples.detects "webp" "image/webp")
    (Samples.decodes_to 512 512 30) "/tmp" "0.4fzyo82mvyr" Samples.always_fails
    (Samples.zeros 9) Samples.empty_world
  = (Samples.empty_world, Returns (Samples.zeros 9)).
Proof.
  apply (compliant_webp_is_returned_as_is _ _ _ _ _ _ _
           {| ext := "webp"; mime := "image/webp" |}
           {| md_width := Some 512; md_height := Some 512; md_pages := Some 30 |}).
  - reflexivity.
  - reflexivity.
  - vm_compute. discriminate.
  - reflexivity.
  - reflexivity.
  - reflexivity.
Defined.

(** X19.  Any other input is converted: ffmpeg is run at least once, on
    the first entries of the ladder in order and on nothing else; and the
    ladder starts at quality 70 for an input of at most 600 KiB, at quality
    50 for a larger one. *)
Theorem other_input_is_converted
    (fromBuffer : Buffer -> Outcome (option FileTypeResult))
    (sharp_metadata : Buffer -> Outcome SharpMetadata)
    (tmpdir random36 : string) (codec : Buffer -> list string -> Outcome Buffer)
    (data : Buffer) (w : World) :
  ~ (exists fileType metadata,
       fromBuffer data = Returns (Some fileType) /\
       mime fileType = "image/webp" /\
       buffer_length data <= VideoToGifPrechecked.targetSize /\
       sharp_metadata data = Returns metadata /\
       md_width metadata = Some 512 /\ md_height metadata = Some 512) ->
  exists w' outcome n first,
    VideoToGifPrechecked.videoToGif fromBuffer sharp_metadata tmpdir random36 codec data w
    = (w', outcome) /\
    (1 <= n <= length (VideoToGifPrechecked.qualityLevels data))%nat /\
    ffmpeg_runs w'
    = (ffmpeg_runs w
       ++ VideoToGifPrechecked.runs_from tmpdir random36 0
            (take n (VideoToGifPrechecked.qualityLevels data)))%list /\
    head (VideoToGifPrechecked.qualityLevels data) = Some first /\
    VideoToGif.quality first = (if buffer_length data <=? 600 * 1024 then 70 else 50).
Proof.
  intros Hnot.
  destruct (precheck_run fromBuffer sharp_metadata data w) as (done & Hrun & Hdone).
  destruct done; [exfalso; apply Hnot, Hdone; reflexivity|].
  unfold VideoToGifPrechecked.videoToGif.
  rewrite (bind_returns _ _ _ _ _ Hrun).
  destruct (prechecked_loop_effect tmpdir random36 codec
              (VideoToGifPrechecked.qualityLevels data)
              (VideoToGifPrechecked.qualityLevels data) 0%nat None
              (set_files (<[VideoToGifPrechecked.video tmpdir random36 := data]> (files w)) w))
    as (w1 & outcome & n & Hloop & Hn & Hpos & Hruns & _).
  assert (Hfirst : exists first,
            head (VideoToGifPrechecked.qualityLevels data) = Some first /\
            VideoToGif.quality first = (if buffer_length data <=? 600 * 1024 then 70 else 50)).
  { unfold VideoToGifPrechecked.qualityLevels.
    destruct (buffer_length data <=? 600 * 1024); simpl; eauto. }
  destruct Hfirst as (first & Hhead & Hquality).
  assert (Hn1 : (1 <= n)%nat).
  { destruct Hpos as [H | H]; [exact H|]. rewrite H in Hhead. discriminate Hhead. }
  unfold VideoToGifPrechecked.convert, writeFile. unfold bind at 1. unfold modify at 1.
  destruct outcome as [result|error].
  - rewrite (bind_returns _ _ _ _ _ Hloop).
    pose proof (runs_unlink_quietly (VideoToGifPrechecked.video tmpdir random36) w1)
      as [Hruns1 Hret].
    unfold bind at 1.
    destruct (unlink_quietly (VideoToGifPrechecked.video tmpdir random36) w1)
      as [w2 o] eqn:Hunlink.
    simpl in Hret, Hruns1. subst o.
    exists w2, (match result with
                | Some buffer => Returns buffer
                | None => Throws (JsError "Failed to convert video with any quality settings")
                end), n, first.
    split; [destruct result; reflexivity|].
    split; [lia|]. split; [rewrite Hruns1; exact Hruns|]. auto.
  - rewrite (bind_throws _ _ _ _ _ Hloop).
    exists w1, (Throws error), n, first.
    split; [reflexivity|]. split; [lia|]. split; [exact Hruns|]. auto.
Qed.

Lemma other_input_is_converted_witness :
  exists w' outcome n first,
    VideoToGifPrechecked.videoToGif Samples.unknown_type Samples.undecodable
      "/tmp" "0.4fzyo82mvyr" Samples.always_fails (Samples.zeros 9) Samples.empty_world
    = (w', outcome) /\
    (1 <= n <= length (VideoToGifPrechecked.qualityLevels (Samples.zeros 9)))%nat /\
    ffmpeg_runs w'
    = (ffmpeg_runs Samples.empty_world
       ++ VideoToGifPrechecked.runs_from "/tmp" "0.4fzyo82mvyr" 0
            (take n (VideoToGifPrechecked.qualityLevels (Samples.zeros 9))))%list /\
    head (VideoToGifPrechecked.qualityLevels (Samples.zeros 9)) = Some first /\
    VideoToGif.quality first = (if buffer_length (Samples.zeros 9) <=? 600 * 1024 then 70 else 50).
Proof.
  apply (other_input_is_converted Samples.unknown_type Samples.undecodable).
  intros (fileType & metadata & Htype & _). discriminate Htype.
Defined.

(** The pre-check hands any other input to the ladder. *)
Lemma prechecked_goes_on
    (fromBuffer : Buffer -> Outcome (option FileTypeResult))
    (sharp_metadata : Buffer -> Outcome SharpMetadata)
    (tmpdir random36 : string) (codec : Buffer -> list string -> Outcome Buffer)
    (data : Buffer) (w : World) :
  ~ (exists fileType metadata,
       fromBuffer data = Returns (Some fileType) /\
       mime fileType = "image/webp" /\
       buffer_length data <= VideoToGifPrechecked.targetSize /\
       sharp_metadata data = Returns metadata /\
       md_width metadata = Some 512 /\ md_height metadata = Some 512) ->
  VideoToGifPrechecked.videoToGif fromBuffer sharp_metadata tmpdir random36 codec data w
  = VideoToGifPrechecked.convert tmpdir random36 codec
      (VideoToGifPrechecked.qualityLevels data) data w.
Proof.
  intros Hnot.
  destruct (precheck_run fromBuffer sharp_metadata data w) as (done & Hrun & Hdone).
  destruct done; [exfalso; apply Hnot, Hdone; reflexivity|].
  unfold VideoToGifPrechecked.videoToGif.
  rewrite (bind_returns _ _ _ _ _ Hrun). reflexivity.
Qed.

(** X20.  What the converter with a pre-check returns for an input that
    fails the pre-check.  It returns the output of the first entry of its
    ladder that is within 500 KiB, after running ffmpeg for the entries up
    to that one only, and then the input file is removed.  When no output is
    within the target, all entries are run and the last one decides: its
    output is returned, oversized; or, when ffmpeg failed on it, that error
    is raised and the input file is left in the temp directory. *)
Theorem prechecked_conversion_outcome
    (fromBuffer : Buffer -> Outcome (option FileTypeResult))
    (sharp_metadata : Buffer -> Outcome SharpMetadata)
    (tmpdir random36 : string) (codec : Buffer -> list string -> Outcome Buffer)
    (data : Buffer) (w : World) :
  ~ (exists fileType metadata,
       fromBuffer data = Returns (Some fileType) /\
       mime fileType = "image/webp" /\
       buffer_length data <= VideoToGifPrechecked.targetSize /\
       sharp_metadata data = Returns metadata /\
       md_width metadata = Some 512 /\ md_height metadata = Some 512) ->
  (forall k settings buffer,
     VideoToGifPrechecked.qualityLevels data !! k = Some settings ->
     VideoToGifPrechecked.encoded codec data k settings = Returns buffer ->
     buffer_length buffer <= VideoToGifPrechecked.targetSize ->
     (forall j earlier output, (j < k)%nat ->
        VideoToGifPrechecked.qualityLevels data !! j = Some earlier ->
        VideoToGifPrechecked.encoded codec data j earlier = Returns output ->
        VideoToGifPrechecked.targetSize < buffer_length output) ->
     exists w',
       VideoToGifPrechecked.videoToGif fromBuffer sharp_metadata tmpdir random36 codec data w
       = (w', Returns buffer) /\
       ffmpeg_runs w'
       = (ffmpeg_runs w
          ++ VideoToGifPrechecked.runs_from tmpdir random36 0
               (take (S k) (VideoToGifPrechecked.qualityLevels data)))%list /\
       files w' !! VideoToGifPrechecked.video tmpdir random36 = None) /\
  ((forall j settings output,
      VideoToGifPrechecked.qualityLevels data !! j = Some settings ->
      VideoToGifPrechecked.encoded codec data j settings = Returns output ->
      VideoToGifPrechecked.targetSize < buffer_length output) ->
   exists w' settings,
     last (VideoToGifPrechecked.qualityLevels data) = Some settings /\
     ffmpeg_runs w'
     = (ffmpeg_runs w
        ++ VideoToGifPrechecked.runs_from tmpdir random36 0
             (VideoToGifPrechecked.qualityLevels data))%list /\
     match VideoToGifPrechecked.encoded codec data
             (pred (length (VideoToGifPrechecked.qualityLevels data))) settings with
     | Returns buffer =>
         VideoToGifPrechecked.videoToGif fromBuffer sharp_metadata tmpdir random36 codec
           data w = (w', Returns buffer)
         /\ files w' !! VideoToGifPrechecked.video tmpdir random36 = None
     | Throws error =>
         VideoToGifPrechecked.videoToGif fromBuffer sharp_metadata tmpdir random36 codec
           data w = (w', Throws error)
         /\ files w' !! VideoToGifPrechecked.video tmpdir random36 = Some data
     end).
Proof.
  intros Hnot.
  rewrite (prechecked_goes_on fromBuffer sharp_metadata tmpdir random36 codec data w Hnot).
  split.
  - intros k settings buffer Hk Henc Hfits Hfirst.
    exact (prechecked_first_fit tmpdir random36 codec data _ k settings buffer w
             Hk Henc Hfits Hfirst).
  - intros Hnone.
    destruct (prechecked_no_fit tmpdir random36 codec data _ w Hnone) as (w' & Hruns & Hlast).
    destruct (last (VideoToGifPrechecked.qualityLevels data)) as [settings|] eqn:Hl.
    + exists w', settings. auto.
    + apply last_None in Hl. unfold VideoToGifPrechecked.qualityLevels in Hl.
      destruct (buffer_length data <=? 600 * 1024); discriminate Hl.
Qed.

Lemma prechecked_conversion_outcome_witness :
  (exists w',
     VideoToGifPrechecked.videoToGif Samples.unknown_type Samples.undecodable
       "/tmp" "0.4fzyo82mvyr" (Samples.shrinking "70" (600 * 1024) (420 * 1024))
       (Samples.zeros 9) Samples.empty_world
     = (w', Returns (Samples.zeros (420 * 1024))) /\
     length (ffmpeg_runs w') = 2%nat) /\
  (exists w',
     VideoToGifPrechecked.videoToGif Samples.unknown_type Samples.undecodable
       "/tmp" "0.4fzyo82mvyr" Samples.always_fails (Samples.zeros 9) Samples.empty_world
     = (w', Throws (JsError "ffmpeg exited with code 1")) /\
     files w' !! VideoToGifPrechecked.video "/tmp" "0.4fzyo82mvyr" = Some (Samples.zeros 9)).
Proof.
  assert (Hnot : ~ (exists fileType metadata,
                      Samples.unknown_type (Samples.zeros 9) = Returns (Some fileType) /\
                      mime fileType = "image/webp" /\
                      buffer_length (Samples.zeros 9) <= VideoToGifPrechecked.targetSize /\
                      Samples.undecodable (Samples.zeros 9) = Returns metadata /\
                      md_width metadata = Some 512 /\ md_height metadata = Some 512)).
  { intros (fileType & metadata & Htype & _). discriminate Htype. }
  split.
  - destruct (prechecked_conversion_outcome Samples.unknown_type Samples.undecodable
                "/tmp" "0.4fzyo82mvyr" (Samples.shrinking "70" (600 * 1024) (420 * 1024))
                (Samples.zeros 9) Samples.empty_world Hnot) as (Hfit & _).
    destruct (Hfit 1%nat
                {| VideoToGif.quality := 50; VideoToGif.fps := 10; VideoToGif.duration := 10;
                   VideoToGif.compression := 5; VideoToGif.method := 4 |}
                (Samples.zeros (420 * 1024))) as (w' & Hrun & Hruns & _).
    + reflexivity.
    + reflexivity.
    + rewrite length_zeros by lia. unfold VideoToGifPrechecked.targetSize. lia.
    + intros j earlier output Hj Hlook Henc.
      destruct j as [|j]; [|lia]. injection Hlook as <-.
      injection Henc as <-. rewrite length_zeros by lia.
      unfold VideoToGifPrechecked.targetSize. lia.
    + exists w'. split; [exact Hrun|]. rewrite Hruns. reflexivity.
  - destruct (prechecked_conversion_outcome Samples.unknown_type Samples.undecodable
                "/tmp" "0.4fzyo82mvyr" Samples.always_fails
                (Samples.zeros 9) Samples.empty_world Hnot) as (_ & Hnone).
    destruct Hnone as (w' & settings & _ & _ & Hlast).
    + intros j settings output _ Henc. discriminate Henc.
    + exists w'. exact Hlast.
Defined.
